(** * ResumeForge: the document mutation layer of [tools.py] over [schema.py]

    A shallow embedding of the resume CRUD tools.  The resume file holds one
    JSON value; every tool loads it, mutates the loaded dictionary, validates
    it against the Pydantic models of [schema.py] and writes it back.

    Conventions of the embedding:
    - a Python [str] is a [string] whose characters are the code points below
      256 (so [strip] and [int] see the Latin-1 part of Python's whitespace
      and digit tables);
    - a value obtained from [json.load] is a [json] tree; a [dict] is an
      association list in insertion order;
    - a Python exception is an [exn] carried by [result]; tools run in the
      monad [M], which threads the contents of the resume file. *)

From Stdlib Require Import ZArith List String Ascii Bool Lia DecimalString.
From Stdlib Require Import DecimalPos.
Import ListNotations.
Local Open Scope string_scope.
Local Open Scope Z_scope.
Local Set Warnings "-register-all".

(** ** Python values and built-ins *)

Module Py.

(** Exceptions raised by the built-ins used in [tools.py]; [StorageError]
    stands for a missing, unreadable or malformed resume file and
    [ValidationError] for Pydantic's. *)
Inductive exn :=
| StorageError | AttributeError | KeyError | TypeError | ValueError
| IndexError | ValidationError.

Inductive result (A : Type) :=
| Ok (a : A)
| Raise (e : exn).
Arguments Ok {A} a.
Arguments Raise {A} e.

Definition rbind {A B} (r : result A) (k : A -> result B) : result B :=
  match r with
  | Ok a => k a
  | Raise e => Raise e
  end.

(** What [json.load] can return.  A float is kept as mantissa and exponent;
    no tool looks inside a number. *)
Inductive json :=
| JNull
| JBool (b : bool)
| JInt (n : Z)
| JFloat (m e : Z)
| JStr (s : string)
| JArr (items : list json)
| JObj (fields : list (string * json)).

(** *** str *)

(** [str.isspace] on code points below 256. *)
Definition is_space (c : ascii) : bool :=
  let n := nat_of_ascii c in
  (((9 <=? n) && (n <=? 13)) || ((28 <=? n) && (n <=? 32))
   || (n =? 133) || (n =? 160))%nat.

Fixpoint lstrip (s : string) : string :=
  match s with
  | EmptyString => EmptyString
  | String c s' => if is_space c then lstrip s' else s
  end.

Fixpoint rstrip (s : string) : string :=
  match s with
  | EmptyString => EmptyString
  | String c s' =>
      match rstrip s' with
      | EmptyString => if is_space c then EmptyString else String c EmptyString
      | r => String c r
      end
  end.

(** [s.strip()] *)
Definition strip (s : string) : string := rstrip (lstrip s).

(** Truth value of a [str]: non-empty. *)
Definition truthy (s : string) : bool :=
  match s with
  | EmptyString => false
  | String _ _ => true
  end.

(** The guard [not s or not s.strip()] of the tools. *)
Definition blank (s : string) : bool :=
  negb (truthy s) || negb (truthy (strip s)).

(** [s.startswith(p)] *)
Definition startswith (s p : string) : bool := String.prefix p s.

(** [s.split(sep)] for a one-character separator. *)
Fixpoint split (sep : ascii) (s : string) : list string :=
  match s with
  | EmptyString => [EmptyString]
  | String c s' =>
      if Ascii.eqb c sep then EmptyString :: split sep s'
      else match split sep s' with
           | [] => [String c EmptyString]
           | w :: ws => String c w :: ws
           end
  end.

(** [l[i]] on a list of pieces, for a non-negative constant [i]. *)
Definition index {A} (l : list A) (i : nat) : result A :=
  match nth_error l i with
  | Some a => Ok a
  | None => Raise IndexError
  end.

Definition digit_of (c : ascii) : option Z :=
  let n := nat_of_ascii c in
  if ((48 <=? n) && (n <=? 57))%nat then Some (Z.of_nat (n - 48)) else None.

(** The digits of an [int] literal: decimal digits, single underscores
    allowed between two digits. *)
Fixpoint parse_digits (acc : Z) (after_digit : bool) (s : string) : option Z :=
  match s with
  | EmptyString => if after_digit then Some acc else None
  | String c s' =>
      match digit_of c with
      | Some d => parse_digits (10 * acc + d) true s'
      | None =>
          if Ascii.eqb c "_" && after_digit then parse_digits acc false s'
          else None
      end
  end.

(** [int(s)] for a [str]: surrounding whitespace stripped, an optional
    sign, then the digits; [ValueError] otherwise.  The interpreter's
    configurable cap on the number of digits of a conversion is left out,
    here and in [str_of_int]. *)
Definition int (s : string) : result Z :=
  let parsed :=
    match strip s with
    | String "+" r => parse_digits 0 false r
    | String "-" r => option_map Z.opp (parse_digits 0 false r)
    | t => parse_digits 0 false t
    end in
  match parsed with
  | Some n => Ok n
  | None => Raise ValueError
  end.

(** [str(n)] for an [int], as an f-string inserts it. *)
Definition str_of_int (n : Z) : string := NilZero.string_of_int (Z.to_int n).

(** [max(l, default=0)] *)
Definition max_default0 (l : list Z) : Z :=
  match l with
  | [] => 0
  | x :: l' => fold_left Z.max l' x
  end.

(** [needle in hay] for two [str]: substring test. *)
Fixpoint is_substring (needle hay : string) : bool :=
  String.prefix needle hay ||
  match hay with
  | EmptyString => false
  | String _ hay' => is_substring needle hay'
  end.

(** [s[:n]] *)
Definition str_take (n : nat) (s : string) : string := String.substring 0 n s.

(** *** dict *)

Definition fields := list (string * json).

Fixpoint dict_get (d : fields) (k : string) : option json :=
  match d with
  | [] => None
  | (k', v) :: d' => if String.eqb k' k then Some v else dict_get d' k
  end.

(** [d[k] = v]: an existing key keeps its position, a new key goes last. *)
Fixpoint dict_set (d : fields) (k : string) (v : json) : fields :=
  match d with
  | [] => [(k, v)]
  | (k', v') :: d' =>
      if String.eqb k' k then (k, v) :: d' else (k', v') :: dict_set d' k v
  end.

(** *** Operations on a value of unknown type *)

(** [v == s] for a [str] [s]. *)
Definition eq_str (v : json) (s : string) : bool :=
  match v with
  | JStr t => String.eqb t s
  | _ => false
  end.

(** [data.get(k, default)] *)
Definition get (data : json) (k : string) (default : json) : result json :=
  match data with
  | JObj d =>
      match dict_get d k with
      | Some v => Ok v
      | None => Ok default
      end
  | _ => Raise AttributeError
  end.

(** [v[k]] for a [str] key. *)
Definition getitem (v : json) (k : string) : result json :=
  match v with
  | JObj d =>
      match dict_get d k with
      | Some x => Ok x
      | None => Raise KeyError
      end
  | _ => Raise TypeError
  end.

(** [v[k] = x] for a [str] key. *)
Definition setitem (v : json) (k : string) (x : json) : result json :=
  match v with
  | JObj d => Ok (JObj (dict_set d k x))
  | _ => Raise TypeError
  end.

(** The elements a [for] loop or a comprehension visits. *)
Definition iter (v : json) : result (list json) :=
  match v with
  | JArr l => Ok l
  | JStr s => Ok (map (fun c => JStr (String c EmptyString)) (list_ascii_of_string s))
  | JObj d => Ok (map (fun kv => JStr (fst kv)) d)
  | _ => Raise TypeError
  end.

(** [len(v)] *)
Definition len (v : json) : result Z :=
  match v with
  | JArr l => Ok (Z.of_nat (List.length l))
  | JStr s => Ok (Z.of_nat (String.length s))
  | JObj d => Ok (Z.of_nat (List.length d))
  | _ => Raise TypeError
  end.

(** [s in v] for a [str] [s]. *)
Definition contains (v : json) (s : string) : result bool :=
  match v with
  | JArr l => Ok (existsb (fun x => eq_str x s) l)
  | JStr t => Ok (is_substring s t)
  | JObj d => Ok (existsb (fun kv => String.eqb (fst kv) s) d)
  | _ => Raise TypeError
  end.

(** [v.append(x)] *)
Definition append (v x : json) : result json :=
  match v with
  | JArr l => Ok (JArr (l ++ [x]))
  | _ => Raise AttributeError
  end.

(** [v.insert(0, x)] *)
Definition insert0 (v x : json) : result json :=
  match v with
  | JArr l => Ok (JArr (x :: l))
  | _ => Raise AttributeError
  end.

(** [l.remove(x)] on a list: the first equal element goes. *)
Fixpoint remove_first (l : list json) (s : string) : option (list json) :=
  match l with
  | [] => None
  | x :: l' =>
      if eq_str x s then Some l'
      else option_map (cons x) (remove_first l' s)
  end.

(** [v.remove(s)] for a [str] [s]. *)
Definition remove (v : json) (s : string) : result json :=
  match v with
  | JArr l =>
      match remove_first l s with
      | Some l' => Ok (JArr l')
      | None => Raise ValueError
      end
  | _ => Raise AttributeError
  end.

Fixpoint list_set {A} (l : list A) (i : nat) (x : A) : list A :=
  match l, i with
  | [], _ => []
  | _ :: l', O => x :: l'
  | y :: l', S i' => y :: list_set l' i' x
  end.

Fixpoint list_del {A} (l : list A) (i : nat) : list A :=
  match l, i with
  | [], _ => []
  | _ :: l', O => l'
  | y :: l', S i' => y :: list_del l' i'
  end.

(** [v[i] = x] for an [int] [i] already checked against [len(v)].  A [dict]
    accepts the assignment under the integer key [i]; that key has no place
    in [fields], and the dictionary is left as it is: it fails validation
    as a list of bullets either way. *)
Definition setindex (v : json) (i : Z) (x : json) : result json :=
  match v with
  | JArr l => Ok (JArr (list_set l (Z.to_nat i) x))
  | JObj d => Ok (JObj d)
  | _ => Raise TypeError
  end.

(** [v.pop(i)] for an [int] [i] already checked against [len(v)]: the
    removed element and what is left.  No [dict] read from JSON has an
    integer key. *)
Definition pop (v : json) (i : Z) : result (json * json) :=
  match v with
  | JArr l =>
      match nth_error l (Z.to_nat i) with
      | Some x => Ok (x, JArr (list_del l (Z.to_nat i)))
      | None => Raise IndexError
      end
  | JObj _ => Raise KeyError
  | _ => Raise AttributeError
  end.

End Py.

(** ** [schema.py]: the Pydantic models

    Validation follows Pydantic 2: a field declared [str] takes a string
    and nothing else, a field declared [List[T]] takes a list, a nested
    model takes a dictionary, and keys outside the model are ignored. *)

Module schema.
Import Py.

Definition is_str (v : json) : bool :=
  match v with
  | JStr _ => true
  | _ => false
  end.

(** A field declared [str = Field(...)]: required, and a [str]. *)
Definition required_str (d : fields) (k : string) : bool :=
  match dict_get d k with
  | Some v => is_str v
  | None => false
  end.

(** A field declared [List[T] = Field(default_factory=list)]: absent, or a
    list whose items all validate as [T]. *)
Definition list_of (item : json -> bool) (d : fields) (k : string) : bool :=
  match dict_get d k with
  | Some (JArr l) => forallb item l
  | Some _ => false
  | None => true
  end.

Definition Experience (v : json) : bool :=
  match v with
  | JObj d =>
      required_str d "id" && required_str d "company" && required_str d "role"
      && required_str d "dates" && list_of is_str d "bullets"
  | _ => false
  end.

Definition Project (v : json) : bool :=
  match v with
  | JObj d =>
      required_str d "id" && required_str d "name"
      && required_str d "description"
  | _ => false
  end.

Definition Education (v : json) : bool :=
  match v with
  | JObj d =>
      required_str d "id" && required_str d "degree"
      && required_str d "institution" && required_str d "year"
  | _ => false
  end.

Definition Resume (v : json) : bool :=
  match v with
  | JObj d =>
      required_str d "summary" && list_of Experience d "experiences"
      && list_of is_str d "skills" && list_of Project d "projects"
      && list_of Education d "education"
  | _ => false
  end.

(** The call of [Resume] on the keyword arguments [data]: keys outside the
    model are ignored. *)
Definition validate (data : json) : result unit :=
  match data with
  | JObj _ => if Resume data then Ok tt else Raise ValidationError
  | _ => Raise TypeError
  end.

End schema.

(** ** [tools.py]: the tools *)

Module tools.
Import Py.

(** The resume file: [None] when it cannot be read as JSON. *)
Definition store := option json.

(** A tool reads the file, may raise, and may write the file. *)
Definition M (A : Type) := store -> result A * store.

Definition ret {A} (a : A) : M A := fun st => (Ok a, st).

Definition bind {A B} (m : M A) (k : A -> M B) : M B :=
  fun st =>
    match m st with
    | (Ok a, st') => k a st'
    | (Raise e, st') => (Raise e, st')
    end.

(** A computation on loaded values only. *)
Definition lift {A} (r : result A) : M A := fun st => (r, st).

Notation "x <- m ;; k" := (bind m (fun x => k))
  (at level 61, m at next level, right associativity).

Definition _load_resume : M json :=
  fun st =>
    match st with
    | Some data => (Ok data, st)
    | None => (Raise StorageError, st)
    end.

(** Validation comes first; the file is written only when it passes. *)
Definition _save_resume (data : json) : M string :=
  fun st =>
    match schema.validate data with
    | Ok _ => (Ok "Resume saved successfully.", Some data)
    | Raise e => (Raise e, st)
    end.

(** *** Loops over a section *)

(** [for e in items: if e["id"] == target: ... return ...]: the first
    element whose id is [target], with its position. *)
Fixpoint find_by_id (items : list json) (target : string) (i : nat)
  : result (option (nat * json)) :=
  match items with
  | [] => Ok None
  | e :: rest =>
      rbind (getitem e "id") (fun v =>
        if eq_str v target then Ok (Some (i, e))
        else find_by_id rest target (S i))
  end.

(** The loop variable is element [i] of the list that [data] holds under
    [key]: an assignment to the loop variable's fields is seen in [data]. *)
Definition put_back (data : json) (key : string) (i : nat) (e : json) : json :=
  match data with
  | JObj d =>
      match dict_get d key with
      | Some (JArr l) => JObj (dict_set d key (JArr (list_set l i e)))
      | _ => data
      end
  | _ => data
  end.

(** [[e for e in items if e["id"] != target]] *)
Fixpoint without_id (items : list json) (target : string) : result (list json) :=
  match items with
  | [] => Ok []
  | e :: rest =>
      rbind (getitem e "id") (fun v =>
      rbind (without_id rest target) (fun kept =>
        Ok (if eq_str v target then kept else e :: kept)))
  end.

(** The receiver of a [str] method. *)
Definition str_method (v : json) : result string :=
  match v with
  | JStr s => Ok s
  | _ => Raise AttributeError
  end.

(** [[int(e["id"].split("_")[1]) for e in items if e["id"].startswith(prefix)]] *)
Fixpoint existing_ids (prefix : string) (items : list json) : result (list Z) :=
  match items with
  | [] => Ok []
  | e :: rest =>
      rbind (getitem e "id") (fun v =>
      rbind (str_method v) (fun s =>
        if startswith s prefix then
          rbind (index (split "_" s) 1) (fun piece =>
          rbind (int piece) (fun n =>
          rbind (existing_ids prefix rest) (fun ns => Ok (n :: ns))))
        else existing_ids prefix rest))
  end.

(** [f"{prefix}{max(existing_ids, default=0) + 1}"] *)
Definition new_id (prefix : string) (ids : list Z) : string :=
  prefix ++ str_of_int (max_default0 ids + 1).

(** [if arg: e[k] = value(arg)] for an [Optional[str]] argument. *)
Definition assign_if (e : json) (k : string) (arg : option string)
    (value : string -> string) : result json :=
  match arg with
  | Some s => if truthy s then setitem e k (JStr (value s)) else Ok e
  | None => Ok e
  end.

Definition not_found (what id : string) : string :=
  "Error: " ++ what ++ " with ID '" ++ id ++ "' not found.".

Section Formatting.

(** [json.dumps(v, indent=2)] *)
Variable json_dumps : json -> string.

(** [str(v)] for a value that is not a [str], as an f-string inserts it. *)
Variable str_of_value : json -> string.

(** *** Read tools *)

Definition get_resume : M json := _load_resume.

Definition valid_sections : list string :=
  ["summary"; "experiences"; "skills"; "projects"; "education"].

Definition get_section (section_name : string) : M string :=
  data <- _load_resume ;;
  if negb (existsb (String.eqb section_name) valid_sections) then
    ret ("Error: Invalid section '" ++ section_name
         ++ "'. Valid sections: ['summary', 'experiences', 'skills', 'projects', 'education']")
  else
    section_data <- lift (get data section_name JNull) ;;
    ret (json_dumps section_data).

Definition get_summary : M json :=
  data <- _load_resume ;;
  lift (get data "summary" (JStr EmptyString)).

(** [get_experiences], [get_skills], [get_projects], [get_education] *)
Definition get_list (key : string) : M string :=
  data <- _load_resume ;;
  section <- lift (get data key (JArr [])) ;;
  ret (json_dumps section).

(** [get_experience_by_id], [get_project_by_id], [get_education_by_id]:
    the three bodies differ in the section key and the word of the
    message. *)
Definition get_by_id (key what id : string) : M string :=
  data <- _load_resume ;;
  section <- lift (get data key (JArr [])) ;;
  items <- lift (iter section) ;;
  found <- lift (find_by_id items id 0) ;;
  match found with
  | Some (_, e) => ret (json_dumps e)
  | None => ret (not_found what id)
  end.

Definition get_experience_by_id (experience_id : string) : M string :=
  get_by_id "experiences" "Experience" experience_id.

Definition get_project_by_id (project_id : string) : M string :=
  get_by_id "projects" "Project" project_id.

Definition get_education_by_id (education_id : string) : M string :=
  get_by_id "education" "Education" education_id.

(** *** Summary *)

Definition update_summary (new_summary : string) : M string :=
  if blank new_summary then ret "Error: Summary cannot be empty."
  else
    data <- _load_resume ;;
    data <- lift (setitem data "summary" (JStr (strip new_summary))) ;;
    _save_resume data.

(** *** Experiences *)

Definition update_experience (experience_id : string)
    (company role dates : option string) : M string :=
  data <- _load_resume ;;
  section <- lift (get data "experiences" (JArr [])) ;;
  items <- lift (iter section) ;;
  found <- lift (find_by_id items experience_id 0) ;;
  match found with
  | Some (i, exp) =>
      exp <- lift (assign_if exp "company" company (fun s => s)) ;;
      exp <- lift (assign_if exp "role" role (fun s => s)) ;;
      exp <- lift (assign_if exp "dates" dates (fun s => s)) ;;
      _save_resume (put_back data "experiences" i exp)
  | None => ret (not_found "Experience" experience_id)
  end.

(** [bullets or []] *)
Definition or_empty (bullets : option (list json)) : list json :=
  match bullets with
  | Some l => l
  | None => []
  end.

Definition add_experience (company role dates : string)
    (bullets : option (list json)) : M string :=
  data <- _load_resume ;;
  experiences <- lift (get data "experiences" (JArr [])) ;;
  items <- lift (iter experiences) ;;
  ids <- lift (existing_ids "exp_" items) ;;
  let id := new_id "exp_" ids in
  let new_exp :=
    JObj [("id", JStr id); ("company", JStr company); ("role", JStr role);
          ("dates", JStr dates); ("bullets", JArr (or_empty bullets))] in
  experiences <- lift (insert0 experiences new_exp) ;;
  data <- lift (setitem data "experiences" experiences) ;;
  _ <- _save_resume data ;;
  ret ("Experience added successfully with ID: " ++ id).

(** [remove_experience], [remove_project], [remove_education]: the three
    bodies differ in the section key and the word of the message. *)
Definition remove_by_id (key what id : string) : M string :=
  data <- _load_resume ;;
  section <- lift (get data key (JArr [])) ;;
  original_len <- lift (len section) ;;
  items <- lift (iter section) ;;
  kept <- lift (without_id items id) ;;
  data <- lift (setitem data key (JArr kept)) ;;
  new_len <- lift (rbind (getitem data key) len) ;;
  if new_len =? original_len then ret (not_found what id)
  else _save_resume data.

Definition remove_experience (experience_id : string) : M string :=
  remove_by_id "experiences" "Experience" experience_id.

(** [exp["bullets"]] is a list held by [exp]: a mutation of it is seen in
    [exp]. *)
Definition with_bullets (exp bullets : json) : json :=
  match exp with
  | JObj d => JObj (dict_set d "bullets" bullets)
  | _ => exp
  end.

Definition add_bullet (experience_id bullet : string) : M string :=
  if blank bullet then ret "Error: Bullet text cannot be empty."
  else
    data <- _load_resume ;;
    section <- lift (get data "experiences" (JArr [])) ;;
    items <- lift (iter section) ;;
    found <- lift (find_by_id items experience_id 0) ;;
    match found with
    | Some (i, exp) =>
        bullets <- lift (getitem exp "bullets") ;;
        bullets <- lift (append bullets (JStr (strip bullet))) ;;
        _save_resume (put_back data "experiences" i (with_bullets exp bullets))
    | None => ret (not_found "Experience" experience_id)
    end.

Definition out_of_range (bullet_index count : Z) : string :=
  "Error: Bullet index " ++ str_of_int bullet_index
  ++ " out of range. Experience has " ++ str_of_int count ++ " bullets.".

Definition update_bullet (experience_id : string) (bullet_index : Z)
    (new_bullet : string) : M string :=
  if blank new_bullet then ret "Error: Bullet text cannot be empty."
  else
    data <- _load_resume ;;
    section <- lift (get data "experiences" (JArr [])) ;;
    items <- lift (iter section) ;;
    found <- lift (find_by_id items experience_id 0) ;;
    match found with
    | Some (i, exp) =>
        bullets <- lift (getitem exp "bullets") ;;
        count <- lift (len bullets) ;;
        if (0 <=? bullet_index) && (bullet_index <? count) then
          bullets <- lift (setindex bullets bullet_index (JStr (strip new_bullet))) ;;
          _save_resume (put_back data "experiences" i (with_bullets exp bullets))
        else ret (out_of_range bullet_index count)
    | None => ret (not_found "Experience" experience_id)
    end.

(** [removed[:50]]; a [dict] takes no slice. *)
Definition take50 (v : json) : result json :=
  match v with
  | JStr s => Ok (JStr (str_take 50 s))
  | JArr l => Ok (JArr (firstn 50 l))
  | _ => Raise TypeError
  end.

Definition format (v : json) : string :=
  match v with
  | JStr s => s
  | _ => str_of_value v
  end.

(** The confirmation of [remove_bullet], computed after the save. *)
Definition removed_message (removed : json) : result string :=
  rbind (len removed) (fun n =>
    if n >? 50 then
      rbind (take50 removed) (fun head =>
        Ok ("Bullet removed: '" ++ format head ++ "...'"))
    else Ok ("Bullet removed: '" ++ format removed ++ "'")).

Definition remove_bullet (experience_id : string) (bullet_index : Z) : M string :=
  data <- _load_resume ;;
  section <- lift (get data "experiences" (JArr [])) ;;
  items <- lift (iter section) ;;
  found <- lift (find_by_id items experience_id 0) ;;
  match found with
  | Some (i, exp) =>
      bullets <- lift (getitem exp "bullets") ;;
      count <- lift (len bullets) ;;
      if (0 <=? bullet_index) && (bullet_index <? count) then
        popped <- lift (pop bullets bullet_index) ;;
        _ <- _save_resume
               (put_back data "experiences" i (with_bullets exp (snd popped))) ;;
        lift (removed_message (fst popped))
      else ret (out_of_range bullet_index count)
  | None => ret (not_found "Experience" experience_id)
  end.

(** *** Skills *)

Definition add_skill (skill : string) : M string :=
  if blank skill then ret "Error: Skill cannot be empty."
  else
    data <- _load_resume ;;
    skills <- lift (get data "skills" (JArr [])) ;;
    let skill := strip skill in
    present <- lift (contains skills skill) ;;
    if present then ret ("Skill '" ++ skill ++ "' already exists.")
    else
      skills <- lift (append skills (JStr skill)) ;;
      data <- lift (setitem data "skills" skills) ;;
      _save_resume data.

Definition remove_skill (skill : string) : M string :=
  data <- _load_resume ;;
  skills <- lift (get data "skills" (JArr [])) ;;
  let skill := strip skill in
  present <- lift (contains skills skill) ;;
  if negb present then ret ("Error: Skill '" ++ skill ++ "' not found.")
  else
    skills <- lift (remove skills skill) ;;
    data <- lift (setitem data "skills" skills) ;;
    _save_resume data.

(** *** Projects *)

Definition add_project (name description : string) : M string :=
  if blank name then ret "Error: Project name cannot be empty."
  else if blank description then ret "Error: Project description cannot be empty."
  else
    data <- _load_resume ;;
    projects <- lift (get data "projects" (JArr [])) ;;
    items <- lift (iter projects) ;;
    ids <- lift (existing_ids "proj_" items) ;;
    let id := new_id "proj_" ids in
    let new_proj :=
      JObj [("id", JStr id); ("name", JStr (strip name));
            ("description", JStr (strip description))] in
    projects <- lift (append projects new_proj) ;;
    data <- lift (setitem data "projects" projects) ;;
    _ <- _save_resume data ;;
    ret ("Project added successfully with ID: " ++ id).

Definition update_project (project_id : string)
    (name description : option string) : M string :=
  data <- _load_resume ;;
  section <- lift (get data "projects" (JArr [])) ;;
  items <- lift (iter section) ;;
  found <- lift (find_by_id items project_id 0) ;;
  match found with
  | Some (i, proj) =>
      proj <- lift (assign_if proj "name" name strip) ;;
      proj <- lift (assign_if proj "description" description strip) ;;
      _save_resume (put_back data "projects" i proj)
  | None => ret (not_found "Project" project_id)
  end.

Definition remove_project (project_id : string) : M string :=
  remove_by_id "projects" "Project" project_id.

(** *** Education *)

Definition update_education (education_id : string)
    (degree institution year : option string) : M string :=
  data <- _load_resume ;;
  section <- lift (get data "education" (JArr [])) ;;
  items <- lift (iter section) ;;
  found <- lift (find_by_id items education_id 0) ;;
  match found with
  | Some (i, edu) =>
      edu <- lift (assign_if edu "degree" degree strip) ;;
      edu <- lift (assign_if edu "institution" institution strip) ;;
      edu <- lift (assign_if edu "year" year strip) ;;
      _save_resume (put_back data "education" i edu)
  | None => ret (not_found "Education" education_id)
  end.

Definition add_education (degree institution year : string) : M string :=
  if blank degree then ret "Error: Degree cannot be empty."
  else if blank institution then ret "Error: Institution cannot be empty."
  else if blank year then ret "Error: Year cannot be empty."
  else
    data <- _load_resume ;;
    education <- lift (get data "education" (JArr [])) ;;
    items <- lift (iter education) ;;
    ids <- lift (existing_ids "edu_" items) ;;
    let id := new_id "edu_" ids in
    let new_edu :=
      JObj [("id", JStr id); ("degree", JStr (strip degree));
            ("institution", JStr (strip institution));
            ("year", JStr (strip year))] in
    education <- lift (append education new_edu) ;;
    data <- lift (setitem data "education" education) ;;
    _ <- _save_resume data ;;
    ret ("Education added successfully with ID: " ++ id).

Definition remove_education (education_id : string) : M string :=
  remove_by_id "education" "Education" education_id.

End Formatting.

End tools.

(** ** Vocabulary of the properties *)

Module Spec.
Import Py tools.

(** *** Views of a document *)

(** The list a document holds under a section key. *)
Definition items_of (data : json) (key : string) : list json :=
  match data with
  | JObj d =>
      match dict_get d key with
      | Some (JArr l) => l
      | _ => []
      end
  | _ => []
  end.

(** A field of an entity. *)
Definition field (e : json) (k : string) : option json :=
  match e with
  | JObj d => dict_get d k
  | _ => None
  end.

Definition id_of (e : json) : option string :=
  match e with
  | JObj d =>
      match dict_get d "id" with
      | Some (JStr s) => Some s
      | _ => None
      end
  | _ => None
  end.

Definition has_id (e : json) : bool :=
  match id_of e with
  | Some _ => true
  | None => false
  end.

Definition ids_of (items : list json) : list string :=
  flat_map (fun e => match id_of e with Some s => [s] | None => [] end) items.

(** *** Error strings and the family of mutating tools *)

(** [s.endswith(suffix)] *)
Fixpoint endswith (s suffix : string) : bool :=
  String.eqb s suffix ||
  match s with
  | EmptyString => false
  | String _ s' => endswith s' suffix
  end.

(** The strings by which a tool reports a failure: the ones that start
    with [Error:], and the duplicate report of [add_skill]. *)
Definition is_error_string (s : string) : bool :=
  String.prefix "Error:" s
  || (String.prefix "Skill '" s && endswith s "' already exists.").

(** The mutating tools, one constructor per tool with its arguments. *)
Inductive mutation :=
| UpdateSummary (new_summary : string)
| UpdateExperience (experience_id : string) (company role dates : option string)
| AddExperience (company role dates : string) (bullets : option (list json))
| RemoveExperience (experience_id : string)
| AddBullet (experience_id bullet : string)
| UpdateBullet (experience_id : string) (bullet_index : Z) (new_bullet : string)
| RemoveBullet (experience_id : string) (bullet_index : Z)
| AddSkill (skill : string)
| RemoveSkill (skill : string)
| AddProject (name description : string)
| UpdateProject (project_id : string) (name description : option string)
| RemoveProject (project_id : string)
| UpdateEducation (education_id : string) (degree institution year : option string)
| AddEducation (degree institution year : string)
| RemoveEducation (education_id : string).

Definition run (str_of_value : json -> string) (m : mutation) : M string :=
  match m with
  | UpdateSummary s => update_summary s
  | UpdateExperience id company role dates => update_experience id company role dates
  | AddExperience company role dates bullets => add_experience company role dates bullets
  | RemoveExperience id => remove_experience id
  | AddBullet id bullet => add_bullet id bullet
  | UpdateBullet id i bullet => update_bullet id i bullet
  | RemoveBullet id i => remove_bullet str_of_value id i
  | AddSkill skill => add_skill skill
  | RemoveSkill skill => remove_skill skill
  | AddProject name description => add_project name description
  | UpdateProject id name description => update_project id name description
  | RemoveProject id => remove_project id
  | UpdateEducation id degree institution year => update_education id degree institution year
  | AddEducation degree institution year => add_education degree institution year
  | RemoveEducation id => remove_education id
  end.

(** A computation that leaves the file as it found it. *)
Definition quiet {A} (m : M A) : Prop := forall st, snd (m st) = st.

(** A tool that has not written when it returns an error string. *)
Definition no_write_on_error (m : M string) : Prop :=
  forall st msg st',
    m st = (Ok msg, st') -> is_error_string msg = true -> st' = st.

(** A tool that never returns an error string. *)
Definition never_reports (m : M string) : Prop :=
  forall st msg st', m st = (Ok msg, st') -> is_error_string msg = false.

(** A tool whose only writes are of documents the schema accepts. *)
Definition writes_valid {A} (m : M A) : Prop :=
  forall st r st',
    m st = (r, st') ->
    st' = st \/ exists data, st' = Some data /\ schema.Resume data = true.

(** *** Ids *)

(** The three id-bearing sections. *)
Definition id_prefix (p : string) : Prop :=
  p = "exp_" \/ p = "proj_" \/ p = "edu_".

(** [s] without its prefix [p], when [s] starts with [p]. *)
Fixpoint after_prefix (p s : string) : option string :=
  match p, s with
  | EmptyString, _ => Some s
  | String a p', String b s' =>
      if Ascii.eqb a b then after_prefix p' s' else None
  | String _ _, EmptyString => None
  end.

(** The number carried by an id of the form [<prefix><decimal digits>]. *)
Definition numeric_suffix (prefix id : string) : option Z :=
  match after_prefix prefix id with
  | Some (String c digits) =>
      option_map Z.of_uint (NilEmpty.uint_of_string (String c digits))
  | _ => None
  end.

(** The numeric suffixes of the ids that match the prefix. *)
Definition matching_suffixes (prefix : string) (ids : list string) : list Z :=
  flat_map (fun id => match numeric_suffix prefix id with
                      | Some n => [n]
                      | None => []
                      end) ids.

(** One plus the largest suffix among the matching ids; 1 when none
    matches. *)
Definition expected_id (prefix : string) (ids : list string) : string :=
  match matching_suffixes prefix ids with
  | [] => prefix ++ "1"
  | n :: ns => prefix ++ str_of_int (fold_right Z.max n ns + 1)
  end.

(** Every id that starts with the prefix continues with decimal digits
    only, as in [exp_12]. *)
Definition canonical_ids (prefix : string) (ids : list string) : bool :=
  forallb (fun id => negb (startswith id prefix)
                     || match numeric_suffix prefix id with
                        | Some _ => true
                        | None => false
                        end) ids.

(** The value [parse_digits] reaches on the digits of [u] from [acc]. *)
Fixpoint horner (u : Decimal.uint) (acc : Z) : Z :=
  match u with
  | Decimal.Nil => acc
  | Decimal.D0 u' => horner u' (10 * acc + 0)
  | Decimal.D1 u' => horner u' (10 * acc + 1)
  | Decimal.D2 u' => horner u' (10 * acc + 2)
  | Decimal.D3 u' => horner u' (10 * acc + 3)
  | Decimal.D4 u' => horner u' (10 * acc + 4)
  | Decimal.D5 u' => horner u' (10 * acc + 5)
  | Decimal.D6 u' => horner u' (10 * acc + 6)
  | Decimal.D7 u' => horner u' (10 * acc + 7)
  | Decimal.D8 u' => horner u' (10 * acc + 8)
  | Decimal.D9 u' => horner u' (10 * acc + 9)
  end.

(** *** The update contract *)

(** The fields of an entity after [if arg: e[k] = value(arg)]. *)
Definition assigned (d : fields) (k : string) (arg : option string)
    (value : string -> string) : fields :=
  match arg with
  | Some (String c s) => dict_set d k (JStr (value (String c s)))
  | _ => d
  end.

(** The update contract for one field: an argument that is absent or the
    empty string leaves the field as it was, any other argument replaces
    it with its trimmed text. *)
Definition replaced_trimmed (arg : option string) (old new : option json) : Prop :=
  match arg with
  | Some (String c s) => new = Some (JStr (strip (String c s)))
  | _ => new = old
  end.

(** The same contract without saying whether the stored text is trimmed:
    it is some text that trims to what the argument trims to. *)
Definition replaced (arg : option string) (old new : option json) : Prop :=
  match arg with
  | Some (String c s) =>
      exists v, new = Some (JStr v) /\ strip v = strip (String c s)
  | _ => new = old
  end.

(** *** Skills and whitespace *)

(** How many times a skill occurs in a skills list. *)
Definition occurrences (skill : string) (l : list json) : nat :=
  List.length (filter (fun v => eq_str v skill) l).

(** Strings made of whitespace only. *)
Fixpoint all_space (s : string) : bool :=
  match s with
  | EmptyString => true
  | String c s' => is_space c && all_space s'
  end.

(** *** The shape of a resume document, in words

    A required string field is present and holds a string (of any length);
    a list field is absent or holds a list whose items all have the item
    shape. *)

Definition str_field (d : fields) (k : string) : Prop :=
  exists s, dict_get d k = Some (JStr s).

Definition list_field (item : json -> Prop) (d : fields) (k : string) : Prop :=
  dict_get d k = None
  \/ exists l, dict_get d k = Some (JArr l) /\ Forall item l.

Definition is_string (v : json) : Prop := exists s, v = JStr s.

Definition experience_shape (v : json) : Prop :=
  exists d, v = JObj d
    /\ str_field d "id" /\ str_field d "company" /\ str_field d "role"
    /\ str_field d "dates" /\ list_field is_string d "bullets".

Definition project_shape (v : json) : Prop :=
  exists d, v = JObj d
    /\ str_field d "id" /\ str_field d "name" /\ str_field d "description".

Definition education_shape (v : json) : Prop :=
  exists d, v = JObj d
    /\ str_field d "id" /\ str_field d "degree"
    /\ str_field d "institution" /\ str_field d "year".

Definition resume_shape (v : json) : Prop :=
  exists d, v = JObj d
    /\ str_field d "summary"
    /\ list_field experience_shape d "experiences"
    /\ list_field is_string d "skills"
    /\ list_field project_shape d "projects"
    /\ list_field education_shape d "education".

(** *** Examples *)

(** A document used in the examples. *)
Definition sample_fields : fields :=
    [("summary", JStr "Engineer");
     ("experiences",
      JArr [JObj [("id", JStr "exp_3"); ("company", JStr "Acme");
                  ("role", JStr "Developer"); ("dates", JStr "2020-2022");
                  ("bullets", JArr [JStr "Built"; JStr "Shipped"; JStr "Led"])];
            JObj [("id", JStr "exp_1"); ("company", JStr "Initech");
                  ("role", JStr "Intern"); ("dates", JStr "2019");
                  ("bullets", JArr [])]]);
     ("skills", JArr [JStr "Python"]);
     ("projects",
      JArr [JObj [("id", JStr "proj_1"); ("name", JStr "Forge");
                  ("description", JStr "Resume editor")]]);
     ("education",
      JArr [JObj [("id", JStr "edu_1"); ("degree", JStr "BSc");
                  ("institution", JStr "MIT"); ("year", JStr "2019")]])].

Definition sample : json := JObj sample_fields.

(** A rendering of values for the examples; no property depends on it. *)
Definition render (_ : json) : string := "<json>".

End Spec.

(** ** The rest of [tools.py], and the agents that hold the tools *)

Module Cover.
Import Py tools Spec.

(** *** The list getters *)

Section Getters.

Variable json_dumps : json -> string.

Definition get_experiences : M string := get_list json_dumps "experiences".

Definition get_skills : M string := get_list json_dumps "skills".

Definition get_projects : M string := get_list json_dumps "projects".

Definition get_education : M string := get_list json_dumps "education".

End Getters.

(** *** Calls *)

(** The read tools, one constructor per tool with its arguments. *)
Inductive query :=
| GetResume
| GetSection (section_name : string)
| GetSummary
| GetExperiences
| GetExperienceById (experience_id : string)
| GetSkills
| GetProjects
| GetProjectById (project_id : string)
| GetEducation
| GetEducationById (education_id : string).

(** What a tool hands back: a string, or the loaded value itself. *)
Inductive value :=
| Text (s : string)
| Loaded (v : json).

Definition ask (json_dumps : json -> string) (q : query) : M value :=
  match q with
  | GetResume => v <- get_resume ;; ret (Loaded v)
  | GetSection name => s <- get_section json_dumps name ;; ret (Text s)
  | GetSummary => v <- get_summary ;; ret (Loaded v)
  | GetExperiences => s <- get_experiences json_dumps ;; ret (Text s)
  | GetExperienceById id => s <- get_experience_by_id json_dumps id ;; ret (Text s)
  | GetSkills => s <- get_skills json_dumps ;; ret (Text s)
  | GetProjects => s <- get_projects json_dumps ;; ret (Text s)
  | GetProjectById id => s <- get_project_by_id json_dumps id ;; ret (Text s)
  | GetEducation => s <- get_education json_dumps ;; ret (Text s)
  | GetEducationById id => s <- get_education_by_id json_dumps id ;; ret (Text s)
  end.

Inductive call :=
| Query (q : query)
| Mutate (m : mutation).

Definition exec (json_dumps str_of_value : json -> string) (c : call) : M value :=
  match c with
  | Query q => ask json_dumps q
  | Mutate m => s <- run str_of_value m ;; ret (Text s)
  end.

(** The top-level key a mutating tool assigns to. *)
Definition section_key (m : mutation) : string :=
  match m with
  | UpdateSummary _ => "summary"
  | UpdateExperience _ _ _ _ | AddExperience _ _ _ _ | RemoveExperience _
  | AddBullet _ _ | UpdateBullet _ _ _ | RemoveBullet _ _ => "experiences"
  | AddSkill _ | RemoveSkill _ => "skills"
  | AddProject _ _ | UpdateProject _ _ _ | RemoveProject _ => "projects"
  | UpdateEducation _ _ _ _ | AddEducation _ _ _ | RemoveEducation _ => "education"
  end.

(** [new] has every key of [old] outside [key] with the value it had. *)
Definition agrees_outside (key : string) (old new : json) : Prop :=
  forall k, String.eqb key k = false -> field new k = field old k.

Definition is_remove_bullet (m : mutation) : bool :=
  match m with
  | RemoveBullet _ _ => true
  | _ => false
  end.

(** A tool that has not written when it raises. *)
Definition no_write_on_raise {A} (m : M A) : Prop :=
  forall st e st', m st = (Raise e, st') -> st' = st.

(** A tool that, run on the document [data], returns and leaves a readable
    file. *)
Definition returns {A} (m : M A) (data : json) : Prop :=
  exists a data', m (Some data) = (Ok a, Some data').

(** A tool that, run on the document [data], leaves a document that agrees
    with it outside [key]. *)
Definition frames {A} (key : string) (data : json) (m : M A) : Prop :=
  forall r st',
    m (Some data) = (r, st') ->
    exists data', st' = Some data' /\ agrees_outside key data data'.

(** The entries of a section without those that carry the id [target]:
    what [without_id] keeps when every entry has an id. *)
Definition others (target : string) (items : list json) : list json :=
  filter (fun e => match id_of e with
                   | Some s => negb (String.eqb s target)
                   | None => true
                   end) items.

(** What a remove tool does on the document [data]: with an id some entry
    carries it saves the section without every entry of that id, with any
    other id it reports the id as not found and leaves the file. *)
Definition removes_all (remove : string -> M string) (key what : string)
    (data : json) : Prop :=
  forall id,
    (In id (ids_of (items_of data key)) ->
       exists data',
         remove id (Some data) = (Ok "Resume saved successfully.", Some data')
         /\ items_of data' key = others id (items_of data key)
         /\ schema.Resume data' = true)
    /\ (~ In id (ids_of (items_of data key)) ->
       remove id (Some data)
       = (Ok ("Error: " ++ what ++ " with ID '" ++ id ++ "' not found."),
          Some data)).

(** A valid document whose one experience has no [bullets] key. *)
Definition sparse : json :=
  JObj [("summary", JStr "Engineer");
        ("experiences",
         JArr [JObj [("id", JStr "exp_1"); ("company", JStr "Acme");
                     ("role", JStr "Dev"); ("dates", JStr "2020")]])].

(** The bullets of an entity. *)
Definition bullets_of (e : json) : list json :=
  match field e "bullets" with
  | Some (JArr l) => l
  | _ => []
  end.

(** The confirmation [remove_bullet] gives for a removed text. *)
Definition removal_notice (removed : string) : string :=
  if (50 <? String.length removed)%nat
  then "Bullet removed: '" ++ str_take 50 removed ++ "...'"
  else "Bullet removed: '" ++ removed ++ "'".

(** The id invariant of a document: in each id-bearing section the ids
    that start with the section's prefix continue with decimal digits, and
    no id occurs twice. *)
Definition ids_ok (prefix key : string) (data : json) : Prop :=
  canonical_ids prefix (ids_of (items_of data key)) = true
  /\ NoDup (ids_of (items_of data key)).

Definition well_formed (data : json) : Prop :=
  schema.Resume data = true
  /\ ids_ok "exp_" "experiences" data
  /\ ids_ok "proj_" "projects" data
  /\ ids_ok "edu_" "education" data.

(** The tools that edit one entry of a section in place. *)
Definition is_entry_edit (m : mutation) : bool :=
  match m with
  | UpdateExperience _ _ _ _ | UpdateProject _ _ _ | UpdateEducation _ _ _ _
  | AddBullet _ _ | UpdateBullet _ _ _ | RemoveBullet _ _ => true
  | _ => false
  end.

(** A tool that, run on the document [data], leaves under [key] as many
    entries as there were, each with the id it had. *)
Definition keeps_ids {A} (key : string) (data : json) (m : M A) : Prop :=
  forall r st',
    m (Some data) = (r, st') ->
    exists data',
      st' = Some data'
      /\ map id_of (items_of data' key) = map id_of (items_of data key).

(** The id-bearing sections with their prefixes. *)
Definition id_sections : list (string * string) :=
  [("exp_", "experiences"); ("proj_", "projects"); ("edu_", "education")].

(** In each id-bearing section the ids that start with the section's
    prefix continue with decimal digits. *)
Definition ids_formatted (data : json) : bool :=
  forallb (fun pk => canonical_ids (fst pk) (ids_of (items_of data (snd pk))))
    id_sections.

(** Every experience of the document has the [bullets] key. *)
Definition with_all_bullets (data : json) : bool :=
  forallb (fun e => match field e "bullets" with
                    | Some _ => true
                    | None => false
                    end) (items_of data "experiences").

(** The calls whose arguments the schema accepts: [add_experience] with
    bullets that are strings; every other call. *)
Definition acceptable (c : call) : bool :=
  match c with
  | Mutate (AddExperience _ _ _ bullets) => forallb schema.is_str (or_empty bullets)
  | _ => true
  end.

(** *** [agents/]: the agents and the tools they hold *)

(** The functions of [tools.py] by name. *)
Inductive tool :=
| t_get_resume | t_get_section
| t_get_summary | t_update_summary
| t_get_experiences | t_get_experience_by_id | t_update_experience
| t_add_experience | t_remove_experience
| t_add_bullet | t_update_bullet | t_remove_bullet
| t_get_skills | t_add_skill | t_remove_skill
| t_get_projects | t_get_project_by_id | t_add_project | t_update_project
| t_remove_project
| t_get_education | t_get_education_by_id | t_update_education
| t_add_education | t_remove_education.

Definition tool_eqb (a b : tool) : bool :=
  match a, b with
  | t_get_resume, t_get_resume | t_get_section, t_get_section
  | t_get_summary, t_get_summary | t_update_summary, t_update_summary
  | t_get_experiences, t_get_experiences
  | t_get_experience_by_id, t_get_experience_by_id
  | t_update_experience, t_update_experience
  | t_add_experience, t_add_experience
  | t_remove_experience, t_remove_experience
  | t_add_bullet, t_add_bullet | t_update_bullet, t_update_bullet
  | t_remove_bullet, t_remove_bullet
  | t_get_skills, t_get_skills | t_add_skill, t_add_skill
  | t_remove_skill, t_remove_skill
  | t_get_projects, t_get_projects
  | t_get_project_by_id, t_get_project_by_id
  | t_add_project, t_add_project | t_update_project, t_update_project
  | t_remove_project, t_remove_project
  | t_get_education, t_get_education
  | t_get_education_by_id, t_get_education_by_id
  | t_update_education, t_update_education
  | t_add_education, t_add_education
  | t_remove_education, t_remove_education => true
  | _, _ => false
  end.

(** The function a call invokes. *)
Definition tool_of (c : call) : tool :=
  match c with
  | Query GetResume => t_get_resume
  | Query (GetSection _) => t_get_section
  | Query GetSummary => t_get_summary
  | Query GetExperiences => t_get_experiences
  | Query (GetExperienceById _) => t_get_experience_by_id
  | Query GetSkills => t_get_skills
  | Query GetProjects => t_get_projects
  | Query (GetProjectById _) => t_get_project_by_id
  | Query GetEducation => t_get_education
  | Query (GetEducationById _) => t_get_education_by_id
  | Mutate (UpdateSummary _) => t_update_summary
  | Mutate (UpdateExperience _ _ _ _) => t_update_experience
  | Mutate (AddExperience _ _ _ _) => t_add_experience
  | Mutate (RemoveExperience _) => t_remove_experience
  | Mutate (AddBullet _ _) => t_add_bullet
  | Mutate (UpdateBullet _ _ _) => t_update_bullet
  | Mutate (RemoveBullet _ _) => t_remove_bullet
  | Mutate (AddSkill _) => t_add_skill
  | Mutate (RemoveSkill _) => t_remove_skill
  | Mutate (AddProject _ _) => t_add_project
  | Mutate (UpdateProject _ _ _) => t_update_project
  | Mutate (RemoveProject _) => t_remove_project
  | Mutate (UpdateEducation _ _ _ _) => t_update_education
  | Mutate (AddEducation _ _ _) => t_add_education
  | Mutate (RemoveEducation _) => t_remove_education
  end.

(** An [Agent(...)]: its name, its [tools] and its [sub_agents].  The model
    name, the description and the instruction text are left out. *)
Inductive agent :=
| Agent (name : string) (tools : list tool) (sub_agents : list agent).

Definition agent_name (a : agent) : string :=
  match a with Agent n _ _ => n end.

Definition agent_tools (a : agent) : list tool :=
  match a with Agent _ ts _ => ts end.

Definition summary_agent : agent :=
  Agent "summary_agent" [t_get_summary; t_update_summary] [].

Definition experience_agent : agent :=
  Agent "experience_agent"
    [t_get_experiences; t_get_experience_by_id; t_update_experience;
     t_add_experience; t_remove_experience; t_add_bullet; t_update_bullet;
     t_remove_bullet] [].

Definition skills_agent : agent :=
  Agent "skills_agent" [t_get_skills; t_add_skill; t_remove_skill] [].

Definition projects_agent : agent :=
  Agent "projects_agent"
    [t_get_projects; t_get_project_by_id; t_add_project; t_update_project;
     t_remove_project] [].

Definition education_agent : agent :=
  Agent "education_agent"
    [t_get_education; t_get_education_by_id; t_update_education;
     t_add_education; t_remove_education] [].

Definition resume_agent : agent :=
  Agent "resume_agent" [t_get_resume; t_get_section]
    [summary_agent; experience_agent; skills_agent; projects_agent;
     education_agent].

Definition unibot : agent := Agent "unibot" [] [resume_agent].

(** [agent.py]: the agent the framework starts from. *)
Definition root_agent : agent := unibot.

(** An agent and the agents below it. *)
Fixpoint tree (a : agent) : list agent :=
  match a with
  | Agent _ _ subs => a :: flat_map tree subs
  end.

(** The one section an agent's tools can assign to, by the agent's name. *)
Definition agent_section (a : agent) : option string :=
  let n := agent_name a in
  if String.eqb n "summary_agent" then Some "summary"
  else if String.eqb n "experience_agent" then Some "experiences"
  else if String.eqb n "skills_agent" then Some "skills"
  else if String.eqb n "projects_agent" then Some "projects"
  else if String.eqb n "education_agent" then Some "education"
  else None.

(** A call an agent can make: one of a tool it holds. *)
Definition may_call (a : agent) (c : call) : bool :=
  existsb (tool_eqb (tool_of c)) (agent_tools a).

(** The resume file after a sequence of calls, each started on what the
    one before left; what a call returns or raises goes to the caller. *)
Fixpoint session (json_dumps str_of_value : json -> string)
    (calls : list call) (st : store) : store :=
  match calls with
  | [] => st
  | c :: rest =>
      session json_dumps str_of_value rest
        (snd (exec json_dumps str_of_value c st))
  end.

End Cover.

(** ** No write on an error path *)

Section NoWrite.
Import Py tools Spec.

Lemma quiet_lift {A} (r : result A) : quiet (lift r).
Proof. intro st. reflexivity. Qed.

Lemma quiet_load : quiet _load_resume.
Proof. intros [data|]; reflexivity. Qed.

Lemma endswith_app (s suffix : string) : endswith (s ++ suffix) suffix = true.
Proof.
  induction s as [|c s IH]; simpl.
  - destruct suffix; simpl; [reflexivity|].
    rewrite Ascii.eqb_refl, String.eqb_refl. reflexivity.
  - rewrite IH. apply orb_true_r.
Qed.

Lemma prefix_app (p r : string) : String.prefix p (p ++ r) = true.
Proof.
  induction p as [|a p IH]; simpl.
  - destruct r; reflexivity.
  - destruct (ascii_dec a a) as [_|Hne]; [exact IH|contradiction].
Qed.

(** Every failure message of [tools.py] is an error string. *)
Lemma failure_messages_are_error_strings :
  (forall what id, is_error_string (not_found what id) = true)
  /\ (forall i n, is_error_string (out_of_range i n) = true)
  /\ (forall skill,
        is_error_string ("Skill '" ++ skill ++ "' already exists.") = true)
  /\ (forall skill,
        is_error_string ("Error: Skill '" ++ skill ++ "' not found.") = true)
  /\ Forall (fun msg => is_error_string msg = true)
       ["Error: Summary cannot be empty."; "Error: Bullet text cannot be empty.";
        "Error: Skill cannot be empty."; "Error: Project name cannot be empty.";
        "Error: Project description cannot be empty.";
        "Error: Degree cannot be empty."; "Error: Institution cannot be empty.";
        "Error: Year cannot be empty."].
Proof.
  repeat split; try reflexivity.
  - intro skill. unfold is_error_string.
    rewrite (prefix_app "Skill '" (skill ++ "' already exists.")).
    replace ("Skill '" ++ skill ++ "' already exists.")
      with (("Skill '" ++ skill) ++ "' already exists.") by reflexivity.
    rewrite endswith_app. apply orb_true_r.
  - repeat constructor.
Qed.

Lemma no_write_ret (msg : string) : no_write_on_error (ret msg).
Proof. intros st m st' H _. inversion H. reflexivity. Qed.

Lemma no_write_bind {A} (m : M A) (k : A -> M string) :
  quiet m -> (forall a, no_write_on_error (k a)) -> no_write_on_error (bind m k).
Proof.
  intros Hq Hk st msg st' H Herr. unfold bind in H.
  specialize (Hq st). destruct (m st) as [[a|e] st1]; simpl in Hq; subst st1.
  - eapply Hk; eassumption.
  - discriminate H.
Qed.

Lemma no_write_never (m : M string) : never_reports m -> no_write_on_error m.
Proof.
  intros Hn st msg st' H Herr. rewrite (Hn _ _ _ H) in Herr. discriminate Herr.
Qed.

Lemma never_save (data : json) : never_reports (_save_resume data).
Proof.
  intros st msg st' H. unfold _save_resume in H.
  destruct (schema.validate data); inversion H. reflexivity.
Qed.

Lemma never_ret (msg : string) :
  is_error_string msg = false -> never_reports (ret msg).
Proof. intros Hm st m st' H. inversion H. subst. exact Hm. Qed.

Lemma never_bind {A} (m : M A) (k : A -> M string) :
  (forall a, never_reports (k a)) -> never_reports (bind m k).
Proof.
  intros Hk st msg st' H. unfold bind in H.
  destruct (m st) as [[a|e] st1]; [|discriminate H].
  eapply Hk; eassumption.
Qed.

Lemma never_removed (f : json -> string) (removed : json) :
  never_reports (lift (removed_message f removed)).
Proof.
  intros st msg st' H. unfold lift, removed_message, rbind in H.
  destruct (len removed) as [n|]; [|discriminate H].
  destruct (n >? 50).
  - destruct (take50 removed); inversion H. reflexivity.
  - inversion H. reflexivity.
Qed.

Ltac no_write :=
  repeat (cbv zeta; match goal with
  | |- no_write_on_error (ret _) => apply no_write_ret
  | |- no_write_on_error (_save_resume _) => apply no_write_never, never_save
  | |- no_write_on_error (bind (_save_resume _) _) =>
      apply no_write_never, never_bind; intros
  | |- no_write_on_error (bind _ _) =>
      apply no_write_bind; [first [apply quiet_lift | apply quiet_load] | intros]
  | |- no_write_on_error (if ?b then _ else _) => destruct b
  | |- no_write_on_error (match ?x with Some _ => _ | None => _ end) =>
      destruct x as [[? ?]|]
  | |- never_reports (ret _) => apply never_ret; reflexivity
  | |- never_reports (lift (removed_message _ _)) => apply never_removed
  end).

(** C1: whenever a mutating tool ([update_summary]; add, update and remove
    on experiences, bullets, skills, projects and education) returns an
    error string, the resume file holds exactly what it held before the
    call. *)
Theorem error_return_leaves_document (f : json -> string) (m : mutation)
    (st st' : store) (msg : string) :
  run f m st = (Ok msg, st') -> is_error_string msg = true -> st' = st.
Proof.
  revert st msg st'. change (no_write_on_error (run f m)).
  destruct m; simpl;
    unfold update_summary, update_experience, add_experience, remove_experience,
      add_bullet, update_bullet, remove_bullet, add_skill, remove_skill,
      add_project, update_project, remove_project, update_education,
      add_education, remove_education, remove_by_id;
    no_write.
Qed.

Lemma error_return_leaves_document_witness :
  snd (run render (UpdateSummary "   ") (Some sample)) = Some sample.
Proof.
  apply (error_return_leaves_document render (UpdateSummary "   ")
           (Some sample) _ "Error: Summary cannot be empty.");
    reflexivity.
Defined.

End NoWrite.

(** ** Every write passes the schema *)

Section ValidWrites.
Import Py tools Spec.

Lemma writes_valid_quiet {A} (m : M A) : quiet m -> writes_valid m.
Proof.
  intros Hq st r st' H. left. specialize (Hq st). rewrite H in Hq. exact Hq.
Qed.

Lemma writes_valid_save (data : json) : writes_valid (_save_resume data).
Proof.
  intros st r st' H. unfold _save_resume, schema.validate in H.
  destruct data as [| | | | | |d]; try (inversion H; left; reflexivity).
  destruct (schema.Resume (JObj d)) eqn:Hv; inversion H.
  - right. eexists. split; [reflexivity | exact Hv].
  - left. reflexivity.
Qed.

Lemma writes_valid_bind {A B} (m : M A) (k : A -> M B) :
  writes_valid m -> (forall a, writes_valid (k a)) -> writes_valid (bind m k).
Proof.
  intros Hm Hk st r st' H. unfold bind in H.
  destruct (m st) as [[a|e] st1] eqn:Hst.
  - destruct (Hk a _ _ _ H) as [->|Hv]; [|right; exact Hv].
    exact (Hm _ _ _ Hst).
  - inversion H; subst. exact (Hm _ _ _ Hst).
Qed.

Ltac writes_valid :=
  repeat (cbv zeta; match goal with
  | |- writes_valid (ret _) => apply writes_valid_quiet; intro; reflexivity
  | |- writes_valid (lift _) => apply writes_valid_quiet, quiet_lift
  | |- writes_valid _load_resume => apply writes_valid_quiet, quiet_load
  | |- writes_valid (_save_resume _) => apply writes_valid_save
  | |- writes_valid (bind _ _) => apply writes_valid_bind; [|intros]
  | |- writes_valid (if ?b then _ else _) => destruct b
  | |- writes_valid (match ?x with Some _ => _ | None => _ end) =>
      destruct x as [[? ?]|]
  end).

Lemma writes_valid_run (f : json -> string) (m : mutation) :
  writes_valid (run f m).
Proof.
  destruct m; simpl;
    unfold update_summary, update_experience, add_experience, remove_experience,
      add_bullet, update_bullet, remove_bullet, add_skill, remove_skill,
      add_project, update_project, remove_project, update_education,
      add_education, remove_education, remove_by_id;
    writes_valid.
Qed.

End ValidWrites.

(** ** Facts about [strip] *)

Section StripFacts.
Import Py Spec.

Lemma lstrip_app_space (l s : string) :
  all_space l = true -> lstrip (l ++ s) = lstrip s.
Proof.
  induction l as [|c l IH]; simpl; intro H; [reflexivity|].
  apply andb_true_iff in H. destruct H as [Hc Hl].
  rewrite Hc. exact (IH Hl).
Qed.

Lemma lstrip_space (r : string) : all_space r = true -> lstrip r = EmptyString.
Proof.
  induction r as [|c r IH]; simpl; intro H; [reflexivity|].
  apply andb_true_iff in H. destruct H as [Hc Hr].
  rewrite Hc. exact (IH Hr).
Qed.

Lemma rstrip_space (r : string) : all_space r = true -> rstrip r = EmptyString.
Proof.
  induction r as [|c r IH]; simpl; intro H; [reflexivity|].
  apply andb_true_iff in H. destruct H as [Hc Hr].
  rewrite (IH Hr), Hc. reflexivity.
Qed.

Lemma rstrip_app_space (s r : string) :
  all_space r = true -> rstrip (s ++ r) = rstrip s.
Proof.
  intro Hr. induction s as [|c s IH]; simpl.
  - exact (rstrip_space r Hr).
  - rewrite IH. reflexivity.
Qed.

Lemma rstrip_lstrip_app (s r : string) :
  all_space r = true -> rstrip (lstrip (s ++ r)) = rstrip (lstrip s).
Proof.
  intro Hr. induction s as [|c s IH].
  - simpl. rewrite (lstrip_space r Hr). reflexivity.
  - simpl. destruct (is_space c); [exact IH|].
    exact (rstrip_app_space (String c s) r Hr).
Qed.

Lemma strip_padded (l s r : string) :
  all_space l = true -> all_space r = true -> strip (l ++ s ++ r) = strip s.
Proof.
  intros Hl Hr. unfold strip.
  rewrite (lstrip_app_space l (s ++ r) Hl). exact (rstrip_lstrip_app s r Hr).
Qed.

End StripFacts.

(** ** Id generation *)

Section IdGeneration.
Import Py tools Spec.

Lemma horner_acc (u : Decimal.uint) (p : positive) :
  Z.pos (Pos.of_uint_acc u p) = horner u (Z.pos p).
Proof.
  revert p. induction u; intro p; cbn [Pos.of_uint_acc horner];
    try reflexivity; rewrite IHu; f_equal; lia.
Qed.

Lemma horner_of_uint (u : Decimal.uint) : Z.of_uint u = horner u 0.
Proof.
  unfold Z.of_uint.
  induction u; cbn [Pos.of_uint horner Z.of_N]; try reflexivity;
    try exact IHu; rewrite horner_acc; reflexivity.
Qed.

Lemma parse_digits_uint (u : Decimal.uint) (acc : Z) (b : bool) :
  u <> Decimal.Nil \/ b = true ->
  parse_digits acc b (NilEmpty.string_of_uint u) = Some (horner u acc).
Proof.
  revert acc b. induction u; intros acc b H; simpl;
    try (apply IHu; right; reflexivity).
  destruct H as [H| ->]; [contradiction|reflexivity].
Qed.

Lemma lstrip_uint (u : Decimal.uint) :
  lstrip (NilEmpty.string_of_uint u) = NilEmpty.string_of_uint u.
Proof. destruct u; reflexivity. Qed.

Lemma rstrip_uint (u : Decimal.uint) :
  rstrip (NilEmpty.string_of_uint u) = NilEmpty.string_of_uint u.
Proof.
  induction u; simpl; try reflexivity; rewrite IHu;
    destruct (NilEmpty.string_of_uint u); reflexivity.
Qed.

Lemma int_uint (u : Decimal.uint) :
  u <> Decimal.Nil -> int (NilEmpty.string_of_uint u) = Ok (Z.of_uint u).
Proof.
  intro Hu. unfold int, strip. rewrite lstrip_uint, rstrip_uint.
  pose proof (parse_digits_uint u 0 false (or_introl Hu)) as H.
  rewrite horner_of_uint.
  destruct u; try contradiction;
    cbn [NilEmpty.string_of_uint] in *; rewrite H; reflexivity.
Qed.

Lemma split_uint (u : Decimal.uint) :
  split "_" (NilEmpty.string_of_uint u) = [NilEmpty.string_of_uint u].
Proof. induction u; simpl; try reflexivity; rewrite IHu; reflexivity. Qed.

Lemma after_prefix_app (p s t : string) :
  after_prefix p s = Some t -> s = p ++ t.
Proof.
  revert s. induction p as [|a p IH]; intros s H; simpl in *.
  - inversion H. reflexivity.
  - destruct s as [|b s]; [discriminate H|].
    destruct (Ascii.eqb a b) eqn:Hab; [|discriminate H].
    apply Ascii.eqb_eq in Hab. subst b. f_equal. exact (IH s H).
Qed.

Lemma after_prefix_none (p s : string) :
  String.prefix p s = false -> after_prefix p s = None.
Proof.
  revert s. induction p as [|a p IH]; intros s H.
  - destruct s; discriminate H.
  - destruct s as [|b s]; [reflexivity|]. simpl in *.
    destruct (ascii_dec a b) as [->|Hne].
    + rewrite Ascii.eqb_refl. exact (IH s H).
    + apply Ascii.eqb_neq in Hne. rewrite Hne. reflexivity.
Qed.

(** On an id [<prefix><digits>] the comprehension computes the number the
    digits denote. *)
Lemma piece_of_id (p s : string) (n : Z) :
  id_prefix p -> numeric_suffix p s = Some n ->
  rbind (index (split "_" s) 1) int = Ok n.
Proof.
  intros Hp Hn. unfold numeric_suffix in Hn.
  destruct (after_prefix p s) as [[|c digits]|] eqn:Hs; try discriminate Hn.
  apply after_prefix_app in Hs.
  destruct (NilEmpty.uint_of_string (String c digits)) as [u|] eqn:Hu;
    [|discriminate Hn].
  apply NilEmpty.sus in Hu. simpl in Hn. inversion Hn; subst n; clear Hn.
  assert (Hnil : u <> Decimal.Nil) by (intros ->; discriminate Hu).
  rewrite <- Hu in Hs. subst s.
  destruct Hp as [->|[->| ->]]; cbn [String.append split Ascii.eqb Bool.eqb];
    rewrite split_uint; cbn [index nth_error rbind]; exact (int_uint u Hnil).
Qed.

Lemma existing_ids_spec (p : string) (items : list json) :
  id_prefix p ->
  forallb has_id items = true ->
  canonical_ids p (ids_of items) = true ->
  existing_ids p items = Ok (matching_suffixes p (ids_of items)).
Proof.
  intro Hp. induction items as [|e rest IH]; intros Hid Hc; [reflexivity|].
  cbn [forallb] in Hid. apply andb_true_iff in Hid. destruct Hid as [He Hrest].
  unfold has_id in He. unfold ids_of in *. cbn [flat_map] in *.
  destruct (id_of e) as [s|] eqn:Hs; [|discriminate He].
  unfold id_of in Hs. destruct e as [| | | | | |d]; try discriminate Hs.
  destruct (dict_get d "id") as [[| | | |s'| |]|] eqn:Hd; try discriminate Hs.
  inversion Hs; subst s'; clear Hs.
  cbn [app canonical_ids forallb] in Hc. apply andb_true_iff in Hc.
  destruct Hc as [Hcs Hcr]. fold (canonical_ids p) in Hcr.
  cbn [existing_ids getitem]. rewrite Hd. cbn [rbind str_method].
  unfold matching_suffixes. cbn [flat_map app].
  fold (matching_suffixes p). specialize (IH Hrest Hcr).
  destruct (startswith s p) eqn:Hsw.
  - cbn [negb orb] in Hcs.
    destruct (numeric_suffix p s) as [n|] eqn:Hn; [|discriminate Hcs].
    pose proof (piece_of_id p s n Hp Hn) as Hpiece.
    destruct (index (split "_" s) 1) as [piece|]; [|discriminate Hpiece].
    cbn [rbind] in *. rewrite Hpiece. cbn [rbind]. rewrite IH. reflexivity.
  - unfold numeric_suffix. rewrite (after_prefix_none p s Hsw). exact IH.
Qed.

Lemma fold_max_sym (n : Z) (ns : list Z) :
  fold_left Z.max ns n = fold_right Z.max n ns.
Proof.
  apply fold_symmetric.
  - intros x y z. apply Z.max_assoc.
  - intro y. apply Z.max_comm.
Qed.

Lemma new_id_expected (p : string) (ids : list string) :
  new_id p (matching_suffixes p ids) = expected_id p ids.
Proof.
  unfold new_id, expected_id, max_default0.
  destruct (matching_suffixes p ids) as [|n ns]; [reflexivity|].
  rewrite fold_max_sym. reflexivity.
Qed.

End IdGeneration.

(** ** Dictionaries and the schema *)

Section SchemaFacts.
Import Py schema tools Spec.

Lemma dict_get_set_same (d : fields) (k : string) (v : json) :
  dict_get (dict_set d k v) k = Some v.
Proof.
  induction d as [|[k0 v0] d IH]; simpl.
  - rewrite String.eqb_refl. reflexivity.
  - destruct (String.eqb k0 k) eqn:Hk; simpl.
    + rewrite String.eqb_refl. reflexivity.
    + rewrite Hk. exact IH.
Qed.

Lemma dict_get_set_other (d : fields) (k k' : string) (v : json) :
  String.eqb k k' = false ->
  dict_get (dict_set d k v) k' = dict_get d k'.
Proof.
  intro Hne. induction d as [|[k0 v0] d IH]; simpl.
  - rewrite Hne. reflexivity.
  - destruct (String.eqb k0 k) eqn:Hk; simpl.
    + apply String.eqb_eq in Hk. subst k0. rewrite Hne. reflexivity.
    + destruct (String.eqb k0 k'); [reflexivity | exact IH].
Qed.

Lemma required_str_set_other (d : fields) (k k' : string) (v : json) :
  String.eqb k k' = false ->
  required_str (dict_set d k v) k' = required_str d k'.
Proof. intro H. unfold required_str. rewrite dict_get_set_other by exact H. reflexivity. Qed.

Lemma required_str_set_same (d : fields) (k s : string) :
  required_str (dict_set d k (JStr s)) k = true.
Proof. unfold required_str. rewrite dict_get_set_same. reflexivity. Qed.

Lemma list_of_set_other (P : json -> bool) (d : fields) (k k' : string) (v : json) :
  String.eqb k k' = false ->
  list_of P (dict_set d k v) k' = list_of P d k'.
Proof. intro H. unfold list_of. rewrite dict_get_set_other by exact H. reflexivity. Qed.

Lemma list_of_set_same (P : json -> bool) (d : fields) (k : string) (l : list json) :
  list_of P (dict_set d k (JArr l)) k = forallb P l.
Proof. unfold list_of. rewrite dict_get_set_same. reflexivity. Qed.

(** What a valid document holds under a section key. *)
Lemma section_get (P : json -> bool) (d : fields) (k : string) :
  list_of P d k = true ->
  get (JObj d) k (JArr []) = Ok (JArr (items_of (JObj d) k))
  /\ forallb P (items_of (JObj d) k) = true.
Proof.
  unfold list_of, get, items_of.
  destruct (dict_get d k) as [[| | | | |l|]|]; intro H;
    try discriminate H; split; try reflexivity; exact H.
Qed.

Lemma Resume_parts (d : fields) :
  Resume (JObj d) = true ->
  required_str d "summary" = true
  /\ list_of Experience d "experiences" = true
  /\ list_of is_str d "skills" = true
  /\ list_of Project d "projects" = true
  /\ list_of Education d "education" = true.
Proof.
  unfold Resume. intro H.
  repeat (apply andb_true_iff in H; destruct H as [H ?]). auto.
Qed.

Lemma Resume_of_parts (d : fields) :
  required_str d "summary" = true ->
  list_of Experience d "experiences" = true ->
  list_of is_str d "skills" = true ->
  list_of Project d "projects" = true ->
  list_of Education d "education" = true ->
  Resume (JObj d) = true.
Proof. unfold Resume. intros -> -> -> -> ->. reflexivity. Qed.

Ltac other_keys :=
  repeat first
    [ rewrite required_str_set_other by reflexivity
    | rewrite list_of_set_other by reflexivity ].

Lemma Resume_set_summary (d : fields) (s : string) :
  Resume (JObj d) = true -> Resume (JObj (dict_set d "summary" (JStr s))) = true.
Proof.
  intro H. apply Resume_parts in H. destruct H as (_ & He & Hs & Hp & Hd).
  apply Resume_of_parts; other_keys; auto using required_str_set_same.
Qed.

Lemma Resume_set_experiences (d : fields) (l : list json) :
  Resume (JObj d) = true -> forallb Experience l = true ->
  Resume (JObj (dict_set d "experiences" (JArr l))) = true.
Proof.
  intros H Hl. apply Resume_parts in H. destruct H as (Hy & He & Hs & Hp & Hd).
  apply Resume_of_parts; other_keys; auto. rewrite list_of_set_same. exact Hl.
Qed.

Lemma Resume_set_skills (d : fields) (l : list json) :
  Resume (JObj d) = true -> forallb is_str l = true ->
  Resume (JObj (dict_set d "skills" (JArr l))) = true.
Proof.
  intros H Hl. apply Resume_parts in H. destruct H as (Hy & He & Hs & Hp & Hd).
  apply Resume_of_parts; other_keys; auto. rewrite list_of_set_same. exact Hl.
Qed.

Lemma Resume_set_projects (d : fields) (l : list json) :
  Resume (JObj d) = true -> forallb Project l = true ->
  Resume (JObj (dict_set d "projects" (JArr l))) = true.
Proof.
  intros H Hl. apply Resume_parts in H. destruct H as (Hy & He & Hs & Hp & Hd).
  apply Resume_of_parts; other_keys; auto. rewrite list_of_set_same. exact Hl.
Qed.

Lemma Resume_set_education (d : fields) (l : list json) :
  Resume (JObj d) = true -> forallb Education l = true ->
  Resume (JObj (dict_set d "education" (JArr l))) = true.
Proof.
  intros H Hl. apply Resume_parts in H. destruct H as (Hy & He & Hs & Hp & Hd).
  apply Resume_of_parts; other_keys; auto. rewrite list_of_set_same. exact Hl.
Qed.

Lemma validate_ok (d : fields) :
  Resume (JObj d) = true -> validate (JObj d) = Ok tt.
Proof. intro H. unfold validate. rewrite H. reflexivity. Qed.

Lemma Resume_is_obj (data : json) :
  Resume data = true -> exists d, data = JObj d.
Proof. destruct data; try discriminate. eexists. reflexivity. Qed.

(** Entities that validate carry a [str] id. *)
Lemma required_str_id (d : fields) :
  required_str d "id" = true -> has_id (JObj d) = true.
Proof.
  unfold required_str, has_id, id_of.
  destruct (dict_get d "id") as [[| | | |s| |]|]; try discriminate. reflexivity.
Qed.

Lemma Experience_has_id (e : json) : Experience e = true -> has_id e = true.
Proof.
  destruct e as [| | | | | |d]; try discriminate. unfold Experience. intro H.
  repeat (apply andb_true_iff in H; destruct H as [H ?]).
  exact (required_str_id d H).
Qed.

Lemma Project_has_id (e : json) : Project e = true -> has_id e = true.
Proof.
  destruct e as [| | | | | |d]; try discriminate. unfold Project. intro H.
  repeat (apply andb_true_iff in H; destruct H as [H ?]).
  exact (required_str_id d H).
Qed.

Lemma Education_has_id (e : json) : Education e = true -> has_id e = true.
Proof.
  destruct e as [| | | | | |d]; try discriminate. unfold Education. intro H.
  repeat (apply andb_true_iff in H; destruct H as [H ?]).
  exact (required_str_id d H).
Qed.

Lemma forallb_impl {A} (P Q : A -> bool) (l : list A) :
  (forall a, P a = true -> Q a = true) ->
  forallb P l = true -> forallb Q l = true.
Proof.
  intro HPQ. induction l as [|a l IH]; simpl; [reflexivity|].
  intro H. apply andb_true_iff in H. destruct H as [Ha Hl].
  rewrite (HPQ a Ha), (IH Hl). reflexivity.
Qed.

End SchemaFacts.

(** ** The add tools on a valid document *)

Section Adds.
Import Py schema tools Spec.

Lemma add_experience_run (company role dates : string)
    (bullets : option (list json)) (d : fields) :
  Resume (JObj d) = true ->
  canonical_ids "exp_" (ids_of (items_of (JObj d) "experiences")) = true ->
  forallb is_str (or_empty bullets) = true ->
  let items := items_of (JObj d) "experiences" in
  let id := expected_id "exp_" (ids_of items) in
  add_experience company role dates bullets (Some (JObj d)) =
  (Ok ("Experience added successfully with ID: " ++ id),
   Some (JObj (dict_set d "experiences"
     (JArr (JObj [("id", JStr id); ("company", JStr company);
                  ("role", JStr role); ("dates", JStr dates);
                  ("bullets", JArr (or_empty bullets))] :: items))))).
Proof.
  intros Hv Hc Hb items id.
  destruct (Resume_parts d Hv) as (_ & He & _).
  destruct (section_get _ _ _ He) as [Hget Hitems]. fold items in Hget, Hitems.
  assert (Hids : existing_ids "exp_" items
                 = Ok (matching_suffixes "exp_" (ids_of items))).
  { apply existing_ids_spec; [left; reflexivity| |exact Hc].
    exact (forallb_impl _ _ _ Experience_has_id Hitems). }
  unfold add_experience, bind, lift, _load_resume, ret.
  rewrite Hget. cbn [iter]. rewrite Hids. rewrite new_id_expected. fold id.
  cbn [insert0 setitem]. unfold _save_resume.
  rewrite validate_ok; [reflexivity|].
  apply Resume_set_experiences; [exact Hv|].
  cbn [forallb]. rewrite Hitems, andb_true_r.
  unfold Experience, required_str, list_of. cbn. exact Hb.
Qed.

Lemma forallb_snoc {A} (P : A -> bool) (l : list A) (a : A) :
  forallb P l = true -> P a = true -> forallb P (l ++ [a])%list = true.
Proof.
  intros Hl Ha. rewrite forallb_app, Hl. simpl. rewrite Ha. reflexivity.
Qed.

Lemma add_project_run (name description : string) (d : fields) :
  Resume (JObj d) = true ->
  canonical_ids "proj_" (ids_of (items_of (JObj d) "projects")) = true ->
  blank name = false -> blank description = false ->
  let items := items_of (JObj d) "projects" in
  let id := expected_id "proj_" (ids_of items) in
  add_project name description (Some (JObj d)) =
  (Ok ("Project added successfully with ID: " ++ id),
   Some (JObj (dict_set d "projects"
     (JArr (items ++ [JObj [("id", JStr id); ("name", JStr (strip name));
                            ("description", JStr (strip description))]])%list)))).
Proof.
  intros Hv Hc Hn Hd items id.
  destruct (Resume_parts d Hv) as (_ & _ & _ & Hp & _).
  destruct (section_get _ _ _ Hp) as [Hget Hitems]. fold items in Hget, Hitems.
  assert (Hids : existing_ids "proj_" items
                 = Ok (matching_suffixes "proj_" (ids_of items))).
  { apply existing_ids_spec; [right; left; reflexivity| |exact Hc].
    exact (forallb_impl _ _ _ Project_has_id Hitems). }
  unfold add_project. rewrite Hn, Hd.
  unfold bind, lift, _load_resume, ret.
  rewrite Hget. cbn [iter]. rewrite Hids. rewrite new_id_expected. fold id.
  cbn [append setitem]. unfold _save_resume.
  rewrite validate_ok; [reflexivity|].
  apply Resume_set_projects; [exact Hv|].
  apply forallb_snoc; [exact Hitems | reflexivity].
Qed.

Lemma add_education_run (degree institution year : string) (d : fields) :
  Resume (JObj d) = true ->
  canonical_ids "edu_" (ids_of (items_of (JObj d) "education")) = true ->
  blank degree = false -> blank institution = false -> blank year = false ->
  let items := items_of (JObj d) "education" in
  let id := expected_id "edu_" (ids_of items) in
  add_education degree institution year (Some (JObj d)) =
  (Ok ("Education added successfully with ID: " ++ id),
   Some (JObj (dict_set d "education"
     (JArr (items ++ [JObj [("id", JStr id); ("degree", JStr (strip degree));
                            ("institution", JStr (strip institution));
                            ("year", JStr (strip year))]])%list)))).
Proof.
  intros Hv Hc Hg Hi Hy items id.
  destruct (Resume_parts d Hv) as (_ & _ & _ & _ & He).
  destruct (section_get _ _ _ He) as [Hget Hitems]. fold items in Hget, Hitems.
  assert (Hids : existing_ids "edu_" items
                 = Ok (matching_suffixes "edu_" (ids_of items))).
  { apply existing_ids_spec; [right; right; reflexivity| |exact Hc].
    exact (forallb_impl _ _ _ Education_has_id Hitems). }
  unfold add_education. rewrite Hg, Hi, Hy.
  unfold bind, lift, _load_resume, ret.
  rewrite Hget. cbn [iter]. rewrite Hids. rewrite new_id_expected. fold id.
  cbn [append setitem]. unfold _save_resume.
  rewrite validate_ok; [reflexivity|].
  apply Resume_set_education; [exact Hv|].
  apply forallb_snoc; [exact Hitems | reflexivity].
Qed.

Lemma add_experience_bad_bullets (company role dates : string)
    (bullets : option (list json)) (d : fields) :
  Resume (JObj d) = true ->
  canonical_ids "exp_" (ids_of (items_of (JObj d) "experiences")) = true ->
  forallb is_str (or_empty bullets) = false ->
  add_experience company role dates bullets (Some (JObj d))
  = (Raise ValidationError, Some (JObj d)).
Proof.
  intros Hv Hc Hb.
  destruct (Resume_parts d Hv) as (_ & He & _).
  destruct (section_get _ _ _ He) as [Hget Hitems].
  assert (Hids : existing_ids "exp_" (items_of (JObj d) "experiences")
                 = Ok (matching_suffixes "exp_"
                         (ids_of (items_of (JObj d) "experiences")))).
  { apply existing_ids_spec; [left; reflexivity| |exact Hc].
    exact (forallb_impl _ _ _ Experience_has_id Hitems). }
  unfold add_experience, bind, lift, _load_resume, ret.
  rewrite Hget. cbn [iter]. rewrite Hids.
  cbn [insert0 setitem]. unfold _save_resume, validate, Resume.
  rewrite list_of_set_same. cbn [forallb].
  match goal with
  | |- context [Experience (JObj ?l)] =>
      assert (Hnew : Experience (JObj l) = false)
        by (unfold Experience, required_str, list_of; cbn; exact Hb)
  end.
  rewrite Hnew, andb_false_l, andb_false_r. reflexivity.
Qed.

Lemma add_project_blank (name description : string) (st : store) :
  blank name || blank description = true ->
  exists msg, add_project name description st = (Ok msg, st)
              /\ is_error_string msg = true.
Proof.
  intro H. unfold add_project. destruct (blank name).
  - eexists. split; reflexivity.
  - simpl in H. rewrite H. eexists. split; reflexivity.
Qed.

Lemma add_education_blank (degree institution year : string) (st : store) :
  blank degree || blank institution || blank year = true ->
  exists msg, add_education degree institution year st = (Ok msg, st)
              /\ is_error_string msg = true.
Proof.
  intro H. unfold add_education. destruct (blank degree).
  - eexists. split; reflexivity.
  - destruct (blank institution).
    + eexists. split; reflexivity.
    + simpl in H. rewrite H. eexists. split; reflexivity.
Qed.

End Adds.

(** ** The update tools on a valid document *)

Section Updates.
Import Py schema tools Spec.

Lemma find_by_id_sound (items : list json) (target : string) (n i : nat) (e : json) :
  find_by_id items target n = Ok (Some (i, e)) ->
  (n <= i)%nat /\ nth_error items (i - n) = Some e
  /\ exists v, getitem e "id" = Ok v /\ eq_str v target = true.
Proof.
  revert n. induction items as [|x rest IH]; intros n H; simpl in H.
  - discriminate H.
  - destruct (getitem x "id") as [v|] eqn:Hx; [|discriminate H]. simpl in H.
    destruct (eq_str v target) eqn:Hv.
    + inversion H; subst. rewrite Nat.sub_diag. repeat split; eauto.
    + destruct (IH _ H) as (Hle & Hnth & Hid).
      split; [lia|]. split; [|exact Hid].
      replace (i - n)%nat with (S (i - S n)) by lia. exact Hnth.
Qed.

Lemma list_set_forallb {A} (P : A -> bool) (l : list A) (i : nat) (a : A) :
  forallb P l = true -> P a = true -> forallb P (list_set l i a) = true.
Proof.
  revert i. induction l as [|x l IH]; intros i Hl Ha; [reflexivity|].
  simpl in Hl. apply andb_true_iff in Hl. destruct Hl as [Hx Hl].
  destruct i as [|i]; simpl.
  - rewrite Ha, Hl. reflexivity.
  - rewrite Hx, (IH i Hl Ha). reflexivity.
Qed.

Lemma forallb_nth {A} (P : A -> bool) (l : list A) (i : nat) (a : A) :
  forallb P l = true -> nth_error l i = Some a -> P a = true.
Proof.
  intros Hl Hn. rewrite forallb_forall in Hl.
  apply Hl. exact (nth_error_In _ _ Hn).
Qed.

(** The section a loop found an element in is a stored list. *)
Lemma put_back_items (d : fields) (key : string) (i j : nat) (x e : json) :
  nth_error (items_of (JObj d) key) j = Some x ->
  put_back (JObj d) key i e
  = JObj (dict_set d key (JArr (list_set (items_of (JObj d) key) i e))).
Proof.
  unfold items_of, put_back.
  destruct (dict_get d key) as [[| | | | |l|]|]; try reflexivity;
    destruct j; discriminate.
Qed.

Lemma items_of_set (d : fields) (key : string) (l : list json) :
  items_of (JObj (dict_set d key (JArr l))) key = l.
Proof. unfold items_of. rewrite dict_get_set_same. reflexivity. Qed.

Lemma assign_if_obj (d : fields) (k : string) (arg : option string)
    (value : string -> string) :
  assign_if (JObj d) k arg value = Ok (JObj (assigned d k arg value)).
Proof. destruct arg as [[|c s]|]; reflexivity. Qed.

Lemma required_str_assigned (d : fields) (k k' : string) (arg : option string)
    (value : string -> string) :
  required_str d k' = true -> required_str (assigned d k arg value) k' = true.
Proof.
  intro H. destruct arg as [[|c s]|]; simpl; try exact H.
  destruct (String.eqb k k') eqn:Hk.
  - apply String.eqb_eq in Hk. subst k'. apply required_str_set_same.
  - rewrite required_str_set_other by exact Hk. exact H.
Qed.

Lemma list_of_assigned (P : json -> bool) (d : fields) (k k' : string)
    (arg : option string) (value : string -> string) :
  String.eqb k k' = false ->
  list_of P (assigned d k arg value) k' = list_of P d k'.
Proof.
  intro Hk. destruct arg as [[|c s]|]; simpl; try reflexivity.
  apply list_of_set_other. exact Hk.
Qed.

Lemma field_assigned_same (d : fields) (k : string) (arg : option string)
    (value : string -> string) :
  dict_get (assigned d k arg value) k =
  match arg with
  | Some (String c s) => Some (JStr (value (String c s)))
  | _ => dict_get d k
  end.
Proof. destruct arg as [[|c s]|]; simpl; try reflexivity. apply dict_get_set_same. Qed.

Lemma field_assigned_other (d : fields) (k k' : string) (arg : option string)
    (value : string -> string) :
  String.eqb k k' = false ->
  dict_get (assigned d k arg value) k' = dict_get d k'.
Proof.
  intro Hk. destruct arg as [[|c s]|]; simpl; try reflexivity.
  apply dict_get_set_other. exact Hk.
Qed.

Lemma update_project_run (id : string) (name description : option string)
    (d : fields) (i : nat) (old : json) :
  Resume (JObj d) = true ->
  find_by_id (items_of (JObj d) "projects") id 0 = Ok (Some (i, old)) ->
  exists p, old = JObj p /\
    update_project id name description (Some (JObj d)) =
    (Ok "Resume saved successfully.",
     Some (JObj (dict_set d "projects"
       (JArr (list_set (items_of (JObj d) "projects") i
          (JObj (assigned (assigned p "name" name strip)
                          "description" description strip))))))).
Proof.
  intros Hv Hf.
  destruct (Resume_parts d Hv) as (_ & _ & _ & Hp & _).
  destruct (section_get _ _ _ Hp) as [Hget Hitems].
  destruct (find_by_id_sound _ _ _ _ _ Hf) as (_ & Hnth & _).
  pose proof (forallb_nth _ _ _ _ Hitems Hnth) as Hold.
  destruct old as [| | | | | |p]; try discriminate Hold.
  exists p. split; [reflexivity|].
  unfold update_project, bind, lift, _load_resume.
  rewrite Hget. cbn [iter]. rewrite Hf. rewrite !assign_if_obj.
  rewrite (put_back_items _ _ _ _ _ _ Hnth).
  unfold _save_resume. rewrite validate_ok; [reflexivity|].
  apply Resume_set_projects; [exact Hv|].
  apply list_set_forallb; [exact Hitems|].
  unfold Project in *.
  repeat (apply andb_true_iff in Hold; destruct Hold as [Hold ?]).
  repeat (apply andb_true_iff; split);
    repeat apply required_str_assigned; assumption.
Qed.

Lemma update_education_run (id : string) (degree institution year : option string)
    (d : fields) (i : nat) (old : json) :
  Resume (JObj d) = true ->
  find_by_id (items_of (JObj d) "education") id 0 = Ok (Some (i, old)) ->
  exists p, old = JObj p /\
    update_education id degree institution year (Some (JObj d)) =
    (Ok "Resume saved successfully.",
     Some (JObj (dict_set d "education"
       (JArr (list_set (items_of (JObj d) "education") i
          (JObj (assigned (assigned (assigned p "degree" degree strip)
                            "institution" institution strip)
                          "year" year strip))))))).
Proof.
  intros Hv Hf.
  destruct (Resume_parts d Hv) as (_ & _ & _ & _ & He).
  destruct (section_get _ _ _ He) as [Hget Hitems].
  destruct (find_by_id_sound _ _ _ _ _ Hf) as (_ & Hnth & _).
  pose proof (forallb_nth _ _ _ _ Hitems Hnth) as Hold.
  destruct old as [| | | | | |p]; try discriminate Hold.
  exists p. split; [reflexivity|].
  unfold update_education, bind, lift, _load_resume.
  rewrite Hget. cbn [iter]. rewrite Hf. rewrite !assign_if_obj.
  rewrite (put_back_items _ _ _ _ _ _ Hnth).
  unfold _save_resume. rewrite validate_ok; [reflexivity|].
  apply Resume_set_education; [exact Hv|].
  apply list_set_forallb; [exact Hitems|].
  unfold Education in *.
  repeat (apply andb_true_iff in Hold; destruct Hold as [Hold ?]).
  repeat (apply andb_true_iff; split);
    repeat apply required_str_assigned; assumption.
Qed.

Lemma update_experience_run (id : string) (company role dates : option string)
    (d : fields) (i : nat) (old : json) :
  Resume (JObj d) = true ->
  find_by_id (items_of (JObj d) "experiences") id 0 = Ok (Some (i, old)) ->
  exists p, old = JObj p /\
    update_experience id company role dates (Some (JObj d)) =
    (Ok "Resume saved successfully.",
     Some (JObj (dict_set d "experiences"
       (JArr (list_set (items_of (JObj d) "experiences") i
          (JObj (assigned (assigned (assigned p "company" company (fun s => s))
                            "role" role (fun s => s))
                          "dates" dates (fun s => s)))))))).
Proof.
  intros Hv Hf.
  destruct (Resume_parts d Hv) as (_ & He & _).
  destruct (section_get _ _ _ He) as [Hget Hitems].
  destruct (find_by_id_sound _ _ _ _ _ Hf) as (_ & Hnth & _).
  pose proof (forallb_nth _ _ _ _ Hitems Hnth) as Hold.
  destruct old as [| | | | | |p]; try discriminate Hold.
  exists p. split; [reflexivity|].
  unfold update_experience, bind, lift, _load_resume.
  rewrite Hget. cbn [iter]. rewrite Hf. rewrite !assign_if_obj.
  rewrite (put_back_items _ _ _ _ _ _ Hnth).
  unfold _save_resume. rewrite validate_ok; [reflexivity|].
  apply Resume_set_experiences; [exact Hv|].
  apply list_set_forallb; [exact Hitems|].
  unfold Experience in *.
  repeat (apply andb_true_iff in Hold; destruct Hold as [Hold ?]).
  repeat (apply andb_true_iff; split);
    try (repeat apply required_str_assigned; assumption).
  rewrite !list_of_assigned by reflexivity. assumption.
Qed.

End Updates.

(** ** Bullets *)

Section Bullets.
Import Py schema tools Spec.

Lemma stored_section (data : json) (key : string) (j : nat) (x : json) :
  nth_error (items_of data key) j = Some x ->
  get data key (JArr []) = Ok (JArr (items_of data key)).
Proof.
  unfold items_of, get. destruct data as [| | | | | |d]; try (destruct j; discriminate).
  destruct (dict_get d key) as [[| | | | |l|]|]; try (destruct j; discriminate).
  reflexivity.
Qed.

Lemma field_getitem (e : json) (k : string) (v : json) :
  field e k = Some v -> getitem e k = Ok v.
Proof.
  unfold field, getitem. destruct e as [| | | | | |p]; try discriminate.
  intros ->. reflexivity.
Qed.

Lemma out_of_range_is_error (i n : Z) : is_error_string (out_of_range i n) = true.
Proof. reflexivity. Qed.

Lemma in_range_false (i n : Z) :
  ~ (0 <= i < n) -> (0 <=? i) && (i <? n) = false.
Proof.
  intro H. destruct (0 <=? i) eqn:H0; [|reflexivity].
  destruct (i <? n) eqn:H1; [|reflexivity].
  apply Z.leb_le in H0. apply Z.ltb_lt in H1. exfalso. apply H. lia.
Qed.

Lemma remove_bullet_out_of_range (f : json -> string) (data : json)
    (id : string) (i : nat) (exp : json) (bullets : list json) (idx : Z) :
  find_by_id (items_of data "experiences") id 0 = Ok (Some (i, exp)) ->
  field exp "bullets" = Some (JArr bullets) ->
  ~ (0 <= idx < Z.of_nat (List.length bullets)) ->
  remove_bullet f id idx (Some data)
  = (Ok (out_of_range idx (Z.of_nat (List.length bullets))), Some data).
Proof.
  intros Hf Hb Hr.
  destruct (find_by_id_sound _ _ _ _ _ Hf) as (_ & Hnth & _).
  unfold remove_bullet, bind, lift, _load_resume.
  rewrite (stored_section _ _ _ _ Hnth). cbn [iter]. rewrite Hf.
  rewrite (field_getitem _ _ _ Hb). cbn [len].
  rewrite (in_range_false _ _ Hr). reflexivity.
Qed.

Lemma update_bullet_out_of_range (data : json) (id text : string) (i : nat)
    (exp : json) (bullets : list json) (idx : Z) :
  find_by_id (items_of data "experiences") id 0 = Ok (Some (i, exp)) ->
  field exp "bullets" = Some (JArr bullets) ->
  blank text = false ->
  ~ (0 <= idx < Z.of_nat (List.length bullets)) ->
  update_bullet id idx text (Some data)
  = (Ok (out_of_range idx (Z.of_nat (List.length bullets))), Some data).
Proof.
  intros Hf Hb Ht Hr.
  destruct (find_by_id_sound _ _ _ _ _ Hf) as (_ & Hnth & _).
  unfold update_bullet. rewrite Ht. unfold bind, lift, _load_resume.
  rewrite (stored_section _ _ _ _ Hnth). cbn [iter]. rewrite Hf.
  rewrite (field_getitem _ _ _ Hb). cbn [len].
  rewrite (in_range_false _ _ Hr). reflexivity.
Qed.

Lemma remove_bullet_success_in_range (f : json -> string) (data : json)
    (id : string) (i : nat) (exp : json) (bullets : list json) (idx : Z)
    (msg : string) (st' : store) :
  find_by_id (items_of data "experiences") id 0 = Ok (Some (i, exp)) ->
  field exp "bullets" = Some (JArr bullets) ->
  remove_bullet f id idx (Some data) = (Ok msg, st') ->
  is_error_string msg = false ->
  0 <= idx < Z.of_nat (List.length bullets).
Proof.
  intros Hf Hb Hrun Hmsg.
  destruct (Z_le_dec 0 idx) as [H0|H0];
    [destruct (Z_lt_dec idx (Z.of_nat (List.length bullets))) as [H1|H1]|];
    [lia| |];
    (rewrite (remove_bullet_out_of_range f data id i exp bullets idx Hf Hb) in Hrun by lia;
     inversion Hrun; subst msg; rewrite out_of_range_is_error in Hmsg;
     discriminate Hmsg).
Qed.

Lemma update_bullet_success_in_range (data : json) (id text : string) (i : nat)
    (exp : json) (bullets : list json) (idx : Z) (msg : string) (st' : store) :
  find_by_id (items_of data "experiences") id 0 = Ok (Some (i, exp)) ->
  field exp "bullets" = Some (JArr bullets) ->
  update_bullet id idx text (Some data) = (Ok msg, st') ->
  is_error_string msg = false ->
  0 <= idx < Z.of_nat (List.length bullets).
Proof.
  intros Hf Hb Hrun Hmsg.
  destruct (blank text) eqn:Ht.
  { unfold update_bullet in Hrun. rewrite Ht in Hrun.
    inversion Hrun; subst msg. discriminate Hmsg. }
  destruct (Z_le_dec 0 idx) as [H0|H0];
    [destruct (Z_lt_dec idx (Z.of_nat (List.length bullets))) as [H1|H1]|];
    [lia| |];
    (rewrite (update_bullet_out_of_range data id text i exp bullets idx Hf Hb Ht) in Hrun by lia;
     inversion Hrun; subst msg; rewrite out_of_range_is_error in Hmsg;
     discriminate Hmsg).
Qed.

End Bullets.

(** ** Skills *)

Section Skills.
Import Py schema tools Spec.

Lemma existsb_eq_str (s : string) (l : list json) :
  existsb (fun v => eq_str v s) l = true <-> In (JStr s) l.
Proof.
  rewrite existsb_exists. split.
  - intros (v & Hin & Hv). destruct v; try discriminate Hv.
    simpl in Hv. apply String.eqb_eq in Hv. subst. exact Hin.
  - intro Hin. exists (JStr s). split; [exact Hin|]. simpl. apply String.eqb_refl.
Qed.

Lemma occurrences_app (s : string) (l l' : list json) :
  occurrences s (l ++ l')%list = (occurrences s l + occurrences s l')%nat.
Proof. unfold occurrences. rewrite filter_app, length_app. reflexivity. Qed.

Lemma occurrences_absent (s : string) (l : list json) :
  existsb (fun v => eq_str v s) l = false -> occurrences s l = 0%nat.
Proof.
  unfold occurrences. induction l as [|v l IH]; simpl; [reflexivity|].
  destruct (eq_str v s); simpl; [discriminate|exact IH].
Qed.

Lemma occurrences_present (s : string) (l : list json) :
  existsb (fun v => eq_str v s) l = true -> (1 <= occurrences s l)%nat.
Proof.
  unfold occurrences. induction l as [|v l IH]; simpl; [discriminate|].
  destruct (eq_str v s); simpl; [lia|exact IH].
Qed.

Lemma add_skill_present (skill : string) (d : fields) :
  Resume (JObj d) = true -> blank skill = false ->
  existsb (fun v => eq_str v (strip skill)) (items_of (JObj d) "skills") = true ->
  add_skill skill (Some (JObj d))
  = (Ok ("Skill '" ++ strip skill ++ "' already exists."), Some (JObj d)).
Proof.
  intros Hv Hb Hin.
  destruct (Resume_parts d Hv) as (_ & _ & Hs & _).
  destruct (section_get _ _ _ Hs) as [Hget _].
  unfold add_skill. rewrite Hb. unfold bind, lift, _load_resume.
  rewrite Hget. cbn [contains]. rewrite Hin. reflexivity.
Qed.

Lemma add_skill_absent (skill : string) (d : fields) :
  Resume (JObj d) = true -> blank skill = false ->
  existsb (fun v => eq_str v (strip skill)) (items_of (JObj d) "skills") = false ->
  add_skill skill (Some (JObj d))
  = (Ok "Resume saved successfully.",
     Some (JObj (dict_set d "skills"
       (JArr (items_of (JObj d) "skills" ++ [JStr (strip skill)])%list)))).
Proof.
  intros Hv Hb Hin.
  destruct (Resume_parts d Hv) as (_ & _ & Hs & _).
  destruct (section_get _ _ _ Hs) as [Hget Hitems].
  unfold add_skill. rewrite Hb. unfold bind, lift, _load_resume.
  rewrite Hget. cbn [contains]. rewrite Hin. cbn [append setitem].
  unfold _save_resume. rewrite validate_ok; [reflexivity|].
  apply Resume_set_skills; [exact Hv|].
  apply forallb_snoc; [exact Hitems|reflexivity].
Qed.

Lemma remove_skill_absent (skill : string) (d : fields) :
  Resume (JObj d) = true ->
  existsb (fun v => eq_str v (strip skill)) (items_of (JObj d) "skills") = false ->
  remove_skill skill (Some (JObj d))
  = (Ok ("Error: Skill '" ++ strip skill ++ "' not found."), Some (JObj d)).
Proof.
  intros Hv Hin.
  destruct (Resume_parts d Hv) as (_ & _ & Hs & _).
  destruct (section_get _ _ _ Hs) as [Hget _].
  unfold remove_skill, bind, lift, _load_resume.
  rewrite Hget. cbn [contains]. rewrite Hin. reflexivity.
Qed.

End Skills.

(** ** Lookups *)

Section Lookups.
Import Py schema tools Spec.

Lemma find_by_id_none (items : list json) (target : string) (n : nat) :
  forallb has_id items = true ->
  ~ In target (ids_of items) ->
  find_by_id items target n = Ok None.
Proof.
  revert n. induction items as [|e rest IH]; intros n Hid Hnot; [reflexivity|].
  simpl in Hid. apply andb_true_iff in Hid. destruct Hid as [He Hrest].
  unfold has_id in He. unfold ids_of in Hnot. cbn [flat_map] in Hnot.
  destruct (id_of e) as [s|] eqn:Hs; [|discriminate He].
  unfold id_of in Hs. destruct e as [| | | | | |d]; try discriminate Hs.
  destruct (dict_get d "id") as [[| | | |s'| |]|] eqn:Hd; try discriminate Hs.
  inversion Hs; subst s'; clear Hs.
  cbn [find_by_id getitem]. rewrite Hd. cbn [rbind eq_str].
  destruct (String.eqb s target) eqn:Heq.
  - apply String.eqb_eq in Heq. subst s. exfalso. apply Hnot. left. reflexivity.
  - apply IH; [exact Hrest|]. intro Hin. apply Hnot. right. exact Hin.
Qed.

Lemma get_by_id_unknown (json_dumps : json -> string) (P : json -> bool)
    (key what id : string) (d : fields) :
  (forall e, P e = true -> has_id e = true) ->
  list_of P d key = true ->
  ~ In id (ids_of (items_of (JObj d) key)) ->
  get_by_id json_dumps key what id (Some (JObj d))
  = (Ok ("Error: " ++ what ++ " with ID '" ++ id ++ "' not found."),
     Some (JObj d)).
Proof.
  intros HP Hl Hnot.
  destruct (section_get _ _ _ Hl) as [Hget Hitems].
  unfold get_by_id, bind, lift, _load_resume.
  rewrite Hget. cbn [iter].
  rewrite find_by_id_none; [reflexivity| |exact Hnot].
  exact (forallb_impl _ _ _ HP Hitems).
Qed.

Lemma get_section_unknown (json_dumps : json -> string) (name : string)
    (data : json) :
  ~ In name valid_sections ->
  get_section json_dumps name (Some data)
  = (Ok ("Error: Invalid section '" ++ name
         ++ "'. Valid sections: ['summary', 'experiences', 'skills', 'projects', 'education']"),
     Some data).
Proof.
  intro Hnot. unfold get_section, bind, _load_resume.
  destruct (existsb (String.eqb name) valid_sections) eqn:Hex; [|reflexivity].
  exfalso. apply Hnot. apply existsb_exists in Hex.
  destruct Hex as (x & Hin & Heq). apply String.eqb_eq in Heq. subst x. exact Hin.
Qed.

End Lookups.

(** ** The validator and the shape of a document *)

Section Shapes.
Import Py schema tools Spec.

Lemma required_str_iff (d : fields) (k : string) :
  required_str d k = true <-> str_field d k.
Proof.
  unfold required_str, str_field. split.
  - destruct (dict_get d k) as [[| | | |s| |]|]; try discriminate. eauto.
  - intros [s ->]. reflexivity.
Qed.

Lemma is_str_iff (v : json) : is_str v = true <-> is_string v.
Proof.
  unfold is_string. split.
  - destruct v; try discriminate. eauto.
  - intros [s ->]. reflexivity.
Qed.

Lemma list_of_iff (P : json -> bool) (Q : json -> Prop) (d : fields) (k : string) :
  (forall v, P v = true <-> Q v) ->
  list_of P d k = true <-> list_field Q d k.
Proof.
  intro HPQ. unfold list_of, list_field.
  destruct (dict_get d k) as [v|]; [|split; auto].
  split.
  - destruct v as [| | | | |l|]; try discriminate. intro H. right.
    exists l. split; [reflexivity|]. apply Forall_forall. intros x Hx.
    apply HPQ. rewrite forallb_forall in H. exact (H x Hx).
  - intros [H|(l & Hl & Hall)]; [discriminate H|]. inversion Hl; subst v.
    apply forallb_forall. intros x Hx. apply HPQ.
    rewrite Forall_forall in Hall. exact (Hall x Hx).
Qed.

Lemma Experience_iff (v : json) : Experience v = true <-> experience_shape v.
Proof.
  unfold experience_shape. split.
  - destruct v as [| | | | | |d]; try discriminate. unfold Experience. intro H.
    repeat (apply andb_true_iff in H; destruct H as [H ?]).
    exists d. rewrite <- !required_str_iff, <- (list_of_iff _ _ _ _ is_str_iff).
    repeat split; assumption.
  - intros (d & -> & H1 & H2 & H3 & H4 & H5). unfold Experience.
    rewrite <- required_str_iff in H1, H2, H3, H4.
    rewrite <- (list_of_iff _ _ _ _ is_str_iff) in H5.
    rewrite H1, H2, H3, H4, H5. reflexivity.
Qed.

Lemma Project_iff (v : json) : Project v = true <-> project_shape v.
Proof.
  unfold project_shape. split.
  - destruct v as [| | | | | |d]; try discriminate. unfold Project. intro H.
    repeat (apply andb_true_iff in H; destruct H as [H ?]).
    exists d. rewrite <- !required_str_iff. repeat split; assumption.
  - intros (d & -> & H1 & H2 & H3). unfold Project.
    rewrite <- required_str_iff in H1, H2, H3.
    rewrite H1, H2, H3. reflexivity.
Qed.

Lemma Education_iff (v : json) : Education v = true <-> education_shape v.
Proof.
  unfold education_shape. split.
  - destruct v as [| | | | | |d]; try discriminate. unfold Education. intro H.
    repeat (apply andb_true_iff in H; destruct H as [H ?]).
    exists d. rewrite <- !required_str_iff. repeat split; assumption.
  - intros (d & -> & H1 & H2 & H3 & H4). unfold Education.
    rewrite <- required_str_iff in H1, H2, H3, H4.
    rewrite H1, H2, H3, H4. reflexivity.
Qed.

Lemma Resume_iff (v : json) : Resume v = true <-> resume_shape v.
Proof.
  unfold resume_shape. split.
  - destruct v as [| | | | | |d]; try discriminate. intro H.
    apply Resume_parts in H. destruct H as (H1 & H2 & H3 & H4 & H5).
    exists d.
    rewrite <- required_str_iff, <- (list_of_iff _ _ _ _ Experience_iff),
      <- (list_of_iff _ _ _ _ is_str_iff), <- (list_of_iff _ _ _ _ Project_iff),
      <- (list_of_iff _ _ _ _ Education_iff).
    repeat split; assumption.
  - intros (d & -> & H1 & H2 & H3 & H4 & H5).
    rewrite <- required_str_iff in H1.
    rewrite <- (list_of_iff _ _ _ _ Experience_iff) in H2.
    rewrite <- (list_of_iff _ _ _ _ is_str_iff) in H3.
    rewrite <- (list_of_iff _ _ _ _ Project_iff) in H4.
    rewrite <- (list_of_iff _ _ _ _ Education_iff) in H5.
    apply Resume_of_parts; assumption.
Qed.

Lemma validate_iff (data : json) : validate data = Ok tt <-> resume_shape data.
Proof.
  rewrite <- Resume_iff. unfold validate.
  destruct data as [| | | | | |d]; try (split; discriminate).
  destruct (Resume (JObj d)); split; try reflexivity; discriminate.
Qed.

End Shapes.

(** ** The properties of the document layer *)

Section Properties.
Import Py schema tools Spec.

(** C2: on a valid document whose ids under a prefix are the prefix
    followed by decimal digits, whenever [add_experience], [add_project]
    or [add_education] adds an entry, its id is the prefix followed by one
    plus the largest numeric suffix among the ids of the section that
    match the prefix, and by 1 when none matches.  The tool adds unless it
    rejects its arguments: a blank text in [add_project] and
    [add_education], a bullet that is not a string in [add_experience]. *)
Theorem generated_id_is_max_suffix_plus_one (d : fields) :
  Resume (JObj d) = true ->
  (canonical_ids "exp_" (ids_of (items_of (JObj d) "experiences")) = true ->
   forall company role dates bullets,
     let id := expected_id "exp_" (ids_of (items_of (JObj d) "experiences")) in
     if forallb is_str (or_empty bullets) then
       exists data',
         add_experience company role dates bullets (Some (JObj d))
         = (Ok ("Experience added successfully with ID: " ++ id), Some data')
         /\ ids_of (items_of data' "experiences")
            = id :: ids_of (items_of (JObj d) "experiences")
     else
       add_experience company role dates bullets (Some (JObj d))
       = (Raise ValidationError, Some (JObj d)))
  /\ (canonical_ids "proj_" (ids_of (items_of (JObj d) "projects")) = true ->
     forall name description,
       let id := expected_id "proj_" (ids_of (items_of (JObj d) "projects")) in
       if blank name || blank description then
         exists msg,
           add_project name description (Some (JObj d)) = (Ok msg, Some (JObj d))
           /\ is_error_string msg = true
       else
         exists data',
           add_project name description (Some (JObj d))
           = (Ok ("Project added successfully with ID: " ++ id), Some data')
           /\ ids_of (items_of data' "projects")
              = (ids_of (items_of (JObj d) "projects") ++ [id])%list)
  /\ (canonical_ids "edu_" (ids_of (items_of (JObj d) "education")) = true ->
     forall degree institution year,
       let id := expected_id "edu_" (ids_of (items_of (JObj d) "education")) in
       if blank degree || blank institution || blank year then
         exists msg,
           add_education degree institution year (Some (JObj d))
           = (Ok msg, Some (JObj d))
           /\ is_error_string msg = true
       else
         exists data',
           add_education degree institution year (Some (JObj d))
           = (Ok ("Education added successfully with ID: " ++ id), Some data')
           /\ ids_of (items_of data' "education")
              = (ids_of (items_of (JObj d) "education") ++ [id])%list).
Proof.
  intro Hv. split; [|split].
  - intros Hc company role dates bullets id.
    destruct (forallb is_str (or_empty bullets)) eqn:Hb.
    + eexists. split.
      * exact (add_experience_run company role dates bullets d Hv Hc Hb).
      * rewrite items_of_set. reflexivity.
    + exact (add_experience_bad_bullets company role dates bullets d Hv Hc Hb).
  - intros Hc name description id.
    destruct (blank name || blank description) eqn:Hb.
    + exact (add_project_blank name description _ Hb).
    + apply orb_false_iff in Hb. destruct Hb as [Hn Hd].
      eexists. split.
      * exact (add_project_run name description d Hv Hc Hn Hd).
      * rewrite items_of_set. unfold ids_of. rewrite flat_map_app. reflexivity.
  - intros Hc degree institution year id.
    destruct (blank degree || blank institution || blank year) eqn:Hb.
    + exact (add_education_blank degree institution year _ Hb).
    + apply orb_false_iff in Hb. destruct Hb as [Hb Hy].
      apply orb_false_iff in Hb. destruct Hb as [Hg Hi].
      eexists. split.
      * exact (add_education_run degree institution year d Hv Hc Hg Hi Hy).
      * rewrite items_of_set. unfold ids_of. rewrite flat_map_app. reflexivity.
Qed.

Lemma generated_id_is_max_suffix_plus_one_witness :
  ids_of (items_of sample "experiences") = ["exp_3"; "exp_1"]
  /\ exists data',
       add_experience "Globex" "Lead" "2023" None (Some sample)
       = (Ok "Experience added successfully with ID: exp_4", Some data')
       /\ ids_of (items_of data' "experiences") = ["exp_4"; "exp_3"; "exp_1"].
Proof.
  split; [reflexivity|].
  exact (proj1 (generated_id_is_max_suffix_plus_one sample_fields eq_refl)
           eq_refl "Globex" "Lead" "2023" None).
Defined.

(** C3, as the code has it: the validator accepts exactly the documents
    that have the required fields with the required types, whatever the
    length of their strings; and whatever a mutating tool leaves in the
    resume file is either what was there or a document of that shape. *)
Theorem validator_checks_presence_and_types :
  (forall data, validate data = Ok tt <-> resume_shape data)
  /\ (forall f m st,
        snd (run f m st) = st
        \/ exists data, snd (run f m st) = Some data /\ resume_shape data).
Proof.
  split; [exact validate_iff|].
  intros f m st.
  destruct (writes_valid_run f m st (fst (run f m st)) (snd (run f m st)))
    as [H|(data & Hd & Hv)].
  - destruct (run f m st); reflexivity.
  - left. exact H.
  - right. exists data. split; [exact Hd|]. apply Resume_iff. exact Hv.
Qed.

(** C3 fails as stated: a document whose summary is the empty string passes
    the validator, and [update_education] given a whitespace-only degree
    persists an education entry whose degree is the empty string. *)
Lemma validator_accepts_empty_strings :
  validate (JObj [("summary", JStr EmptyString)]) = Ok tt
  /\ update_education "edu_1" (Some " ") None None (Some sample)
     = (Ok "Resume saved successfully.",
        Some (JObj (dict_set sample_fields "education"
          (JArr [JObj [("id", JStr "edu_1"); ("degree", JStr EmptyString);
                       ("institution", JStr "MIT"); ("year", JStr "2019")]])))).
Proof. split; reflexivity. Qed.

Lemma validator_checks_presence_and_types_witness :
  resume_shape sample
  /\ (snd (run render (AddSkill "Rocq") (Some sample)) = Some sample
      \/ exists data,
           snd (run render (AddSkill "Rocq") (Some sample)) = Some data
           /\ resume_shape data).
Proof.
  split.
  - apply (proj1 validator_checks_presence_and_types). reflexivity.
  - apply (proj2 validator_checks_presence_and_types).
Defined.

(** C4, as the code has it: on an existing entity of a valid document,
    [update_project] and [update_education] replace each field whose
    argument is present and not the empty string by the trimmed argument
    (so a whitespace-only argument stores the empty string) and leave a
    field alone when its argument is absent or the empty string;
    [update_experience] leaves a field alone in the same cases and
    otherwise stores a text that trims to what the argument trims to. *)
Theorem update_replaces_nonempty_arguments (d : fields) (id : string)
    (i : nat) (old : json) :
  Resume (JObj d) = true ->
  (forall name description,
      find_by_id (items_of (JObj d) "projects") id 0 = Ok (Some (i, old)) ->
      exists new data',
        update_project id name description (Some (JObj d))
        = (Ok "Resume saved successfully.", Some data')
        /\ items_of data' "projects"
           = list_set (items_of (JObj d) "projects") i new
        /\ replaced_trimmed name (field old "name") (field new "name")
        /\ replaced_trimmed description (field old "description")
             (field new "description"))
  /\ (forall degree institution year,
      find_by_id (items_of (JObj d) "education") id 0 = Ok (Some (i, old)) ->
      exists new data',
        update_education id degree institution year (Some (JObj d))
        = (Ok "Resume saved successfully.", Some data')
        /\ items_of data' "education"
           = list_set (items_of (JObj d) "education") i new
        /\ replaced_trimmed degree (field old "degree") (field new "degree")
        /\ replaced_trimmed institution (field old "institution")
             (field new "institution")
        /\ replaced_trimmed year (field old "year") (field new "year"))
  /\ (forall company role dates,
      find_by_id (items_of (JObj d) "experiences") id 0 = Ok (Some (i, old)) ->
      exists new data',
        update_experience id company role dates (Some (JObj d))
        = (Ok "Resume saved successfully.", Some data')
        /\ items_of data' "experiences"
           = list_set (items_of (JObj d) "experiences") i new
        /\ replaced company (field old "company") (field new "company")
        /\ replaced role (field old "role") (field new "role")
        /\ replaced dates (field old "dates") (field new "dates")).
Proof.
  intro Hv. split; [|split].
  - intros name description Hf.
    destruct (update_project_run id name description d i old Hv Hf)
      as (p & -> & Hrun).
    eexists. eexists. split; [exact Hrun|]. split; [apply items_of_set|].
    cbn [field]. split.
    + rewrite field_assigned_other by reflexivity. rewrite field_assigned_same.
      destruct name as [[|c s]|]; reflexivity.
    + rewrite field_assigned_same.
      rewrite field_assigned_other by reflexivity.
      destruct description as [[|c s]|]; reflexivity.
  - intros degree institution year Hf.
    destruct (update_education_run id degree institution year d i old Hv Hf)
      as (p & -> & Hrun).
    eexists. eexists. split; [exact Hrun|]. split; [apply items_of_set|].
    cbn [field]. repeat split.
    + rewrite !field_assigned_other by reflexivity. rewrite field_assigned_same.
      destruct degree as [[|c s]|]; reflexivity.
    + rewrite field_assigned_other by reflexivity. rewrite field_assigned_same.
      rewrite field_assigned_other by reflexivity.
      destruct institution as [[|c s]|]; reflexivity.
    + rewrite field_assigned_same.
      rewrite !field_assigned_other by reflexivity.
      destruct year as [[|c s]|]; reflexivity.
  - intros company role dates Hf.
    destruct (update_experience_run id company role dates d i old Hv Hf)
      as (p & -> & Hrun).
    eexists. eexists. split; [exact Hrun|]. split; [apply items_of_set|].
    cbn [field]. repeat split.
    + rewrite !field_assigned_other by reflexivity. rewrite field_assigned_same.
      destruct company as [[|c s]|]; simpl; eauto.
    + rewrite field_assigned_other by reflexivity. rewrite field_assigned_same.
      rewrite field_assigned_other by reflexivity.
      destruct role as [[|c s]|]; simpl; eauto.
    + rewrite field_assigned_same.
      rewrite !field_assigned_other by reflexivity.
      destruct dates as [[|c s]|]; simpl; eauto.
Qed.

Lemma update_replaces_nonempty_arguments_witness :
  exists new data',
    update_project "proj_1" (Some " Anvil ") (Some EmptyString) (Some sample)
    = (Ok "Resume saved successfully.", Some data')
    /\ items_of data' "projects" = [new]
    /\ field new "name" = Some (JStr "Anvil")
    /\ field new "description" = Some (JStr "Resume editor").
Proof.
  exact (proj1 (update_replaces_nonempty_arguments sample_fields "proj_1" 0%nat
                  (JObj [("id", JStr "proj_1"); ("name", JStr "Forge");
                         ("description", JStr "Resume editor")]) eq_refl)
           (Some " Anvil ") (Some EmptyString) eq_refl).
Defined.

(** C4 fails as stated: a whitespace-only name given to [update_project]
    changes the stored name, and changes it to the empty string. *)
Lemma whitespace_argument_empties_field :
  items_of sample "projects"
  = [JObj [("id", JStr "proj_1"); ("name", JStr "Forge");
           ("description", JStr "Resume editor")]]
  /\ update_project "proj_1" (Some "   ") None (Some sample)
     = (Ok "Resume saved successfully.",
        Some (JObj (dict_set sample_fields "projects"
          (JArr [JObj [("id", JStr "proj_1"); ("name", JStr EmptyString);
                       ("description", JStr "Resume editor")]])))).
Proof. split; reflexivity. Qed.

(** C5 at its failing input: [add_experience] stores the company, the role
    and the dates as given, with their surrounding whitespace, while the
    entity looked up by the returned id would have to carry the trimmed
    texts. *)
Theorem add_experience_stores_untrimmed :
  exists data',
    add_experience " Acme " " Dev " " 2020 " None
      (Some (JObj [("summary", JStr "Engineer")]))
    = (Ok "Experience added successfully with ID: exp_1", Some data')
    /\ find_by_id (items_of data' "experiences") "exp_1" 0
       = Ok (Some (0%nat,
               JObj [("id", JStr "exp_1"); ("company", JStr " Acme ");
                     ("role", JStr " Dev "); ("dates", JStr " 2020 ");
                     ("bullets", JArr [])]))
    /\ strip " Acme " = "Acme"
    /\ JStr " Acme " <> JStr (strip " Acme ").
Proof.
  eexists. split; [vm_compute; reflexivity|]. split; [reflexivity|].
  split; [reflexivity|]. discriminate.
Qed.

(** C6: on a valid document with well-formed ids, whenever
    [add_experience] adds an entry it is at index 0 of the experiences, in
    front of the former entries in their order, and whenever [add_project]
    or [add_education] adds an entry it is at the last index, behind the
    former entries in their order.  The tool adds unless it rejects its
    arguments (a blank text, a bullet that is not a string). *)
Theorem add_experience_prepends_others_append (d : fields) :
  Resume (JObj d) = true ->
  (canonical_ids "exp_" (ids_of (items_of (JObj d) "experiences")) = true ->
   forall company role dates bullets,
     if forallb is_str (or_empty bullets) then
       exists msg new data',
         add_experience company role dates bullets (Some (JObj d))
         = (Ok msg, Some data')
         /\ items_of data' "experiences"
            = new :: items_of (JObj d) "experiences"
         /\ field new "company" = Some (JStr company)
         /\ field new "role" = Some (JStr role)
         /\ field new "dates" = Some (JStr dates)
     else
       add_experience company role dates bullets (Some (JObj d))
       = (Raise ValidationError, Some (JObj d)))
  /\ (canonical_ids "proj_" (ids_of (items_of (JObj d) "projects")) = true ->
     forall name description,
       if blank name || blank description then
         exists msg,
           add_project name description (Some (JObj d)) = (Ok msg, Some (JObj d))
           /\ is_error_string msg = true
       else
         exists msg new data',
           add_project name description (Some (JObj d)) = (Ok msg, Some data')
           /\ items_of data' "projects"
              = (items_of (JObj d) "projects" ++ [new])%list
           /\ field new "name" = Some (JStr (strip name))
           /\ field new "description" = Some (JStr (strip description)))
  /\ (canonical_ids "edu_" (ids_of (items_of (JObj d) "education")) = true ->
     forall degree institution year,
       if blank degree || blank institution || blank year then
         exists msg,
           add_education degree institution year (Some (JObj d))
           = (Ok msg, Some (JObj d))
           /\ is_error_string msg = true
       else
         exists msg new data',
           add_education degree institution year (Some (JObj d))
           = (Ok msg, Some data')
           /\ items_of data' "education"
              = (items_of (JObj d) "education" ++ [new])%list
           /\ field new "degree" = Some (JStr (strip degree))
           /\ field new "institution" = Some (JStr (strip institution))
           /\ field new "year" = Some (JStr (strip year))).
Proof.
  intro Hv. split; [|split].
  - intros Hc company role dates bullets.
    destruct (forallb is_str (or_empty bullets)) eqn:Hb.
    + do 3 eexists. split.
      * exact (add_experience_run company role dates bullets d Hv Hc Hb).
      * rewrite items_of_set. repeat split.
    + exact (add_experience_bad_bullets company role dates bullets d Hv Hc Hb).
  - intros Hc name description.
    destruct (blank name || blank description) eqn:Hb.
    + exact (add_project_blank name description _ Hb).
    + apply orb_false_iff in Hb. destruct Hb as [Hn Hd].
      do 3 eexists. split.
      * exact (add_project_run name description d Hv Hc Hn Hd).
      * rewrite items_of_set. repeat split.
  - intros Hc degree institution year.
    destruct (blank degree || blank institution || blank year) eqn:Hb.
    + exact (add_education_blank degree institution year _ Hb).
    + apply orb_false_iff in Hb. destruct Hb as [Hb Hy].
      apply orb_false_iff in Hb. destruct Hb as [Hg Hi].
      do 3 eexists. split.
      * exact (add_education_run degree institution year d Hv Hc Hg Hi Hy).
      * rewrite items_of_set. repeat split.
Qed.

Lemma add_experience_prepends_others_append_witness :
  exists msg new data',
    add_project " Anvil " "A forge" (Some sample) = (Ok msg, Some data')
    /\ items_of data' "projects" = (items_of sample "projects" ++ [new])%list
    /\ field new "name" = Some (JStr "Anvil")
    /\ field new "description" = Some (JStr "A forge").
Proof.
  exact (proj1 (proj2 (add_experience_prepends_others_append sample_fields eq_refl))
           eq_refl " Anvil " "A forge").
Defined.

(** C7, as the code has it: for the experience a bullet tool finds, with
    [n] bullets, [update_bullet] and [remove_bullet] succeed only on an
    index [i] with [0 <= i < n]; on any other index [remove_bullet], and
    [update_bullet] given a text that is not blank, return the
    out-of-range error that names [i] and [n]; [update_bullet] given a
    blank text returns the empty-text error whatever the index.  In all
    these failures the resume file is as before. *)
Theorem bullet_index_checked_against_count (f : json -> string) (data : json)
    (id : string) (pos : nat) (exp : json) (bullets : list json) (i : Z) :
  find_by_id (items_of data "experiences") id 0 = Ok (Some (pos, exp)) ->
  field exp "bullets" = Some (JArr bullets) ->
  (forall msg st',
      remove_bullet f id i (Some data) = (Ok msg, st') ->
      is_error_string msg = false ->
      0 <= i < Z.of_nat (List.length bullets))
  /\ (forall text msg st',
      update_bullet id i text (Some data) = (Ok msg, st') ->
      is_error_string msg = false ->
      0 <= i < Z.of_nat (List.length bullets))
  /\ (~ (0 <= i < Z.of_nat (List.length bullets)) ->
      remove_bullet f id i (Some data)
      = (Ok ("Error: Bullet index " ++ str_of_int i
             ++ " out of range. Experience has "
             ++ str_of_int (Z.of_nat (List.length bullets)) ++ " bullets."),
         Some data)
      /\ forall text, blank text = false ->
         update_bullet id i text (Some data)
         = (Ok ("Error: Bullet index " ++ str_of_int i
                ++ " out of range. Experience has "
                ++ str_of_int (Z.of_nat (List.length bullets)) ++ " bullets."),
            Some data))
  /\ (forall text, blank text = true ->
      update_bullet id i text (Some data)
      = (Ok "Error: Bullet text cannot be empty.", Some data)).
Proof.
  intros Hf Hb. split; [|split; [|split]].
  - intros msg st'.
    exact (remove_bullet_success_in_range f data id pos exp bullets i msg st' Hf Hb).
  - intros text msg st'.
    exact (update_bullet_success_in_range data id text pos exp bullets i msg st' Hf Hb).
  - intro Hr. split.
    + exact (remove_bullet_out_of_range f data id pos exp bullets i Hf Hb Hr).
    + intros text Ht.
      exact (update_bullet_out_of_range data id text pos exp bullets i Hf Hb Ht Hr).
  - intros text Ht. unfold update_bullet. rewrite Ht. reflexivity.
Qed.

Lemma bullet_index_checked_against_count_witness :
  remove_bullet render "exp_3" 5 (Some sample)
  = (Ok "Error: Bullet index 5 out of range. Experience has 3 bullets.",
     Some sample).
Proof.
  refine (proj1 (proj1 (proj2 (proj2
    (bullet_index_checked_against_count render sample "exp_3" 0%nat
       (JObj [("id", JStr "exp_3"); ("company", JStr "Acme");
              ("role", JStr "Developer"); ("dates", JStr "2020-2022");
              ("bullets", JArr [JStr "Built"; JStr "Shipped"; JStr "Led"])])
       [JStr "Built"; JStr "Shipped"; JStr "Led"] 5 eq_refl eq_refl))) _)).
  simpl. lia.
Defined.

(** C7 fails as stated: on the experience [exp_3], which has 3 bullets,
    [update_bullet] with the index 7 and a blank text returns the
    empty-text error, not the out-of-range error. *)
Lemma blank_text_is_reported_before_index :
  field (JObj [("id", JStr "exp_3"); ("company", JStr "Acme");
               ("role", JStr "Developer"); ("dates", JStr "2020-2022");
               ("bullets", JArr [JStr "Built"; JStr "Shipped"; JStr "Led"])])
    "bullets" = Some (JArr [JStr "Built"; JStr "Shipped"; JStr "Led"])
  /\ find_by_id (items_of sample "experiences") "exp_3" 0
     = Ok (Some (0%nat,
             JObj [("id", JStr "exp_3"); ("company", JStr "Acme");
                   ("role", JStr "Developer"); ("dates", JStr "2020-2022");
                   ("bullets", JArr [JStr "Built"; JStr "Shipped"; JStr "Led"])]))
  /\ update_bullet "exp_3" 7 "  " (Some sample)
     = (Ok "Error: Bullet text cannot be empty.", Some sample)
  /\ "Error: Bullet text cannot be empty." <> out_of_range 7 3.
Proof. repeat split; try reflexivity. discriminate. Qed.

(** C8, as the code has it: on a valid document, [add_skill] given a
    blank skill returns the empty-skill error and adds nothing; given any
    other skill it rejects one whose trimmed text is in the list with the
    already-exists report, and calling it twice with the same skill makes
    the second call give that report and leaves exactly one copy in a list
    that had at most one; [remove_skill] of a skill that is not in the
    list returns the not-found error. *)
Theorem add_skill_rejects_present_skill (d : fields) (skill : string) :
  Resume (JObj d) = true ->
  (if blank skill then
     add_skill skill (Some (JObj d))
     = (Ok "Error: Skill cannot be empty.", Some (JObj d))
   else
     (In (JStr (strip skill)) (items_of (JObj d) "skills") ->
        add_skill skill (Some (JObj d))
        = (Ok ("Skill '" ++ strip skill ++ "' already exists."), Some (JObj d)))
     /\ ((occurrences (strip skill) (items_of (JObj d) "skills") <= 1)%nat ->
        exists msg data1,
          add_skill skill (Some (JObj d)) = (Ok msg, Some data1)
          /\ add_skill skill (Some data1)
             = (Ok ("Skill '" ++ strip skill ++ "' already exists."), Some data1)
          /\ occurrences (strip skill) (items_of data1 "skills") = 1%nat))
  /\ (forall other,
     ~ In (JStr (strip other)) (items_of (JObj d) "skills") ->
     remove_skill other (Some (JObj d))
     = (Ok ("Error: Skill '" ++ strip other ++ "' not found."), Some (JObj d))).
Proof.
  intros Hv. split.
  - destruct (blank skill) eqn:Hb.
    { unfold add_skill. rewrite Hb. reflexivity. }
    split.
    + intro Hin. apply add_skill_present; [exact Hv|exact Hb|].
      apply existsb_eq_str. exact Hin.
    + intro Hocc.
      destruct (existsb (fun v => eq_str v (strip skill))
                  (items_of (JObj d) "skills")) eqn:Hex.
      * pose proof (add_skill_present skill d Hv Hb Hex) as Hrun.
        do 2 eexists. split; [exact Hrun|]. split; [exact Hrun|].
        pose proof (occurrences_present _ _ Hex). lia.
      * pose proof (add_skill_absent skill d Hv Hb Hex) as Hrun.
        destruct (Resume_parts d Hv) as (_ & _ & Hs & _).
        destruct (section_get _ _ _ Hs) as [_ Hitems].
        do 2 eexists. split; [exact Hrun|]. split.
        -- apply add_skill_present; [|exact Hb|].
           ++ apply Resume_set_skills; [exact Hv|].
              apply forallb_snoc; [exact Hitems|reflexivity].
           ++ rewrite items_of_set, existsb_app. simpl.
              rewrite String.eqb_refl. apply orb_true_iff. right. reflexivity.
        -- rewrite items_of_set, occurrences_app, (occurrences_absent _ _ Hex).
           unfold occurrences. simpl. rewrite String.eqb_refl. reflexivity.
  - intros other Hnot. apply remove_skill_absent; [exact Hv|].
    destruct (existsb (fun v => eq_str v (strip other))
                (items_of (JObj d) "skills")) eqn:Hex; [|reflexivity].
    exfalso. apply Hnot. apply existsb_eq_str. exact Hex.
Qed.

Lemma add_skill_rejects_present_skill_witness :
  exists msg data1,
    add_skill " Rocq " (Some sample) = (Ok msg, Some data1)
    /\ add_skill " Rocq " (Some data1)
       = (Ok "Skill 'Rocq' already exists.", Some data1)
    /\ occurrences "Rocq" (items_of data1 "skills") = 1%nat.
Proof.
  refine (proj2 (proj1
    (add_skill_rejects_present_skill sample_fields " Rocq " eq_refl)) _).
  vm_compute. lia.
Defined.

(** C8 fails as stated: called twice with a whitespace-only skill,
    [add_skill] gives the empty-skill error both times, not the
    already-exists report, and the list holds no copy of the skill. *)
Lemma blank_skill_is_never_a_duplicate :
  add_skill "   " (Some sample) = (Ok "Error: Skill cannot be empty.", Some sample)
  /\ add_skill "   " (snd (add_skill "   " (Some sample)))
     = (Ok "Error: Skill cannot be empty.", Some sample)
  /\ "Error: Skill cannot be empty." <> "Skill '" ++ strip "   " ++ "' already exists."
  /\ occurrences (strip "   ") (items_of sample "skills") = 0%nat.
Proof. repeat split. discriminate. Qed.

(** C9: [get_section] with a name outside the five sections, and
    [get_experience_by_id], [get_project_by_id] and [get_education_by_id]
    on a valid document with an id that no entity of the section has,
    return an error string and do not raise. *)
Theorem unknown_lookup_returns_error (json_dumps : json -> string) (data : json) :
  (forall name, ~ In name valid_sections ->
     get_section json_dumps name (Some data)
     = (Ok ("Error: Invalid section '" ++ name
            ++ "'. Valid sections: ['summary', 'experiences', 'skills', 'projects', 'education']"),
        Some data))
  /\ (Resume data = true ->
      (forall id, ~ In id (ids_of (items_of data "experiences")) ->
         get_experience_by_id json_dumps id (Some data)
         = (Ok ("Error: Experience with ID '" ++ id ++ "' not found."), Some data))
      /\ (forall id, ~ In id (ids_of (items_of data "projects")) ->
         get_project_by_id json_dumps id (Some data)
         = (Ok ("Error: Project with ID '" ++ id ++ "' not found."), Some data))
      /\ (forall id, ~ In id (ids_of (items_of data "education")) ->
         get_education_by_id json_dumps id (Some data)
         = (Ok ("Error: Education with ID '" ++ id ++ "' not found."), Some data))).
Proof.
  split.
  - intros name Hnot. exact (get_section_unknown json_dumps name data Hnot).
  - intro Hv. destruct (Resume_is_obj data Hv) as [d ->].
    destruct (Resume_parts d Hv) as (_ & He & _ & Hp & Hd).
    split; [|split]; intros id Hnot.
    + exact (get_by_id_unknown json_dumps Experience "experiences" "Experience"
               id d Experience_has_id He Hnot).
    + exact (get_by_id_unknown json_dumps Project "projects" "Project"
               id d Project_has_id Hp Hnot).
    + exact (get_by_id_unknown json_dumps Education "education" "Education"
               id d Education_has_id Hd Hnot).
Qed.

Lemma unknown_lookup_returns_error_witness :
  get_project_by_id render "proj_7" (Some sample)
  = (Ok "Error: Project with ID 'proj_7' not found.", Some sample).
Proof.
  refine (proj1 (proj2 (proj2 (unknown_lookup_returns_error render sample) eq_refl))
            "proj_7" _).
  simpl. intros [H|[]]. discriminate H.
Defined.

(** C10: [remove_skill] trims its argument before matching: the skill
    surrounded by any whitespace gives the result and the resume file that
    the bare skill gives. *)
Theorem remove_skill_trims_argument (st : store) (skill l r : string) :
  all_space l = true -> all_space r = true ->
  remove_skill (l ++ skill ++ r) st = remove_skill skill st.
Proof.
  intros Hl Hr. unfold remove_skill.
  rewrite (strip_padded l skill r Hl Hr). reflexivity.
Qed.

Lemma remove_skill_trims_argument_witness :
  remove_skill "  Python " (Some sample) = remove_skill "Python" (Some sample).
Proof.
  exact (remove_skill_trims_argument (Some sample) "Python" "  " " "
           eq_refl eq_refl).
Defined.

(** *** Worked examples *)

(** Matching is case-sensitive: [python] is not [Python]. *)
Example add_skill_is_case_sensitive :
  exists data',
    add_skill "python" (Some sample) = (Ok "Resume saved successfully.", Some data')
    /\ items_of data' "skills" = [JStr "Python"; JStr "python"].
Proof. eexists. split; [vm_compute; reflexivity|reflexivity]. Qed.

(** An index in range removes that bullet and reports its text. *)
Example remove_bullet_in_range :
  exists data',
    remove_bullet render "exp_3" 1 (Some sample)
    = (Ok "Bullet removed: 'Shipped'", Some data')
    /\ option_map (fun e => field e "bullets")
         (nth_error (items_of data' "experiences") 0)
       = Some (Some (JArr [JStr "Built"; JStr "Led"])).
Proof. eexists. split; [vm_compute; reflexivity|reflexivity]. Qed.

(** An id outside the format stops id generation: [int] raises on [x]
    and nothing is written. *)
Example malformed_id_raises :
  add_project "Anvil" "A forge"
    (Some (JObj [("summary", JStr "Engineer");
                 ("projects",
                  JArr [JObj [("id", JStr "proj_x"); ("name", JStr "Forge");
                              ("description", JStr "Resume editor")]])]))
  = (Raise ValueError,
     Some (JObj [("summary", JStr "Engineer");
                 ("projects",
                  JArr [JObj [("id", JStr "proj_x"); ("name", JStr "Forge");
                              ("description", JStr "Resume editor")]])])).
Proof. reflexivity. Qed.

(** The fresh id does not reuse a removed one: after [exp_3] is removed
    from the sample the next id is [exp_2], one above the surviving
    [exp_1]; had [exp_1] been removed instead it would be [exp_4]. *)
Example ids_follow_the_survivors :
  expected_id "exp_" ["exp_1"] = "exp_2"
  /\ expected_id "exp_" ["exp_3"] = "exp_4"
  /\ expected_id "exp_" [] = "exp_1".
Proof. repeat split. Qed.

End Properties.

(** ** Each tool assigns to one section only *)

Section Frame.
Import Py schema tools Spec Cover.

Lemma quiet_ret {A} (a : A) : quiet (ret a).
Proof. intro st. reflexivity. Qed.

Lemma agrees_refl (key : string) (data : json) : agrees_outside key data data.
Proof. intros k _. reflexivity. Qed.

Lemma agrees_setitem (key : string) (data data' v : json) :
  setitem data key v = Ok data' -> agrees_outside key data data'.
Proof.
  unfold setitem. destruct data as [| | | | | |d]; try discriminate.
  intros H k Hk. inversion H; subst. simpl.
  apply dict_get_set_other. exact Hk.
Qed.

Lemma agrees_put_back (key : string) (data : json) (i : nat) (e : json) :
  agrees_outside key data (put_back data key i e).
Proof.
  unfold put_back. destruct data as [| | | | | |d]; try apply agrees_refl.
  destruct (dict_get d key) as [[| | | | |l|]|]; try apply agrees_refl.
  intros k Hk. simpl. apply dict_get_set_other. exact Hk.
Qed.

Lemma frames_ret {A} (key : string) (data : json) (a : A) :
  frames key data (ret a).
Proof.
  intros r st' H. inversion H; subst.
  exists data. split; [reflexivity|apply agrees_refl].
Qed.

Lemma frames_load {A} (key : string) (data : json) (k : json -> M A) :
  frames key data (k data) -> frames key data (bind _load_resume k).
Proof. intros Hk r st' H. apply (Hk r st'). exact H. Qed.

Lemma frames_lift {A B} (key : string) (data : json) (x : result A)
    (k : A -> M B) :
  (forall a, x = Ok a -> frames key data (k a)) ->
  frames key data (bind (lift x) k).
Proof.
  intros Hk r st' H. unfold bind, lift in H. destruct x as [a|e].
  - exact (Hk a eq_refl r st' H).
  - inversion H; subst. exists data. split; [reflexivity|apply agrees_refl].
Qed.

Lemma frames_save (key : string) (data data' : json) :
  agrees_outside key data data' -> frames key data (_save_resume data').
Proof.
  intros Ha r st' H. unfold _save_resume in H.
  destruct (validate data'); inversion H; subst.
  - exists data'. split; [reflexivity|exact Ha].
  - exists data. split; [reflexivity|apply agrees_refl].
Qed.

Lemma frames_save_then {A} (key : string) (data data' : json)
    (k : string -> M A) :
  agrees_outside key data data' -> (forall s, quiet (k s)) ->
  frames key data (bind (_save_resume data') k).
Proof.
  intros Ha Hq r st' H. unfold bind in H.
  destruct (_save_resume data' (Some data)) as [[s|e] st1] eqn:Hs.
  - destruct (frames_save key data data' Ha _ _ Hs) as (d1 & -> & Hd1).
    specialize (Hq s (Some d1)). rewrite H in Hq. simpl in Hq. subst st'.
    exists d1. split; [reflexivity|exact Hd1].
  - inversion H; subst. exact (frames_save key data data' Ha _ _ Hs).
Qed.

Ltac frame_step :=
  cbv zeta;
  match goal with
  | |- frames _ _ (ret _) => apply frames_ret
  | |- frames _ _ (bind _load_resume _) => apply frames_load
  | |- frames _ _ (bind (_save_resume _) _) =>
      apply frames_save_then;
      [ first [ apply agrees_put_back
              | eapply agrees_setitem; eassumption ]
      | intro; first [ apply quiet_ret | apply quiet_lift ] ]
  | |- frames _ _ (_save_resume _) =>
      apply frames_save;
      first [ apply agrees_put_back | eapply agrees_setitem; eassumption ]
  | |- frames _ _ (bind (lift _) _) => apply frames_lift; intros ? ?
  | |- frames _ _ (if ?b then _ else _) => destruct b
  | |- frames _ _ (match ?x with Some _ => _ | None => _ end) =>
      destruct x as [[? ?]|]
  end.

Lemma frames_run (f : json -> string) (m : mutation) (data : json) :
  frames (section_key m) data (run f m).
Proof.
  destruct m; simpl;
    unfold update_summary, update_experience, add_experience, remove_experience,
      add_bullet, update_bullet, remove_bullet, add_skill, remove_skill,
      add_project, update_project, remove_project, update_education,
      add_education, remove_education, remove_by_id;
    repeat frame_step.
Qed.

(** X1: run on a readable resume file, a mutating tool leaves a readable
    file in which every top-level key other than the tool's own section
    ([summary], [experiences], [skills], [projects] or [education]) has
    the value it had, keys outside the schema included; this holds whether
    the tool succeeds, reports an error or raises. *)
Theorem tools_write_only_their_section (f : json -> string) (m : mutation)
    (data : json) (k : string) :
  k <> section_key m ->
  exists data',
    snd (run f m (Some data)) = Some data' /\ field data' k = field data k.
Proof.
  intro Hk.
  destruct (run f m (Some data)) as [r st'] eqn:Hrun.
  destruct (frames_run f m data r st' Hrun) as (data' & -> & Ha).
  exists data'. split; [reflexivity|]. apply Ha.
  destruct (String.eqb (section_key m) k) eqn:He; [|reflexivity].
  apply String.eqb_eq in He. congruence.
Qed.

Lemma tools_write_only_their_section_witness :
  exists data',
    snd (run render (RemoveSkill "Python") (Some sample)) = Some data'
    /\ field data' "projects" = field sample "projects".
Proof.
  apply (tools_write_only_their_section render (RemoveSkill "Python") sample
           "projects").
  discriminate.
Defined.

End Frame.

(** ** Raising, reading, and an unreadable file *)

Section Atomicity.
Import Py schema tools Spec Cover.

Lemma quiet_bind {A B} (m : M A) (k : A -> M B) :
  quiet m -> (forall a, quiet (k a)) -> quiet (bind m k).
Proof.
  intros Hm Hk st. unfold bind. specialize (Hm st).
  destruct (m st) as [[a|e] st1]; simpl in Hm; subst st1.
  - apply Hk.
  - reflexivity.
Qed.

Lemma no_raise_write_quiet {A} (m : M A) : quiet m -> no_write_on_raise m.
Proof. intros Hq st e st' H. specialize (Hq st). rewrite H in Hq. exact Hq. Qed.

Lemma no_raise_write_bind {A B} (m : M A) (k : A -> M B) :
  quiet m -> (forall a, no_write_on_raise (k a)) ->
  no_write_on_raise (bind m k).
Proof.
  intros Hq Hk st e st' H. unfold bind in H. specialize (Hq st).
  destruct (m st) as [[a|e0] st1]; simpl in Hq; subst st1.
  - exact (Hk a _ _ _ H).
  - inversion H. reflexivity.
Qed.

Lemma no_raise_write_save (data : json) : no_write_on_raise (_save_resume data).
Proof.
  intros st e st' H. unfold _save_resume in H.
  destruct (validate data); inversion H. reflexivity.
Qed.

Lemma no_raise_write_save_ret {A} (data : json) (a : string -> A) :
  no_write_on_raise (bind (_save_resume data) (fun s => ret (a s))).
Proof.
  intros st e st' H. unfold bind, _save_resume, ret in H.
  destruct (validate data); inversion H. reflexivity.
Qed.

Ltac atomic_step :=
  cbv zeta;
  match goal with
  | |- no_write_on_raise (ret _) => apply no_raise_write_quiet, quiet_ret
  | |- no_write_on_raise (_save_resume _) => apply no_raise_write_save
  | |- no_write_on_raise (bind (_save_resume _) (fun _ => ret _)) =>
      apply (no_raise_write_save_ret _ (fun _ => _))
  | |- no_write_on_raise (bind _ _) =>
      apply no_raise_write_bind;
      [first [apply quiet_lift | apply quiet_load] | intros]
  | |- no_write_on_raise (if ?b then _ else _) => destruct b
  | |- no_write_on_raise (match ?x with Some _ => _ | None => _ end) =>
      destruct x as [[? ?]|]
  end.

Lemma no_raise_write_run (f : json -> string) (m : mutation) :
  is_remove_bullet m = false -> no_write_on_raise (run f m).
Proof.
  destruct m; simpl; intro Hm; try discriminate Hm;
    unfold update_summary, update_experience, add_experience, remove_experience,
      add_bullet, update_bullet, add_skill, remove_skill,
      add_project, update_project, remove_project, update_education,
      add_education, remove_education, remove_by_id;
    repeat atomic_step.
Qed.

(** In a valid document the bullet that [remove_bullet] pops is a string,
    so the confirmation is computed without raising. *)
Lemma remove_bullet_valid_raise (f : json -> string) (data : json)
    (id : string) (i : Z) (e : exn) (st' : store) :
  Resume data = true ->
  remove_bullet f id i (Some data) = (Raise e, st') -> st' = Some data.
Proof.
  intros Hv H. destruct (Resume_is_obj data Hv) as [d ->].
  destruct (Resume_parts d Hv) as (_ & He & _).
  destruct (section_get _ _ _ He) as [Hget Hitems].
  unfold remove_bullet, bind, lift, _load_resume in H.
  rewrite Hget in H. cbn [iter] in H.
  destruct (find_by_id (items_of (JObj d) "experiences") id 0)
    as [[[pos exp]|]|e0] eqn:Hf; try (inversion H; reflexivity).
  destruct (find_by_id_sound _ _ _ _ _ Hf) as (_ & Hnth & _).
  pose proof (forallb_nth _ _ _ _ Hitems Hnth) as Hexp.
  destruct exp as [| | | | | |p]; try discriminate Hexp.
  unfold Experience in Hexp. apply andb_true_iff in Hexp.
  destruct Hexp as [_ Hb]. unfold list_of in Hb.
  cbn [getitem] in H.
  destruct (dict_get p "bullets") as [b|]; [|inversion H; reflexivity].
  destruct b as [| | | | |l|]; try discriminate Hb.
  cbn [len] in H.
  destruct ((0 <=? i) && (i <? Z.of_nat (Datatypes.length l)));
    [|inversion H].
  cbn [pop] in H.
  destruct (nth_error l (Z.to_nat i)) as [x|] eqn:Hx;
    [|inversion H; reflexivity].
  pose proof (forallb_nth _ _ _ _ Hb Hx) as Hstr.
  destruct x; try discriminate Hstr.
  cbn [fst snd] in H. unfold _save_resume in H.
  destruct (validate _); [|inversion H; reflexivity].
  unfold removed_message in H. cbn [len rbind] in H.
  destruct (Z.of_nat (String.length s) >? 50); inversion H.
Qed.

(** X2: a mutating tool that raises has not written the resume file.  For
    [remove_bullet] this is shown on a valid document, where the removed
    bullet is a string; every other tool keeps it on any file. *)
Theorem raise_means_no_write (f : json -> string) (m : mutation)
    (st st' : store) (e : exn) :
  run f m st = (Raise e, st') ->
  (is_remove_bullet m = false
   \/ exists data, st = Some data /\ Resume data = true) ->
  st' = st.
Proof.
  intros H [Hm|(data & -> & Hv)].
  - exact (no_raise_write_run f m Hm st e st' H).
  - destruct (is_remove_bullet m) eqn:Hm.
    + destruct m; try discriminate Hm. simpl in H.
      exact (remove_bullet_valid_raise f data _ _ e st' Hv H).
    + exact (no_raise_write_run f m Hm _ e st' H).
Qed.

Lemma raise_means_no_write_witness :
  snd (run render (AddProject "Anvil" "A forge")
         (Some (JObj [("summary", JStr "Engineer");
                      ("projects", JArr [JObj [("id", JStr "proj_x")]])])))
  = Some (JObj [("summary", JStr "Engineer");
                ("projects", JArr [JObj [("id", JStr "proj_x")]])]).
Proof.
  apply (raise_means_no_write render (AddProject "Anvil" "A forge") _ _ ValueError).
  - reflexivity.
  - left. reflexivity.
Defined.

(** Outside a valid document the restriction on [remove_bullet] is needed:
    here the popped bullet is a number, the rest of the document passes
    the schema and is written, and the confirmation then raises. *)
Example remove_bullet_writes_then_raises :
  remove_bullet render "exp_1" 1
    (Some (JObj [("summary", JStr "Engineer");
                 ("experiences",
                  JArr [JObj [("id", JStr "exp_1"); ("company", JStr "Acme");
                              ("role", JStr "Dev"); ("dates", JStr "2020");
                              ("bullets", JArr [JStr "Built"; JInt 5])]])]))
  = (Raise TypeError,
     Some (JObj [("summary", JStr "Engineer");
                 ("experiences",
                  JArr [JObj [("id", JStr "exp_1"); ("company", JStr "Acme");
                              ("role", JStr "Dev"); ("dates", JStr "2020");
                              ("bullets", JArr [JStr "Built"])]])])).
Proof. reflexivity. Qed.

(** X3: no read tool ([get_resume], [get_section], [get_summary], the four
    list getters and the three lookups by id) writes the resume file,
    whatever it returns or raises. *)
Theorem queries_never_write (json_dumps : json -> string) (q : query)
    (st : store) :
  snd (ask json_dumps q st) = st.
Proof.
  revert st. change (quiet (ask json_dumps q)).
  destruct q; simpl;
    unfold get_resume, get_section, get_summary, get_experiences, get_skills,
      get_projects, get_education, get_list, get_experience_by_id,
      get_project_by_id, get_education_by_id, get_by_id;
    repeat (match goal with
            | |- quiet (ret _) => apply quiet_ret
            | |- quiet (lift _) => apply quiet_lift
            | |- quiet _load_resume => apply quiet_load
            | |- quiet (bind _ _) => apply quiet_bind; [|intros]
            | |- quiet (if ?b then _ else _) => destruct b
            | |- quiet (match ?x with Some _ => _ | None => _ end) =>
                destruct x as [[? ?]|]
            end).
Qed.

(** X4: when the resume file cannot be read, no tool creates it: a call
    either raises the storage failure or, for the tools that test their
    text argument first, returns the error string of that test. *)
Theorem unreadable_file_is_never_created (json_dumps f : json -> string)
    (c : call) :
  snd (exec json_dumps f c None) = None
  /\ (fst (exec json_dumps f c None) = Raise StorageError
      \/ exists msg, fst (exec json_dumps f c None) = Ok (Text msg)
                     /\ is_error_string msg = true).
Proof.
  destruct c as [q|m].
  - destruct q; split; try reflexivity; left; reflexivity.
  - destruct m; simpl;
      unfold update_summary, add_bullet, update_bullet, add_skill, add_project,
        add_education;
      repeat match goal with
             | |- context [if blank ?s then _ else _] => destruct (blank s)
             end;
      (split; [reflexivity|]);
      first [ left; reflexivity | right; eexists; split; reflexivity ].
Qed.

End Atomicity.

(** ** Removal by id *)

Section Removal.
Import Py schema tools Spec Cover.

Lemma without_id_others (items : list json) (target : string) :
  forallb has_id items = true ->
  without_id items target = Ok (others target items).
Proof.
  induction items as [|e rest IH]; intro H; [reflexivity|].
  simpl in H. apply andb_true_iff in H. destruct H as [He Hrest].
  unfold has_id in He. destruct (id_of e) as [s|] eqn:Hs; [|discriminate He].
  cbn [without_id others filter]. fold (others target rest). rewrite Hs.
  unfold id_of in Hs. destruct e as [| | | | | |d]; try discriminate Hs.
  destruct (dict_get d "id") as [[| | | |s'| |]|] eqn:Hd; try discriminate Hs.
  inversion Hs; subst s'. cbn [getitem]. rewrite Hd. cbn [rbind eq_str].
  rewrite (IH Hrest). cbn [rbind].
  destruct (String.eqb s target); reflexivity.
Qed.

Lemma others_length (items : list json) (target : string) :
  (List.length (others target items) <= List.length items)%nat.
Proof.
  induction items as [|e rest IH]; simpl; [lia|].
  destruct (match id_of e with Some s => negb (String.eqb s target) | None => true end);
    simpl; fold (others target rest); lia.
Qed.

Lemma others_absent (items : list json) (target : string) :
  ~ In target (ids_of items) -> others target items = items.
Proof.
  induction items as [|e rest IH]; intro H; [reflexivity|].
  unfold ids_of in H. cbn [flat_map] in H. cbn [others filter].
  fold (others target rest).
  destruct (id_of e) as [s|].
  - destruct (String.eqb s target) eqn:Heq.
    + apply String.eqb_eq in Heq. subst s. exfalso. apply H. left. reflexivity.
    + simpl. rewrite IH; [reflexivity|]. intro Hin. apply H. right. exact Hin.
  - rewrite IH; [reflexivity|]. exact H.
Qed.

Lemma others_present (items : list json) (target : string) :
  In target (ids_of items) ->
  (List.length (others target items) < List.length items)%nat.
Proof.
  induction items as [|e rest IH]; intro H; [contradiction|].
  unfold ids_of in H. cbn [flat_map] in H. cbn [others filter].
  fold (others target rest). pose proof (others_length rest target) as Hle.
  destruct (id_of e) as [s|].
  - destruct (String.eqb s target) eqn:Heq; simpl; [lia|].
    destruct H as [H|H].
    + subst s. rewrite String.eqb_refl in Heq. discriminate Heq.
    + specialize (IH H). lia.
  - specialize (IH H). simpl. lia.
Qed.

Lemma others_ids (items : list json) (target : string) :
  ids_of (others target items)
  = filter (fun s => negb (String.eqb s target)) (ids_of items).
Proof.
  induction items as [|e rest IH]; [reflexivity|].
  cbn [others filter]. fold (others target rest).
  unfold ids_of in *. cbn [flat_map].
  destruct (id_of e) as [s|] eqn:Hs.
  - cbn [app filter]. destruct (String.eqb s target); simpl;
      [|rewrite Hs; simpl; f_equal]; exact IH.
  - simpl. rewrite Hs. exact IH.
Qed.

Lemma others_forget (items : list json) (target : string) :
  ~ In target (ids_of (others target items)).
Proof.
  rewrite others_ids. intro H. apply filter_In in H. destruct H as [_ H].
  rewrite String.eqb_refl in H. discriminate H.
Qed.

Lemma forallb_others (P : json -> bool) (items : list json) (target : string) :
  forallb P items = true -> forallb P (others target items) = true.
Proof.
  intro H. apply forallb_forall. intros x Hx. apply filter_In in Hx.
  rewrite forallb_forall in H. apply H. tauto.
Qed.

Lemma remove_by_id_spec (P : json -> bool) (key what : string) (d : fields) :
  (forall e, P e = true -> has_id e = true) ->
  list_of P d key = true ->
  (forall l, forallb P l = true ->
             Resume (JObj (dict_set d key (JArr l))) = true) ->
  removes_all (remove_by_id key what) key what (JObj d).
Proof.
  intros HP Hl Hset id.
  destruct (section_get _ _ _ Hl) as [Hget Hitems].
  pose proof (forallb_impl _ _ _ HP Hitems) as Hids.
  assert (Hrun : forall b,
    (Z.of_nat (List.length (others id (items_of (JObj d) key)))
     =? Z.of_nat (List.length (items_of (JObj d) key))) = b ->
    remove_by_id key what id (Some (JObj d))
    = if b then (Ok (not_found what id), Some (JObj d))
      else _save_resume (JObj (dict_set d key
             (JArr (others id (items_of (JObj d) key))))) (Some (JObj d))).
  { intros b Hb. unfold remove_by_id, bind, lift, _load_resume.
    rewrite Hget. cbn [len iter]. rewrite (without_id_others _ _ Hids).
    cbn [setitem getitem]. rewrite dict_get_set_same. cbn [rbind len].
    rewrite Hb. destruct b; reflexivity. }
  split.
  - intro Hin. pose proof (others_present _ _ Hin) as Hlt.
    eexists. split; [|split].
    + rewrite (Hrun false) by (apply Z.eqb_neq; lia).
      unfold _save_resume. rewrite validate_ok; [reflexivity|].
      apply Hset. apply forallb_others. exact Hitems.
    + apply items_of_set.
    + apply Hset. apply forallb_others. exact Hitems.
  - intro Hnot. rewrite (Hrun true); [reflexivity|].
    rewrite (others_absent _ _ Hnot). apply Z.eqb_refl.
Qed.

(** X5: on a valid document [remove_experience], [remove_project] and
    [remove_education] given an id that some entry carries save the
    section without every entry of that id (all of them when the id occurs
    more than once), the other entries in their order, and the saved
    document is valid; given any other id they return the not-found error
    and leave the file. *)
Theorem remove_takes_every_entry_of_the_id (data : json) :
  Resume data = true ->
  removes_all remove_experience "experiences" "Experience" data
  /\ removes_all remove_project "projects" "Project" data
  /\ removes_all remove_education "education" "Education" data.
Proof.
  intro Hv. destruct (Resume_is_obj data Hv) as [d ->].
  destruct (Resume_parts d Hv) as (_ & He & _ & Hp & Hd).
  split; [|split].
  - exact (remove_by_id_spec Experience _ _ d Experience_has_id He
             (fun l => Resume_set_experiences d l Hv)).
  - exact (remove_by_id_spec Project _ _ d Project_has_id Hp
             (fun l => Resume_set_projects d l Hv)).
  - exact (remove_by_id_spec Education _ _ d Education_has_id Hd
             (fun l => Resume_set_education d l Hv)).
Qed.

Lemma remove_takes_every_entry_of_the_id_witness :
  exists data',
    remove_experience "exp_3" (Some sample)
    = (Ok "Resume saved successfully.", Some data')
    /\ items_of data' "experiences"
       = [JObj [("id", JStr "exp_1"); ("company", JStr "Initech");
                ("role", JStr "Intern"); ("dates", JStr "2019");
                ("bullets", JArr [])]]
    /\ Resume data' = true.
Proof.
  refine (proj1 (proj1 (remove_takes_every_entry_of_the_id sample eq_refl) "exp_3") _).
  simpl. left. reflexivity.
Defined.

Lemma get_after_remove (json_dumps : json -> string) (P : json -> bool)
    (key what id : string) (data' : json) :
  (forall e, P e = true -> has_id e = true) ->
  (forall d, Resume (JObj d) = true -> list_of P d key = true) ->
  Resume data' = true ->
  ~ In id (ids_of (items_of data' key)) ->
  get_by_id json_dumps key what id (Some data')
  = (Ok ("Error: " ++ what ++ " with ID '" ++ id ++ "' not found."), Some data').
Proof.
  intros HP Hl Hv Hnot. destruct (Resume_is_obj data' Hv) as [d ->].
  exact (get_by_id_unknown json_dumps P key what id d HP (Hl d Hv) Hnot).
Qed.

(** X6: on a valid document, once a remove tool has removed an id the
    lookup by that id in the resulting file returns the not-found error:
    no entry of the id is left behind. *)
Theorem removed_id_is_not_found (json_dumps : json -> string) (data : json)
    (id : string) :
  Resume data = true ->
  (In id (ids_of (items_of data "experiences")) ->
     get_experience_by_id json_dumps id (snd (remove_experience id (Some data)))
     = (Ok ("Error: Experience with ID '" ++ id ++ "' not found."),
        snd (remove_experience id (Some data))))
  /\ (In id (ids_of (items_of data "projects")) ->
     get_project_by_id json_dumps id (snd (remove_project id (Some data)))
     = (Ok ("Error: Project with ID '" ++ id ++ "' not found."),
        snd (remove_project id (Some data))))
  /\ (In id (ids_of (items_of data "education")) ->
     get_education_by_id json_dumps id (snd (remove_education id (Some data)))
     = (Ok ("Error: Education with ID '" ++ id ++ "' not found."),
        snd (remove_education id (Some data)))).
Proof.
  intro Hv. destruct (Resume_is_obj data Hv) as [d ->].
  destruct (Resume_parts d Hv) as (_ & Hle & _ & Hlp & Hld).
  pose proof (remove_by_id_spec Experience "experiences" "Experience" d
                Experience_has_id Hle
                (fun l => Resume_set_experiences d l Hv)) as He.
  pose proof (remove_by_id_spec Project "projects" "Project" d
                Project_has_id Hlp (fun l => Resume_set_projects d l Hv)) as Hp.
  pose proof (remove_by_id_spec Education "education" "Education" d
                Education_has_id Hld
                (fun l => Resume_set_education d l Hv)) as Hd.
  split; [|split]; intro Hin.
  - destruct (proj1 (He id) Hin) as (data' & Hrun & Hitems & Hv').
    unfold remove_experience, remove_project, remove_education.
    rewrite Hrun. cbn [snd].
    apply (get_after_remove json_dumps Experience); auto using Experience_has_id.
    + intros d0 H0. exact (proj1 (proj2 (Resume_parts d0 H0))).
    + rewrite Hitems. apply others_forget.
  - destruct (proj1 (Hp id) Hin) as (data' & Hrun & Hitems & Hv').
    unfold remove_experience, remove_project, remove_education.
    rewrite Hrun. cbn [snd].
    apply (get_after_remove json_dumps Project); auto using Project_has_id.
    + intros d0 H0. exact (proj1 (proj2 (proj2 (proj2 (Resume_parts d0 H0))))).
    + rewrite Hitems. apply others_forget.
  - destruct (proj1 (Hd id) Hin) as (data' & Hrun & Hitems & Hv').
    unfold remove_experience, remove_project, remove_education.
    rewrite Hrun. cbn [snd].
    apply (get_after_remove json_dumps Education); auto using Education_has_id.
    + intros d0 H0. exact (proj2 (proj2 (proj2 (proj2 (Resume_parts d0 H0))))).
    + rewrite Hitems. apply others_forget.
Qed.

Lemma removed_id_is_not_found_witness :
  get_project_by_id render "proj_1" (snd (remove_project "proj_1" (Some sample)))
  = (Ok "Error: Project with ID 'proj_1' not found.",
     snd (remove_project "proj_1" (Some sample))).
Proof.
  refine (proj1 (proj2 (removed_id_is_not_found render sample "proj_1" eq_refl)) _).
  simpl. left. reflexivity.
Defined.

End Removal.

(** ** Bullet tools on a valid document *)

Section BulletRuns.
Import Py schema tools Spec Cover.

Lemma list_del_forallb {A} (P : A -> bool) (l : list A) (i : nat) :
  forallb P l = true -> forallb P (list_del l i) = true.
Proof.
  revert i. induction l as [|x l IH]; intros i H; [reflexivity|].
  simpl in H. apply andb_true_iff in H. destruct H as [Hx Hl].
  destruct i as [|i]; simpl; [exact Hl|].
  rewrite Hx, (IH i Hl). reflexivity.
Qed.

(** The experience a bullet tool finds in a valid document, and its
    bullets when it has the key. *)
Lemma found_experience (d : fields) (id : string) (pos : nat) (exp : json) :
  Resume (JObj d) = true ->
  find_by_id (items_of (JObj d) "experiences") id 0 = Ok (Some (pos, exp)) ->
  get (JObj d) "experiences" (JArr []) = Ok (JArr (items_of (JObj d) "experiences"))
  /\ forallb Experience (items_of (JObj d) "experiences") = true
  /\ nth_error (items_of (JObj d) "experiences") (pos - 0) = Some exp
  /\ exists p, exp = JObj p /\ Experience (JObj p) = true
       /\ (dict_get p "bullets" = None
           \/ exists l, dict_get p "bullets" = Some (JArr l)
                        /\ forallb is_str l = true).
Proof.
  intros Hv Hf. destruct (Resume_parts d Hv) as (_ & He & _).
  destruct (section_get _ _ _ He) as [Hget Hitems].
  destruct (find_by_id_sound _ _ _ _ _ Hf) as (_ & Hnth & _).
  pose proof (forallb_nth _ _ _ _ Hitems Hnth) as Hexp.
  destruct exp as [| | | | | |p]; try discriminate Hexp.
  repeat split; try assumption. exists p. repeat split; try assumption.
  unfold Experience in Hexp. apply andb_true_iff in Hexp.
  destruct Hexp as [_ Hb]. unfold list_of in Hb.
  destruct (dict_get p "bullets") as [[| | | | |l|]|]; try discriminate Hb.
  - right. exists l. split; [reflexivity|exact Hb].
  - left. reflexivity.
Qed.

Lemma Experience_set_bullets (p : fields) (l : list json) :
  Experience (JObj p) = true -> forallb is_str l = true ->
  Experience (JObj (dict_set p "bullets" (JArr l))) = true.
Proof.
  unfold Experience. intros H Hl.
  repeat (apply andb_true_iff in H; destruct H as [H ?]).
  rewrite !required_str_set_other by reflexivity.
  rewrite list_of_set_same. rewrite H, H1, H2, H3, Hl. reflexivity.
Qed.

Lemma save_bullets (d p : fields) (id : string) (pos : nat) (l : list json) :
  Resume (JObj d) = true ->
  find_by_id (items_of (JObj d) "experiences") id 0 = Ok (Some (pos, JObj p)) ->
  forallb is_str l = true ->
  _save_resume (put_back (JObj d) "experiences" pos
                  (with_bullets (JObj p) (JArr l))) (Some (JObj d))
  = (Ok "Resume saved successfully.",
     Some (JObj (dict_set d "experiences"
       (JArr (list_set (items_of (JObj d) "experiences") pos
                (JObj (dict_set p "bullets" (JArr l)))))))).
Proof.
  intros Hv Hf Hl.
  destruct (found_experience d id pos _ Hv Hf)
    as (_ & Hitems & Hnth & p' & Hp & Hexp & _).
  inversion Hp; subst p'; clear Hp.
  rewrite (put_back_items _ _ _ _ _ _ Hnth). cbn [with_bullets].
  unfold _save_resume. rewrite validate_ok; [reflexivity|].
  apply Resume_set_experiences; [exact Hv|].
  apply list_set_forallb; [exact Hitems|].
  exact (Experience_set_bullets p l Hexp Hl).
Qed.

Lemma field_set_bullets (p : fields) (l : list json) (k : string) :
  k <> "bullets" ->
  field (JObj (dict_set p "bullets" (JArr l))) k = field (JObj p) k.
Proof.
  intro Hk. simpl. apply dict_get_set_other.
  destruct (String.eqb "bullets" k) eqn:He; [|reflexivity].
  apply String.eqb_eq in He. congruence.
Qed.

Lemma bullets_of_set (p : fields) (l : list json) :
  bullets_of (JObj (dict_set p "bullets" (JArr l))) = l.
Proof. unfold bullets_of. simpl. rewrite dict_get_set_same. reflexivity. Qed.

(** X8: on a valid document, for the first experience with the given id
    and a text that is not blank, [add_bullet] saves that experience with
    the trimmed text appended behind its bullets; the experience's other
    fields and the other experiences are as before. *)
Theorem add_bullet_appends_trimmed_text (data : json) (id text : string)
    (pos : nat) (exp : json) (l : list json) :
  Resume data = true ->
  find_by_id (items_of data "experiences") id 0 = Ok (Some (pos, exp)) ->
  field exp "bullets" = Some (JArr l) ->
  blank text = false ->
  exists new data',
    add_bullet id text (Some data) = (Ok "Resume saved successfully.", Some data')
    /\ items_of data' "experiences"
       = list_set (items_of data "experiences") pos new
    /\ bullets_of new = (l ++ [JStr (strip text)])%list
    /\ forall k, k <> "bullets" -> field new k = field exp k.
Proof.
  intros Hv Hf Hb Ht. destruct (Resume_is_obj data Hv) as [d ->].
  destruct (found_experience d id pos exp Hv Hf)
    as (Hget & _ & _ & p & -> & _ & [Hnone|(l0 & Hl0 & Hstr)]);
    simpl in Hb; [congruence|].
  rewrite Hl0 in Hb. inversion Hb; subst l0; clear Hb.
  exists (JObj (dict_set p "bullets" (JArr (l ++ [JStr (strip text)])%list))).
  eexists. split; [|split; [apply items_of_set|split]].
  - unfold add_bullet. rewrite Ht. unfold bind, lift, _load_resume.
    rewrite Hget. cbn [iter]. rewrite Hf. cbn [getitem]. rewrite Hl0.
    cbn [append]. apply (save_bullets d p id pos _ Hv Hf).
    apply forallb_snoc; [exact Hstr|reflexivity].
  - apply bullets_of_set.
  - intros k Hk. apply field_set_bullets. exact Hk.
Qed.

Lemma add_bullet_appends_trimmed_text_witness :
  exists new data',
    add_bullet "exp_1" "  Fixed bugs " (Some sample)
    = (Ok "Resume saved successfully.", Some data')
    /\ items_of data' "experiences"
       = list_set (items_of sample "experiences") 1 new
    /\ bullets_of new = [JStr "Fixed bugs"]
    /\ forall k, k <> "bullets" ->
       field new k
       = field (JObj [("id", JStr "exp_1"); ("company", JStr "Initech");
                      ("role", JStr "Intern"); ("dates", JStr "2019");
                      ("bullets", JArr [])]) k.
Proof.
  exact (add_bullet_appends_trimmed_text sample "exp_1" "  Fixed bugs " 1%nat
           (JObj [("id", JStr "exp_1"); ("company", JStr "Initech");
                  ("role", JStr "Intern"); ("dates", JStr "2019");
                  ("bullets", JArr [])]) [] eq_refl eq_refl eq_refl eq_refl).
Defined.

(** X9: on a valid document, for the first experience with the given id,
    an index within its bullets and a text that is not blank,
    [update_bullet] saves that experience with the bullet at the index
    replaced by the trimmed text, the bullet count and the other bullets
    unchanged. *)
Theorem update_bullet_replaces_in_place (data : json) (id text : string)
    (pos : nat) (exp : json) (l : list json) (i : Z) :
  Resume data = true ->
  find_by_id (items_of data "experiences") id 0 = Ok (Some (pos, exp)) ->
  field exp "bullets" = Some (JArr l) ->
  blank text = false ->
  0 <= i < Z.of_nat (List.length l) ->
  exists new data',
    update_bullet id i text (Some data)
    = (Ok "Resume saved successfully.", Some data')
    /\ items_of data' "experiences"
       = list_set (items_of data "experiences") pos new
    /\ bullets_of new = list_set l (Z.to_nat i) (JStr (strip text))
    /\ forall k, k <> "bullets" -> field new k = field exp k.
Proof.
  intros Hv Hf Hb Ht Hi. destruct (Resume_is_obj data Hv) as [d ->].
  destruct (found_experience d id pos exp Hv Hf)
    as (Hget & _ & _ & p & -> & _ & [Hnone|(l0 & Hl0 & Hstr)]);
    simpl in Hb; [congruence|].
  rewrite Hl0 in Hb. inversion Hb; subst l0; clear Hb.
  exists (JObj (dict_set p "bullets"
            (JArr (list_set l (Z.to_nat i) (JStr (strip text)))))).
  eexists. split; [|split; [apply items_of_set|split]].
  - unfold update_bullet. rewrite Ht. unfold bind, lift, _load_resume.
    rewrite Hget. cbn [iter]. rewrite Hf. cbn [getitem]. rewrite Hl0.
    cbn [len].
    replace ((0 <=? i) && (i <? Z.of_nat (List.length l))) with true
      by (symmetry; apply andb_true_iff; split;
          [apply Z.leb_le|apply Z.ltb_lt]; lia).
    cbn [setindex]. apply (save_bullets d p id pos _ Hv Hf).
    apply list_set_forallb; [exact Hstr|reflexivity].
  - apply bullets_of_set.
  - intros k Hk. apply field_set_bullets. exact Hk.
Qed.

Lemma update_bullet_replaces_in_place_witness :
  exists new data',
    update_bullet "exp_3" 2 " Led a team " (Some sample)
    = (Ok "Resume saved successfully.", Some data')
    /\ items_of data' "experiences"
       = list_set (items_of sample "experiences") 0 new
    /\ bullets_of new = [JStr "Built"; JStr "Shipped"; JStr "Led a team"]
    /\ forall k, k <> "bullets" ->
       field new k
       = field (JObj [("id", JStr "exp_3"); ("company", JStr "Acme");
                      ("role", JStr "Developer"); ("dates", JStr "2020-2022");
                      ("bullets", JArr [JStr "Built"; JStr "Shipped"; JStr "Led"])]) k.
Proof.
  refine (update_bullet_replaces_in_place sample "exp_3" " Led a team " 0%nat
           (JObj [("id", JStr "exp_3"); ("company", JStr "Acme");
                  ("role", JStr "Developer"); ("dates", JStr "2020-2022");
                  ("bullets", JArr [JStr "Built"; JStr "Shipped"; JStr "Led"])])
           [JStr "Built"; JStr "Shipped"; JStr "Led"] 2
           eq_refl eq_refl eq_refl eq_refl _).
  simpl. lia.
Defined.

End BulletRuns.

Section BulletRemoval.
Import Py schema tools Spec Cover.

Lemma removed_message_text (f : json -> string) (s : string) :
  removed_message f (JStr s) = Ok (removal_notice s).
Proof.
  unfold removed_message, removal_notice. cbn [len rbind].
  destruct (50 <? String.length s)%nat eqn:Hn.
  - apply Nat.ltb_lt in Hn.
    replace (Z.of_nat (String.length s) >? 50) with true
      by (symmetry; apply Z.gtb_lt; lia).
    reflexivity.
  - apply Nat.ltb_ge in Hn.
    replace (Z.of_nat (String.length s) >? 50) with false
      by (symmetry; rewrite Z.gtb_ltb; apply Z.ltb_ge; lia).
    reflexivity.
Qed.

(** X10: on a valid document, for the first experience with the given id
    and an index within its bullets, [remove_bullet] saves that experience
    without the bullet at the index, the others in their order, and
    returns the removed text in quotes: whole when it has at most 50
    characters, otherwise its first 50 characters followed by three
    dots. *)
Theorem remove_bullet_deletes_and_quotes (f : json -> string) (data : json)
    (id : string) (pos : nat) (exp : json) (l : list json) (i : Z) :
  Resume data = true ->
  find_by_id (items_of data "experiences") id 0 = Ok (Some (pos, exp)) ->
  field exp "bullets" = Some (JArr l) ->
  0 <= i < Z.of_nat (List.length l) ->
  exists removed new data',
    nth_error l (Z.to_nat i) = Some (JStr removed)
    /\ remove_bullet f id i (Some data)
       = (Ok (if (50 <? String.length removed)%nat
              then "Bullet removed: '" ++ str_take 50 removed ++ "...'"
              else "Bullet removed: '" ++ removed ++ "'"),
          Some data')
    /\ items_of data' "experiences"
       = list_set (items_of data "experiences") pos new
    /\ bullets_of new = list_del l (Z.to_nat i)
    /\ forall k, k <> "bullets" -> field new k = field exp k.
Proof.
  intros Hv Hf Hb Hi. destruct (Resume_is_obj data Hv) as [d ->].
  destruct (found_experience d id pos exp Hv Hf)
    as (Hget & _ & _ & p & -> & _ & [Hnone|(l0 & Hl0 & Hstr)]);
    simpl in Hb; [congruence|].
  rewrite Hl0 in Hb. inversion Hb; subst l0; clear Hb.
  destruct (nth_error l (Z.to_nat i)) as [x|] eqn:Hx.
  2:{ apply nth_error_None in Hx. lia. }
  pose proof (forallb_nth _ _ _ _ Hstr Hx) as Hs.
  destruct x as [| | | |removed| |]; try discriminate Hs.
  exists removed.
  exists (JObj (dict_set p "bullets" (JArr (list_del l (Z.to_nat i))))).
  eexists. split; [reflexivity|]. split; [|split; [apply items_of_set|split]].
  - unfold remove_bullet, bind, lift, _load_resume.
    rewrite Hget. cbn [iter]. rewrite Hf. cbn [getitem]. rewrite Hl0.
    cbn [len].
    replace ((0 <=? i) && (i <? Z.of_nat (List.length l))) with true
      by (symmetry; apply andb_true_iff; split;
          [apply Z.leb_le|apply Z.ltb_lt]; lia).
    cbn [pop]. rewrite Hx. cbn [fst snd].
    rewrite (save_bullets d p id pos _ Hv Hf)
      by (apply list_del_forallb; exact Hstr).
    rewrite removed_message_text. reflexivity.
  - apply bullets_of_set.
  - intros k Hk. apply field_set_bullets. exact Hk.
Qed.

Lemma remove_bullet_deletes_and_quotes_witness :
  exists removed new data',
    nth_error [JStr "Built"; JStr "Shipped"; JStr "Led"] 1 = Some (JStr removed)
    /\ remove_bullet render "exp_3" 1 (Some sample)
       = (Ok (if (50 <? String.length removed)%nat
              then "Bullet removed: '" ++ str_take 50 removed ++ "...'"
              else "Bullet removed: '" ++ removed ++ "'"),
          Some data')
    /\ items_of data' "experiences"
       = list_set (items_of sample "experiences") 0 new
    /\ bullets_of new = [JStr "Built"; JStr "Led"]
    /\ forall k, k <> "bullets" ->
       field new k
       = field (JObj [("id", JStr "exp_3"); ("company", JStr "Acme");
                      ("role", JStr "Developer"); ("dates", JStr "2020-2022");
                      ("bullets", JArr [JStr "Built"; JStr "Shipped"; JStr "Led"])]) k.
Proof.
  refine (remove_bullet_deletes_and_quotes render sample "exp_3" 0%nat
           (JObj [("id", JStr "exp_3"); ("company", JStr "Acme");
                  ("role", JStr "Developer"); ("dates", JStr "2020-2022");
                  ("bullets", JArr [JStr "Built"; JStr "Shipped"; JStr "Led"])])
           [JStr "Built"; JStr "Shipped"; JStr "Led"] 1
           eq_refl eq_refl eq_refl _).
  simpl. lia.
Defined.

(** X11: the schema lets an experience omit [bullets], but the bullet
    tools index the key: on a valid document whose first experience with
    the given id has no [bullets] key, [add_bullet] and [update_bullet]
    (given a text that is not blank) and [remove_bullet] raise [KeyError]
    and leave the file. *)
Theorem bullet_tools_need_the_bullets_key (f : json -> string) (data : json)
    (id : string) (pos : nat) (exp : json) :
  Resume data = true ->
  find_by_id (items_of data "experiences") id 0 = Ok (Some (pos, exp)) ->
  field exp "bullets" = None ->
  (forall text, blank text = false ->
     add_bullet id text (Some data) = (Raise KeyError, Some data))
  /\ (forall i text, blank text = false ->
     update_bullet id i text (Some data) = (Raise KeyError, Some data))
  /\ (forall i, remove_bullet f id i (Some data) = (Raise KeyError, Some data)).
Proof.
  intros Hv Hf Hb. destruct (Resume_is_obj data Hv) as [d ->].
  destruct (found_experience d id pos exp Hv Hf)
    as (Hget & _ & _ & p & -> & _ & _).
  simpl in Hb. split; [|split].
  - intros text Ht. unfold add_bullet. rewrite Ht.
    unfold bind, lift, _load_resume. rewrite Hget. cbn [iter]. rewrite Hf.
    cbn [getitem]. rewrite Hb. reflexivity.
  - intros i text Ht. unfold update_bullet. rewrite Ht.
    unfold bind, lift, _load_resume. rewrite Hget. cbn [iter]. rewrite Hf.
    cbn [getitem]. rewrite Hb. reflexivity.
  - intro i. unfold remove_bullet, bind, lift, _load_resume.
    rewrite Hget. cbn [iter]. rewrite Hf. cbn [getitem]. rewrite Hb.
    reflexivity.
Qed.

Lemma bullet_tools_need_the_bullets_key_witness :
  Resume sparse = true
  /\ add_bullet "exp_1" "Built" (Some sparse) = (Raise KeyError, Some sparse).
Proof.
  split; [reflexivity|].
  exact (proj1 (bullet_tools_need_the_bullets_key render sparse "exp_1" 0%nat
                  (JObj [("id", JStr "exp_1"); ("company", JStr "Acme");
                         ("role", JStr "Dev"); ("dates", JStr "2020")])
                  eq_refl eq_refl eq_refl) "Built" eq_refl).
Defined.

(** X7: on a valid document, the tools that work on one entry
    ([update_experience], [update_project], [update_education],
    [add_bullet], [update_bullet], [remove_bullet]) given an id that no
    entry of the section carries return the not-found error and leave the
    file; the two bullet tools that take a text do so when the text is not
    blank. *)
Theorem unknown_id_is_reported (f : json -> string) (data : json) (id : string) :
  Resume data = true ->
  (~ In id (ids_of (items_of data "experiences")) ->
     (forall company role dates,
        update_experience id company role dates (Some data)
        = (Ok ("Error: Experience with ID '" ++ id ++ "' not found."), Some data))
     /\ (forall text, blank text = false ->
        add_bullet id text (Some data)
        = (Ok ("Error: Experience with ID '" ++ id ++ "' not found."), Some data))
     /\ (forall i text, blank text = false ->
        update_bullet id i text (Some data)
        = (Ok ("Error: Experience with ID '" ++ id ++ "' not found."), Some data))
     /\ (forall i,
        remove_bullet f id i (Some data)
        = (Ok ("Error: Experience with ID '" ++ id ++ "' not found."), Some data)))
  /\ (~ In id (ids_of (items_of data "projects")) ->
     forall name description,
       update_project id name description (Some data)
       = (Ok ("Error: Project with ID '" ++ id ++ "' not found."), Some data))
  /\ (~ In id (ids_of (items_of data "education")) ->
     forall degree institution year,
       update_education id degree institution year (Some data)
       = (Ok ("Error: Education with ID '" ++ id ++ "' not found."), Some data)).
Proof.
  intro Hv. destruct (Resume_is_obj data Hv) as [d ->].
  destruct (Resume_parts d Hv) as (_ & He & _ & Hp & Hd).
  split; [|split]; intro Hnot.
  - destruct (section_get _ _ _ He) as [Hget Hitems].
    pose proof (find_by_id_none _ id 0
                  (forallb_impl _ _ _ Experience_has_id Hitems) Hnot) as Hf.
    repeat split; intros.
    + unfold update_experience, bind, lift, _load_resume.
      rewrite Hget. cbn [iter]. rewrite Hf. reflexivity.
    + unfold add_bullet. rewrite H. unfold bind, lift, _load_resume.
      rewrite Hget. cbn [iter]. rewrite Hf. reflexivity.
    + unfold update_bullet. rewrite H. unfold bind, lift, _load_resume.
      rewrite Hget. cbn [iter]. rewrite Hf. reflexivity.
    + unfold remove_bullet, bind, lift, _load_resume.
      rewrite Hget. cbn [iter]. rewrite Hf. reflexivity.
  - destruct (section_get _ _ _ Hp) as [Hget Hitems].
    pose proof (find_by_id_none _ id 0
                  (forallb_impl _ _ _ Project_has_id Hitems) Hnot) as Hf.
    intros. unfold update_project, bind, lift, _load_resume.
    rewrite Hget. cbn [iter]. rewrite Hf. reflexivity.
  - destruct (section_get _ _ _ Hd) as [Hget Hitems].
    pose proof (find_by_id_none _ id 0
                  (forallb_impl _ _ _ Education_has_id Hitems) Hnot) as Hf.
    intros. unfold update_education, bind, lift, _load_resume.
    rewrite Hget. cbn [iter]. rewrite Hf. reflexivity.
Qed.

Lemma unknown_id_is_reported_witness :
  update_project "proj_9" (Some "Anvil") None (Some sample)
  = (Ok "Error: Project with ID 'proj_9' not found.", Some sample).
Proof.
  refine (proj1 (proj2 (unknown_id_is_reported render sample "proj_9" eq_refl))
            _ (Some "Anvil") None).
  simpl. intros [H|[]]. discriminate H.
Defined.

End BulletRemoval.

(** ** Removing a skill *)

Section SkillRemoval.
Import Py schema tools Spec Cover.

Lemma remove_first_split (l : list json) (s : string) :
  existsb (fun v => eq_str v s) l = true ->
  exists before after,
    l = (before ++ JStr s :: after)%list
    /\ ~ In (JStr s) before
    /\ remove_first l s = Some (before ++ after)%list.
Proof.
  induction l as [|x l IH]; simpl; intro H; [discriminate H|].
  destruct (eq_str x s) eqn:Hx.
  - destruct x; try discriminate Hx. simpl in Hx.
    apply String.eqb_eq in Hx. subst.
    exists [], l. repeat split. intros [].
  - simpl in H. destruct (IH H) as (before & after & -> & Hnot & Hrm).
    exists (x :: before), after. repeat split.
    + intros [Hin|Hin]; [|exact (Hnot Hin)].
      subst x. simpl in Hx. rewrite String.eqb_refl in Hx. discriminate Hx.
    + rewrite Hrm. reflexivity.
Qed.

Lemma remove_first_last (l : list json) (s : string) :
  existsb (fun v => eq_str v s) l = false ->
  remove_first (l ++ [JStr s]) s = Some l.
Proof.
  induction l as [|x l IH]; simpl; intro H.
  - rewrite String.eqb_refl. reflexivity.
  - apply orb_false_iff in H. destruct H as [Hx Hl].
    rewrite Hx, (IH Hl). reflexivity.
Qed.

Lemma remove_skill_present (skill : string) (d : fields) (l' : list json) :
  Resume (JObj d) = true ->
  existsb (fun v => eq_str v (strip skill)) (items_of (JObj d) "skills") = true ->
  remove_first (items_of (JObj d) "skills") (strip skill) = Some l' ->
  forallb is_str l' = true ->
  remove_skill skill (Some (JObj d))
  = (Ok "Resume saved successfully.",
     Some (JObj (dict_set d "skills" (JArr l')))).
Proof.
  intros Hv Hin Hrm Hstr.
  destruct (Resume_parts d Hv) as (_ & _ & Hs & _).
  destruct (section_get _ _ _ Hs) as [Hget _].
  unfold remove_skill, bind, lift, _load_resume.
  rewrite Hget. cbn [contains]. rewrite Hin. cbn [negb remove].
  rewrite Hrm. cbn [setitem]. unfold _save_resume.
  rewrite validate_ok; [reflexivity|].
  apply Resume_set_skills; assumption.
Qed.

(** X12: on a valid document [remove_skill] given a skill whose trimmed
    text is in the list saves the list without the first entry equal to
    it; the entries before and after, later copies included, stay in
    their order.  There is no test for a blank argument. *)
Theorem remove_skill_takes_the_first_match (data : json) (skill : string) :
  Resume data = true ->
  In (JStr (strip skill)) (items_of data "skills") ->
  exists before after data',
    items_of data "skills" = (before ++ JStr (strip skill) :: after)%list
    /\ ~ In (JStr (strip skill)) before
    /\ remove_skill skill (Some data)
       = (Ok "Resume saved successfully.", Some data')
    /\ items_of data' "skills" = (before ++ after)%list.
Proof.
  intros Hv Hin. destruct (Resume_is_obj data Hv) as [d ->].
  apply existsb_eq_str in Hin.
  destruct (remove_first_split _ _ Hin) as (before & after & Hl & Hnot & Hrm).
  destruct (Resume_parts d Hv) as (_ & _ & Hs & _).
  destruct (section_get _ _ _ Hs) as [_ Hitems].
  exists before, after. eexists. split; [exact Hl|]. split; [exact Hnot|].
  split.
  - apply (remove_skill_present skill d _ Hv Hin Hrm).
    rewrite Hl in Hitems. rewrite forallb_app in Hitems |- *.
    apply andb_true_iff in Hitems. destruct Hitems as [Hb Ha].
    simpl in Ha. rewrite Hb. exact Ha.
  - apply items_of_set.
Qed.

Lemma remove_skill_takes_the_first_match_witness :
  exists before after data',
    items_of sample "skills" = (before ++ JStr "Python" :: after)%list
    /\ ~ In (JStr "Python") before
    /\ remove_skill " Python " (Some sample)
       = (Ok "Resume saved successfully.", Some data')
    /\ items_of data' "skills" = (before ++ after)%list.
Proof.
  refine (remove_skill_takes_the_first_match sample " Python " eq_refl _).
  simpl. left. reflexivity.
Defined.

(** X13: on a valid document, [add_skill] with a skill that is not blank
    and not yet in the list, followed by [remove_skill] with the same
    argument, gives back the skills list as it was and leaves every other
    section as it was. *)
Theorem add_then_remove_skill_restores_list (data : json) (skill : string) :
  Resume data = true ->
  blank skill = false ->
  ~ In (JStr (strip skill)) (items_of data "skills") ->
  exists data1 data2,
    add_skill skill (Some data) = (Ok "Resume saved successfully.", Some data1)
    /\ remove_skill skill (Some data1)
       = (Ok "Resume saved successfully.", Some data2)
    /\ items_of data2 "skills" = items_of data "skills"
    /\ forall k, k <> "skills" -> field data2 k = field data k.
Proof.
  intros Hv Hb Hnot. destruct (Resume_is_obj data Hv) as [d ->].
  assert (Hex : existsb (fun v => eq_str v (strip skill))
                  (items_of (JObj d) "skills") = false).
  { destruct (existsb _ _) eqn:He; [|reflexivity].
    exfalso. apply Hnot. apply existsb_eq_str. exact He. }
  destruct (Resume_parts d Hv) as (_ & _ & Hs & _).
  destruct (section_get _ _ _ Hs) as [_ Hitems].
  assert (Hv1 : Resume (JObj (dict_set d "skills"
                  (JArr (items_of (JObj d) "skills" ++ [JStr (strip skill)])%list)))
                = true).
  { apply Resume_set_skills; [exact Hv|].
    apply forallb_snoc; [exact Hitems|reflexivity]. }
  do 2 eexists. split; [exact (add_skill_absent skill d Hv Hb Hex)|].
  split; [|split].
  - apply (remove_skill_present skill _ (items_of (JObj d) "skills") Hv1).
    + rewrite items_of_set, existsb_app. simpl. rewrite String.eqb_refl.
      apply orb_true_iff. right. reflexivity.
    + rewrite items_of_set. exact (remove_first_last _ _ Hex).
    + exact Hitems.
  - apply items_of_set.
  - intros k Hk. simpl.
    assert (Hne : String.eqb "skills" k = false).
    { destruct (String.eqb "skills" k) eqn:He; [|reflexivity].
      apply String.eqb_eq in He. congruence. }
    rewrite !dict_get_set_other by exact Hne. reflexivity.
Qed.

Lemma add_then_remove_skill_restores_list_witness :
  exists data1 data2,
    add_skill " Rocq " (Some sample) = (Ok "Resume saved successfully.", Some data1)
    /\ remove_skill " Rocq " (Some data1)
       = (Ok "Resume saved successfully.", Some data2)
    /\ items_of data2 "skills" = items_of sample "skills"
    /\ forall k, k <> "skills" -> field data2 k = field sample k.
Proof.
  refine (add_then_remove_skill_restores_list sample " Rocq " eq_refl eq_refl _).
  simpl. intros [H|[]]. discriminate H.
Defined.

End SkillRemoval.

(** ** Generated ids are new *)

Section FreshIds.
Import Py schema tools Spec Cover.

Lemma after_prefix_same (p t : string) : after_prefix p (p ++ t) = Some t.
Proof.
  induction p as [|a p IH]; simpl; [reflexivity|].
  rewrite Ascii.eqb_refl. exact IH.
Qed.

Lemma numeric_suffix_pos (p : string) (q : positive) :
  numeric_suffix p (p ++ str_of_int (Z.pos q)) = Some (Z.pos q).
Proof.
  unfold numeric_suffix. rewrite after_prefix_same.
  unfold str_of_int. cbn [Z.to_int NilZero.string_of_int].
  pose proof (DecimalPos.Unsigned.to_uint_nonnil q) as Hnil.
  pose proof (DecimalPos.Unsigned.of_to q) as Hof.
  pose proof (NilEmpty.usu (Pos.to_uint q)) as Husu.
  unfold NilZero.string_of_uint.
  destruct (Pos.to_uint q) eqn:Hq; try contradiction;
    cbn [NilEmpty.string_of_uint] in *; rewrite Husu; cbn [option_map];
    unfold Z.of_uint; rewrite Hof; reflexivity.
Qed.

Lemma numeric_suffix_nonneg (p s : string) (n : Z) :
  numeric_suffix p s = Some n -> 0 <= n.
Proof.
  unfold numeric_suffix.
  destruct (after_prefix p s) as [[|c digits]|]; try discriminate.
  destruct (NilEmpty.uint_of_string _) as [u|]; [|discriminate].
  simpl. intro H. inversion H. unfold Z.of_uint. apply N2Z.is_nonneg.
Qed.

Lemma matching_suffixes_in (p s : string) (n : Z) (ids : list string) :
  In s ids -> numeric_suffix p s = Some n -> In n (matching_suffixes p ids).
Proof.
  intros Hin Hn. unfold matching_suffixes. apply in_flat_map.
  exists s. split; [exact Hin|]. rewrite Hn. left. reflexivity.
Qed.

Lemma matching_suffixes_nonneg (p : string) (ids : list string) (n : Z) :
  In n (matching_suffixes p ids) -> 0 <= n.
Proof.
  unfold matching_suffixes. intro H. apply in_flat_map in H.
  destruct H as (s & _ & Hs).
  destruct (numeric_suffix p s) as [m|] eqn:Hm; [|contradiction].
  destruct Hs as [<-|[]]. exact (numeric_suffix_nonneg p s m Hm).
Qed.

Lemma fold_max_bound (n : Z) (ns : list Z) (x : Z) :
  In x (n :: ns) -> x <= fold_right Z.max n ns.
Proof.
  induction ns as [|m ns IH]; simpl.
  - intros [<-|[]]. lia.
  - intros [<-|[<-|H]].
    + specialize (IH (or_introl eq_refl)). lia.
    + lia.
    + specialize (IH (or_intror H)). lia.
Qed.

(** The generated id is the prefix and a positive number above every
    numeric suffix of the section. *)
Lemma expected_id_number (p : string) (ids : list string) :
  exists q,
    expected_id p ids = p ++ str_of_int (Z.pos q)
    /\ forall n, In n (matching_suffixes p ids) -> n < Z.pos q.
Proof.
  unfold expected_id.
  destruct (matching_suffixes p ids) as [|n ns] eqn:Hm.
  - exists 1%positive. split; [reflexivity|]. intros n [].
  - assert (H0 : 0 <= fold_right Z.max n ns).
    { pose proof (fold_max_bound n ns n (or_introl eq_refl)).
      pose proof (matching_suffixes_nonneg p ids n) as Hn.
      rewrite Hm in Hn. specialize (Hn (or_introl eq_refl)). lia. }
    destruct (fold_right Z.max n ns + 1) as [|q|q] eqn:Hq; try lia.
    exists q. split; [reflexivity|].
    intros x Hx. pose proof (fold_max_bound n ns x Hx). lia.
Qed.

Lemma expected_id_fresh (p : string) (ids : list string) :
  ~ In (expected_id p ids) ids.
Proof.
  destruct (expected_id_number p ids) as (q & Hq & Hlt). rewrite Hq.
  intro Hin.
  pose proof (matching_suffixes_in p _ _ ids Hin (numeric_suffix_pos p q)) as H.
  specialize (Hlt _ H). lia.
Qed.

Lemma expected_id_canonical (p : string) (ids : list string) :
  match numeric_suffix p (expected_id p ids) with
  | Some _ => true
  | None => false
  end = true.
Proof.
  destruct (expected_id_number p ids) as (q & Hq & _). rewrite Hq.
  rewrite numeric_suffix_pos. reflexivity.
Qed.

Lemma canonical_ids_app (p : string) (a b : list string) :
  canonical_ids p (a ++ b) = canonical_ids p a && canonical_ids p b.
Proof. unfold canonical_ids. apply forallb_app. Qed.

Lemma canonical_ids_new (p : string) (ids : list string) :
  canonical_ids p [expected_id p ids] = true.
Proof.
  unfold canonical_ids. cbn [forallb].
  rewrite expected_id_canonical. rewrite orb_true_r. reflexivity.
Qed.

End FreshIds.

(** ** Adding, looking up, removing and adding again *)

Section AddLookup.
Import Py schema tools Spec Cover.

Lemma find_by_id_behind (items : list json) (new : json) (id : string) (n : nat) :
  forallb has_id items = true ->
  ~ In id (ids_of items) ->
  getitem new "id" = Ok (JStr id) ->
  find_by_id (items ++ [new])%list id n
  = Ok (Some ((n + List.length items)%nat, new)).
Proof.
  revert n. induction items as [|e rest IH]; intros n Hid Hnot Hnew.
  - cbn [app find_by_id]. rewrite Hnew. cbn [rbind eq_str].
    rewrite String.eqb_refl. rewrite Nat.add_0_r. reflexivity.
  - simpl in Hid. apply andb_true_iff in Hid. destruct Hid as [He Hrest].
    unfold has_id in He. unfold ids_of in Hnot. cbn [flat_map] in Hnot.
    destruct (id_of e) as [s|] eqn:Hs; [|discriminate He].
    unfold id_of in Hs. destruct e as [| | | | | |d]; try discriminate Hs.
    destruct (dict_get d "id") as [[| | | |s'| |]|] eqn:Hd; try discriminate Hs.
    inversion Hs; subst s'; clear Hs.
    cbn [app find_by_id getitem]. rewrite Hd. cbn [rbind eq_str].
    destruct (String.eqb s id) eqn:Heq.
    + apply String.eqb_eq in Heq. subst s. exfalso. apply Hnot. left. reflexivity.
    + rewrite (IH (S n) Hrest); [|intro Hin; apply Hnot; right; exact Hin|exact Hnew].
      cbn [List.length]. do 3 f_equal. lia.
Qed.

Lemma get_by_id_stored (json_dumps : json -> string) (d : fields)
    (key what id : string) (l : list json) (pos : nat) (e : json) :
  find_by_id l id 0 = Ok (Some (pos, e)) ->
  get_by_id json_dumps key what id (Some (JObj (dict_set d key (JArr l))))
  = (Ok (json_dumps e), Some (JObj (dict_set d key (JArr l)))).
Proof.
  intro Hf. unfold get_by_id, bind, lift, _load_resume. cbn [get].
  rewrite dict_get_set_same. cbn [iter]. rewrite Hf. reflexivity.
Qed.

(** X14: on a valid document whose ids have the section's format, the id
    an add tool generates is carried by no entry of the section, and with
    it the ids of the section still have the format. *)
Theorem generated_id_is_new (d : fields) :
  Resume (JObj d) = true ->
  (canonical_ids "exp_" (ids_of (items_of (JObj d) "experiences")) = true ->
   forall company role dates bullets,
     forallb is_str (or_empty bullets) = true ->
     exists id data',
       add_experience company role dates bullets (Some (JObj d))
       = (Ok ("Experience added successfully with ID: " ++ id), Some data')
       /\ ~ In id (ids_of (items_of (JObj d) "experiences"))
       /\ ids_of (items_of data' "experiences")
          = id :: ids_of (items_of (JObj d) "experiences")
       /\ canonical_ids "exp_" (ids_of (items_of data' "experiences")) = true)
  /\ (canonical_ids "proj_" (ids_of (items_of (JObj d) "projects")) = true ->
      forall name description,
        blank name = false -> blank description = false ->
        exists id data',
          add_project name description (Some (JObj d))
          = (Ok ("Project added successfully with ID: " ++ id), Some data')
          /\ ~ In id (ids_of (items_of (JObj d) "projects"))
          /\ ids_of (items_of data' "projects")
             = (ids_of (items_of (JObj d) "projects") ++ [id])%list
          /\ canonical_ids "proj_" (ids_of (items_of data' "projects")) = true)
  /\ (canonical_ids "edu_" (ids_of (items_of (JObj d) "education")) = true ->
      forall degree institution year,
        blank degree = false -> blank institution = false ->
        blank year = false ->
        exists id data',
          add_education degree institution year (Some (JObj d))
          = (Ok ("Education added successfully with ID: " ++ id), Some data')
          /\ ~ In id (ids_of (items_of (JObj d) "education"))
          /\ ids_of (items_of data' "education")
             = (ids_of (items_of (JObj d) "education") ++ [id])%list
          /\ canonical_ids "edu_" (ids_of (items_of data' "education")) = true).
Proof.
  intro Hv. split; [|split].
  - intros Hc company role dates bullets Hb. do 2 eexists. split; [|split; [|split]].
    + exact (add_experience_run company role dates bullets d Hv Hc Hb).
    + apply expected_id_fresh.
    + rewrite items_of_set. reflexivity.
    + rewrite items_of_set.
      change (canonical_ids "exp_"
                ([expected_id "exp_" (ids_of (items_of (JObj d) "experiences"))]
                 ++ ids_of (items_of (JObj d) "experiences")) = true).
      rewrite canonical_ids_app, canonical_ids_new, Hc. reflexivity.
  - intros Hc name description Hn Hd. do 2 eexists. split; [|split; [|split]].
    + exact (add_project_run name description d Hv Hc Hn Hd).
    + apply expected_id_fresh.
    + rewrite items_of_set. unfold ids_of. rewrite flat_map_app. reflexivity.
    + rewrite items_of_set. unfold ids_of. rewrite flat_map_app.
      fold (ids_of (items_of (JObj d) "projects")).
      rewrite canonical_ids_app, Hc. apply canonical_ids_new.
  - intros Hc degree institution year Hg Hi Hy.
    do 2 eexists. split; [|split; [|split]].
    + exact (add_education_run degree institution year d Hv Hc Hg Hi Hy).
    + apply expected_id_fresh.
    + rewrite items_of_set. unfold ids_of. rewrite flat_map_app. reflexivity.
    + rewrite items_of_set. unfold ids_of. rewrite flat_map_app.
      fold (ids_of (items_of (JObj d) "education")).
      rewrite canonical_ids_app, Hc. apply canonical_ids_new.
Qed.

Lemma generated_id_is_new_witness :
  exists id data',
    add_project "Anvil" "A forge" (Some sample)
    = (Ok ("Project added successfully with ID: " ++ id), Some data')
    /\ ~ In id (ids_of (items_of sample "projects"))
    /\ ids_of (items_of data' "projects")
       = (ids_of (items_of sample "projects") ++ [id])%list
    /\ canonical_ids "proj_" (ids_of (items_of data' "projects")) = true.
Proof.
  exact (proj1 (proj2 (generated_id_is_new sample_fields eq_refl))
           eq_refl "Anvil" "A forge" eq_refl eq_refl).
Defined.

(** X15: on a valid document whose ids have the section's format, the
    entry an add tool has stored is the one the section's lookup by id
    returns for the generated id: [add_project] and [add_education] store
    the trimmed texts, [add_experience] the texts as given. *)
Theorem added_entry_is_found_by_its_id (json_dumps : json -> string) (d : fields) :
  Resume (JObj d) = true ->
  (canonical_ids "exp_" (ids_of (items_of (JObj d) "experiences")) = true ->
   forall company role dates bullets,
     forallb is_str (or_empty bullets) = true ->
     exists id data',
       add_experience company role dates bullets (Some (JObj d))
       = (Ok ("Experience added successfully with ID: " ++ id), Some data')
       /\ get_experience_by_id json_dumps id (Some data')
          = (Ok (json_dumps
                   (JObj [("id", JStr id); ("company", JStr company);
                          ("role", JStr role); ("dates", JStr dates);
                          ("bullets", JArr (or_empty bullets))])),
             Some data'))
  /\ (canonical_ids "proj_" (ids_of (items_of (JObj d) "projects")) = true ->
      forall name description,
        blank name = false -> blank description = false ->
        exists id data',
          add_project name description (Some (JObj d))
          = (Ok ("Project added successfully with ID: " ++ id), Some data')
          /\ get_project_by_id json_dumps id (Some data')
             = (Ok (json_dumps
                      (JObj [("id", JStr id); ("name", JStr (strip name));
                             ("description", JStr (strip description))])),
                Some data'))
  /\ (canonical_ids "edu_" (ids_of (items_of (JObj d) "education")) = true ->
      forall degree institution year,
        blank degree = false -> blank institution = false ->
        blank year = false ->
        exists id data',
          add_education degree institution year (Some (JObj d))
          = (Ok ("Education added successfully with ID: " ++ id), Some data')
          /\ get_education_by_id json_dumps id (Some data')
             = (Ok (json_dumps
                      (JObj [("id", JStr id); ("degree", JStr (strip degree));
                             ("institution", JStr (strip institution));
                             ("year", JStr (strip year))])),
                Some data')).
Proof.
  intro Hv. destruct (Resume_parts d Hv) as (_ & He & _ & Hp & Hd).
  split; [|split].
  - intros Hc company role dates bullets Hb. do 2 eexists. split.
    + exact (add_experience_run company role dates bullets d Hv Hc Hb).
    + apply (get_by_id_stored json_dumps d "experiences" "Experience" _ _ 0%nat).
      cbn [find_by_id getitem dict_get String.eqb Ascii.eqb Bool.eqb rbind eq_str].
      rewrite String.eqb_refl. reflexivity.
  - intros Hc name description Hn Hds.
    destruct (section_get _ _ _ Hp) as [_ Hitems].
    do 2 eexists. split.
    + exact (add_project_run name description d Hv Hc Hn Hds).
    + eapply get_by_id_stored. apply find_by_id_behind.
      * exact (forallb_impl _ _ _ Project_has_id Hitems).
      * apply expected_id_fresh.
      * reflexivity.
  - intros Hc degree institution year Hg Hi Hy.
    destruct (section_get _ _ _ Hd) as [_ Hitems].
    do 2 eexists. split.
    + exact (add_education_run degree institution year d Hv Hc Hg Hi Hy).
    + eapply get_by_id_stored. apply find_by_id_behind.
      * exact (forallb_impl _ _ _ Education_has_id Hitems).
      * apply expected_id_fresh.
      * reflexivity.
Qed.

Lemma added_entry_is_found_by_its_id_witness :
  exists id data',
    add_education " MSc " "ETH" " 2021 " (Some sample)
    = (Ok ("Education added successfully with ID: " ++ id), Some data')
    /\ get_education_by_id render id (Some data')
       = (Ok (render
                (JObj [("id", JStr id); ("degree", JStr (strip " MSc "));
                       ("institution", JStr (strip "ETH"));
                       ("year", JStr (strip " 2021 "))])),
          Some data').
Proof.
  exact (proj2 (proj2 (added_entry_is_found_by_its_id render sample_fields eq_refl))
           eq_refl " MSc " "ETH" " 2021 " eq_refl eq_refl eq_refl).
Defined.

End AddLookup.

Section Reuse.
Import Py schema tools Spec Cover.

Lemma others_app (id : string) (a b : list json) :
  others id (a ++ b) = (others id a ++ others id b)%list.
Proof. unfold others. apply filter_app. Qed.

Lemma others_new (id : string) (e : json) :
  id_of e = Some id -> others id [e] = [].
Proof.
  intro H. unfold others. cbn [filter]. rewrite H, String.eqb_refl. reflexivity.
Qed.

Lemma ids_of_app (a b : list json) :
  ids_of (a ++ b) = (ids_of a ++ ids_of b)%list.
Proof. unfold ids_of. apply flat_map_app. Qed.

(** After an add, removing the generated id gives back the section, and
    the next add on that section generates what the first generated. *)
Lemma add_remove_add (P : json -> bool) (prefix key what : string)
    (d d1 : fields) (new : json) (l1 : list json) :
  (forall e, P e = true -> has_id e = true) ->
  (forall d0, Resume (JObj d0) = true -> list_of P d0 key = true) ->
  (forall d0 l, Resume (JObj d0) = true -> forallb P l = true ->
                Resume (JObj (dict_set d0 key (JArr l))) = true) ->
  Resume (JObj d) = true ->
  Resume (JObj d1) = true ->
  items_of (JObj d1) key = l1 ->
  (l1 = new :: items_of (JObj d) key
   \/ l1 = (items_of (JObj d) key ++ [new])%list) ->
  id_of new = Some (expected_id prefix (ids_of (items_of (JObj d) key))) ->
  exists d2,
    remove_by_id key what (expected_id prefix (ids_of (items_of (JObj d) key)))
      (Some (JObj d1))
    = (Ok "Resume saved successfully.", Some (JObj d2))
    /\ items_of (JObj d2) key = items_of (JObj d) key
    /\ Resume (JObj d2) = true.
Proof.
  intros HP Hlist Hset Hv Hv1 Hl1 Hshape Hnew.
  set (id := expected_id prefix (ids_of (items_of (JObj d) key))) in *.
  pose proof (expected_id_fresh prefix (ids_of (items_of (JObj d) key))) as Hfresh.
  fold id in Hfresh.
  assert (Hothers : others id l1 = items_of (JObj d) key).
  { destruct Hshape as [-> | ->].
    - change (new :: items_of (JObj d) key)
        with ([new] ++ items_of (JObj d) key)%list.
      rewrite others_app, (others_new id new Hnew), (others_absent _ _ Hfresh).
      reflexivity.
    - rewrite others_app, (others_new id new Hnew), (others_absent _ _ Hfresh).
      apply app_nil_r. }
  assert (Hin : In id (ids_of l1)).
  { destruct Hshape as [-> | ->].
    - unfold ids_of. cbn [flat_map]. rewrite Hnew. left. reflexivity.
    - rewrite ids_of_app. apply in_or_app. right.
      unfold ids_of. cbn [flat_map]. rewrite Hnew. left. reflexivity. }
  pose proof (remove_by_id_spec P key what d1 HP (Hlist d1 Hv1)
                (fun l => Hset d1 l Hv1) id) as [Hrm _].
  rewrite Hl1 in Hrm. destruct (Hrm Hin) as (data2 & Hrun & Hitems & Hv2).
  destruct (Resume_is_obj data2 Hv2) as [d2 ->].
  exists d2. split; [exact Hrun|]. split; [|exact Hv2].
  rewrite Hitems. exact Hothers.
Qed.

(** X16: an id is generated again once its entry is gone: on a valid
    document whose ids have the section's format, after an add tool has
    stored an entry, removing that entry by the generated id gives back
    the section as it was, and the next add on it generates the same
    id. *)
Theorem removed_newest_id_is_generated_again (d : fields) :
  Resume (JObj d) = true ->
  (canonical_ids "exp_" (ids_of (items_of (JObj d) "experiences")) = true ->
   forall company role dates bullets,
     forallb is_str (or_empty bullets) = true ->
     exists id data1 data2,
       add_experience company role dates bullets (Some (JObj d))
       = (Ok ("Experience added successfully with ID: " ++ id), Some data1)
       /\ remove_experience id (Some data1)
          = (Ok "Resume saved successfully.", Some data2)
       /\ items_of data2 "experiences" = items_of (JObj d) "experiences"
       /\ fst (add_experience company role dates bullets (Some data2))
          = Ok ("Experience added successfully with ID: " ++ id))
  /\ (canonical_ids "proj_" (ids_of (items_of (JObj d) "projects")) = true ->
      forall name description,
        blank name = false -> blank description = false ->
        exists id data1 data2,
          add_project name description (Some (JObj d))
          = (Ok ("Project added successfully with ID: " ++ id), Some data1)
          /\ remove_project id (Some data1)
             = (Ok "Resume saved successfully.", Some data2)
          /\ items_of data2 "projects" = items_of (JObj d) "projects"
          /\ fst (add_project name description (Some data2))
             = Ok ("Project added successfully with ID: " ++ id))
  /\ (canonical_ids "edu_" (ids_of (items_of (JObj d) "education")) = true ->
      forall degree institution year,
        blank degree = false -> blank institution = false ->
        blank year = false ->
        exists id data1 data2,
          add_education degree institution year (Some (JObj d))
          = (Ok ("Education added successfully with ID: " ++ id), Some data1)
          /\ remove_education id (Some data1)
             = (Ok "Resume saved successfully.", Some data2)
          /\ items_of data2 "education" = items_of (JObj d) "education"
          /\ fst (add_education degree institution year (Some data2))
             = Ok ("Education added successfully with ID: " ++ id)).
Proof.
  intro Hv. destruct (Resume_parts d Hv) as (_ & He & _ & Hp & Hd).
  split; [|split].
  - intros Hc company role dates bullets Hb.
    destruct (section_get _ _ _ He) as [_ Hitems0].
    pose proof (add_experience_run company role dates bullets d Hv Hc Hb) as Hadd.
    cbv zeta in Hadd.
    match type of Hadd with
    | _ = (_, Some (JObj (dict_set d _ (JArr (?new :: _))))) =>
        assert (Hnew : Experience new = true)
          by (unfold Experience, required_str, list_of; cbn; exact Hb)
    end.
    match type of Hadd with
    | _ = (_, Some (JObj ?d1)) =>
        assert (Hv1 : Resume (JObj d1) = true)
          by (apply Resume_set_experiences; [exact Hv|];
              cbn [forallb]; rewrite Hnew, Hitems0; reflexivity)
    end.
    destruct (add_remove_add Experience "exp_" "experiences" "Experience"
                d _ _ _ Experience_has_id
                (fun d0 H0 => proj1 (proj2 (Resume_parts d0 H0)))
                Resume_set_experiences Hv Hv1
                (items_of_set d "experiences" _)
                (or_introl eq_refl) eq_refl) as (d2 & Hrm & Hitems & Hv2).
    do 3 eexists. split; [exact Hadd|]. split; [exact Hrm|].
    split; [exact Hitems|].
    assert (Hc2 : canonical_ids "exp_" (ids_of (items_of (JObj d2) "experiences"))
                  = true) by (rewrite Hitems; exact Hc).
    rewrite (add_experience_run company role dates bullets d2 Hv2 Hc2 Hb).
    cbn [fst]. rewrite Hitems. reflexivity.
  - intros Hc name description Hn Hds.
    destruct (section_get _ _ _ Hp) as [_ Hitems0].
    pose proof (add_project_run name description d Hv Hc Hn Hds) as Hadd.
    cbv zeta in Hadd.
    match type of Hadd with
    | _ = (_, Some (JObj ?d1)) =>
        assert (Hv1 : Resume (JObj d1) = true)
          by (apply Resume_set_projects; [exact Hv|];
              apply forallb_snoc; [exact Hitems0|reflexivity])
    end.
    destruct (add_remove_add Project "proj_" "projects" "Project"
                d _ _ _ Project_has_id
                (fun d0 H0 =>
                   proj1 (proj2 (proj2 (proj2 (Resume_parts d0 H0)))))
                Resume_set_projects Hv Hv1
                (items_of_set d "projects" _)
                (or_intror eq_refl) eq_refl) as (d2 & Hrm & Hitems & Hv2).
    do 3 eexists. split; [exact Hadd|]. split; [exact Hrm|].
    split; [exact Hitems|].
    assert (Hc2 : canonical_ids "proj_" (ids_of (items_of (JObj d2) "projects"))
                  = true) by (rewrite Hitems; exact Hc).
    rewrite (add_project_run name description d2 Hv2 Hc2 Hn Hds).
    cbn [fst]. rewrite Hitems. reflexivity.
  - intros Hc degree institution year Hg Hi Hy.
    destruct (section_get _ _ _ Hd) as [_ Hitems0].
    pose proof (add_education_run degree institution year d Hv Hc Hg Hi Hy) as Hadd.
    cbv zeta in Hadd.
    match type of Hadd with
    | _ = (_, Some (JObj ?d1)) =>
        assert (Hv1 : Resume (JObj d1) = true)
          by (apply Resume_set_education; [exact Hv|];
              apply forallb_snoc; [exact Hitems0|reflexivity])
    end.
    destruct (add_remove_add Education "edu_" "education" "Education"
                d _ _ _ Education_has_id
                (fun d0 H0 =>
                   proj2 (proj2 (proj2 (proj2 (Resume_parts d0 H0)))))
                Resume_set_education Hv Hv1
                (items_of_set d "education" _)
                (or_intror eq_refl) eq_refl) as (d2 & Hrm & Hitems & Hv2).
    do 3 eexists. split; [exact Hadd|]. split; [exact Hrm|].
    split; [exact Hitems|].
    assert (Hc2 : canonical_ids "edu_" (ids_of (items_of (JObj d2) "education"))
                  = true) by (rewrite Hitems; exact Hc).
    rewrite (add_education_run degree institution year d2 Hv2 Hc2 Hg Hi Hy).
    cbn [fst]. rewrite Hitems. reflexivity.
Qed.

Lemma removed_newest_id_is_generated_again_witness :
  exists id data1 data2,
    add_project "Anvil" "A forge" (Some sample)
    = (Ok ("Project added successfully with ID: " ++ id), Some data1)
    /\ remove_project id (Some data1)
       = (Ok "Resume saved successfully.", Some data2)
    /\ items_of data2 "projects" = items_of sample "projects"
    /\ fst (add_project "Anvil" "A forge" (Some data2))
       = Ok ("Project added successfully with ID: " ++ id).
Proof.
  exact (proj1 (proj2 (removed_newest_id_is_generated_again sample_fields eq_refl))
           eq_refl "Anvil" "A forge" eq_refl eq_refl).
Defined.

End Reuse.

(** ** The agents and the sections of the file *)

Section Agents.
Import Py schema tools Spec Cover.

Lemma agrees_trans (key : string) (a b c : json) :
  agrees_outside key a b -> agrees_outside key b c -> agrees_outside key a c.
Proof. intros Hab Hbc k Hk. rewrite (Hbc k Hk). exact (Hab k Hk). Qed.

Lemma quiet_ask (json_dumps : json -> string) (q : query) :
  quiet (ask json_dumps q).
Proof.
  destruct q; simpl;
    unfold get_resume, get_section, get_summary, get_experiences, get_skills,
      get_projects, get_education, get_list, get_experience_by_id,
      get_project_by_id, get_education_by_id, get_by_id;
    repeat (match goal with
            | |- quiet (ret _) => apply quiet_ret
            | |- quiet (lift _) => apply quiet_lift
            | |- quiet _load_resume => apply quiet_load
            | |- quiet (bind _ _) => apply quiet_bind; [|intros]
            | |- quiet (if ?b then _ else _) => destruct b
            | |- quiet (match ?x with Some _ => _ | None => _ end) =>
                destruct x as [[? ?]|]
            end).
Qed.

Lemma snd_bind_ret {A B} (m : M A) (g : A -> B) (st : store) :
  snd (bind m (fun a => ret (g a)) st) = snd (m st).
Proof. unfold bind, ret. destruct (m st) as [[a|e] st1]; reflexivity. Qed.

(** A call started on a readable file leaves a readable file, changed at
    most under the section of the tool. *)
Lemma exec_frames (json_dumps f : json -> string) (c : call) (key : string)
    (data : json) :
  match c with Query _ => True | Mutate m => section_key m = key end ->
  exists data',
    snd (exec json_dumps f c (Some data)) = Some data'
    /\ agrees_outside key data data'.
Proof.
  destruct c as [q|m]; intro Hk.
  - exists data. split; [apply quiet_ask|apply agrees_refl].
  - cbn [exec]. rewrite snd_bind_ret. subst key.
    destruct (run f m (Some data)) as [r st'] eqn:Hrun.
    destruct (frames_run f m data r st' Hrun) as (data' & -> & Ha).
    exists data'. split; [reflexivity|exact Ha].
Qed.

(** The tools an agent of the tree holds assign to the agent's section;
    the two coordinators hold read tools only. *)
Lemma may_call_section (a : agent) (c : call) :
  In a (tree root_agent) -> may_call a c = true ->
  match c with
  | Query _ => True
  | Mutate m => agent_section a = Some (section_key m)
  end.
Proof.
  intros Ha Hc. destruct c as [q|m]; [exact I|].
  simpl in Ha.
  repeat (destruct Ha as [<-|Ha]; [destruct m; try discriminate Hc; reflexivity|]).
  contradiction.
Qed.

(** X17: whatever sequence of calls an agent of the tree makes with the
    tools it holds, a readable resume file stays readable; a section agent
    changes nothing outside its own section ([summary_agent] only
    [summary], [experience_agent] only [experiences], and so on), and the
    two coordinators [unibot] and [resume_agent], which hold read tools
    only, leave the file as it was. *)
Theorem agents_write_only_their_section (json_dumps f : json -> string)
    (a : agent) (calls : list call) (data : json) :
  In a (tree root_agent) ->
  forallb (may_call a) calls = true ->
  exists data',
    session json_dumps f calls (Some data) = Some data'
    /\ match agent_section a with
       | Some key => agrees_outside key data data'
       | None => data' = data
       end.
Proof.
  intros Ha. revert data.
  induction calls as [|c rest IH]; intros data Hcalls.
  - exists data. split; [reflexivity|].
    destruct (agent_section a); [apply agrees_refl|reflexivity].
  - simpl in Hcalls. apply andb_true_iff in Hcalls.
    destruct Hcalls as [Hc Hrest].
    pose proof (may_call_section a c Ha Hc) as Hsec.
    cbn [session].
    destruct (agent_section a) as [key|] eqn:Hkey.
    + destruct (exec_frames json_dumps f c key data) as (d1 & -> & H1).
      { destruct c as [q|m]; [exact I|]. congruence. }
      destruct (IH d1 Hrest) as (d2 & Hd2 & H2).
      exists d2. split; [exact Hd2|]. exact (agrees_trans key _ _ _ H1 H2).
    + destruct c as [q|m]; [|discriminate Hsec].
      cbn [exec]. rewrite quiet_ask. exact (IH data Hrest).
Qed.

Lemma agents_write_only_their_section_witness :
  exists data',
    session render render
      [Mutate (AddBullet "exp_1" "Fixed bugs"); Query GetExperiences;
       Mutate (RemoveExperience "exp_3")] (Some sample) = Some data'
    /\ agrees_outside "experiences" sample data'.
Proof.
  apply (agents_write_only_their_section render render experience_agent
           [Mutate (AddBullet "exp_1" "Fixed bugs"); Query GetExperiences;
            Mutate (RemoveExperience "exp_3")] sample).
  - simpl. auto.
  - reflexivity.
Defined.

(** X18: every function of [tools.py] is held by exactly one agent of the
    tree under [root_agent]: each tool can be reached, and no tool is
    given to two agents. *)
Theorem every_tool_has_one_agent (t : tool) :
  exists a,
    In a (tree root_agent) /\ In t (agent_tools a)
    /\ forall b, In b (tree root_agent) -> In t (agent_tools b) -> b = a.
Proof.
  assert (Hall : forall b, In b (tree root_agent) ->
            b = unibot \/ b = resume_agent \/ b = summary_agent
            \/ b = experience_agent \/ b = skills_agent
            \/ b = projects_agent \/ b = education_agent).
  { intros b Hb. simpl in Hb. intuition auto. }
  destruct t;
    match goal with
    | |- exists a, _ /\ In ?t _ /\ _ =>
        first
          [ exists resume_agent; split; [simpl; tauto|split; [simpl; tauto|]]
          | exists summary_agent; split; [simpl; tauto|split; [simpl; tauto|]]
          | exists experience_agent; split; [simpl; tauto|split; [simpl; tauto|]]
          | exists skills_agent; split; [simpl; tauto|split; [simpl; tauto|]]
          | exists projects_agent; split; [simpl; tauto|split; [simpl; tauto|]]
          | exists education_agent; split; [simpl; tauto|split; [simpl; tauto|]] ]
    end;
    intros b Hb Ht; destruct (Hall b Hb) as [->|[->|[->|[->|[->|[->| ->]]]]]];
    simpl in Ht; try reflexivity;
    repeat (destruct Ht as [Ht|Ht]; [discriminate Ht|]); contradiction.
Qed.

End Agents.

(** ** The summary and the section getters *)

Section SummaryTrip.
Import Py schema tools Spec Cover.

Lemma rstrip_cons (c : ascii) (s : string) :
  rstrip (String c s)
  = match rstrip s with
    | EmptyString => if is_space c then EmptyString else String c EmptyString
    | r => String c r
    end.
Proof. reflexivity. Qed.

Lemma rstrip_idem (s : string) : rstrip (rstrip s) = rstrip s.
Proof.
  induction s as [|c s IH]; [reflexivity|].
  rewrite rstrip_cons. destruct (rstrip s) as [|c' r] eqn:Hr.
  - destruct (is_space c) eqn:Hc; [reflexivity|].
    rewrite rstrip_cons. cbn [rstrip]. rewrite Hc. reflexivity.
  - rewrite rstrip_cons, IH. reflexivity.
Qed.

Lemma lstrip_head (s : string) :
  lstrip s = EmptyString
  \/ exists c r, lstrip s = String c r /\ is_space c = false.
Proof.
  induction s as [|c s IH]; [left; reflexivity|].
  cbn [lstrip]. destruct (is_space c) eqn:Hc; [exact IH|].
  right. exists c, s. split; [reflexivity|exact Hc].
Qed.

Lemma rstrip_head (c : ascii) (r : string) :
  is_space c = false -> exists r', rstrip (String c r) = String c r'.
Proof.
  intro Hc. cbn [rstrip]. destruct (rstrip r) as [|c' r'].
  - rewrite Hc. eexists. reflexivity.
  - eexists. reflexivity.
Qed.

(** A trimmed text is its own trimmed form. *)
Lemma strip_idem (s : string) : strip (strip s) = strip s.
Proof.
  unfold strip. destruct (lstrip_head s) as [->|(c & r & -> & Hc)];
    [reflexivity|].
  destruct (rstrip_head c r Hc) as [r' Hr]. rewrite Hr.
  cbn [lstrip]. rewrite Hc. rewrite <- Hr. apply rstrip_idem.
Qed.

Lemma blank_strip (s : string) : blank s = false -> strip s <> EmptyString.
Proof.
  unfold blank. intros H Hs. rewrite Hs in H.
  rewrite orb_true_r in H. discriminate H.
Qed.

(** X19: on a valid document, [update_summary] with a text that is not
    blank saves, and [get_summary] on the saved file returns the trimmed
    text; that text is not empty and trimming it again changes nothing. *)
Theorem summary_round_trip (data : json) (s : string) :
  Resume data = true ->
  blank s = false ->
  exists data',
    update_summary s (Some data) = (Ok "Resume saved successfully.", Some data')
    /\ get_summary (Some data') = (Ok (JStr (strip s)), Some data')
    /\ strip s <> EmptyString
    /\ strip (strip s) = strip s.
Proof.
  intros Hv Hs. destruct (Resume_is_obj data Hv) as [d ->].
  exists (JObj (dict_set d "summary" (JStr (strip s)))).
  split; [|split; [|split]].
  - unfold update_summary. rewrite Hs.
    unfold bind, lift, _load_resume. cbn [setitem].
    unfold _save_resume. rewrite validate_ok; [reflexivity|].
    apply Resume_set_summary. exact Hv.
  - unfold get_summary, bind, lift, _load_resume. cbn [get].
    rewrite dict_get_set_same. reflexivity.
  - exact (blank_strip s Hs).
  - apply strip_idem.
Qed.

Lemma summary_round_trip_witness :
  exists data',
    update_summary "  Staff engineer " (Some sample)
    = (Ok "Resume saved successfully.", Some data')
    /\ get_summary (Some data') = (Ok (JStr "Staff engineer"), Some data')
    /\ "Staff engineer" <> EmptyString
    /\ strip "Staff engineer" = "Staff engineer".
Proof.
  exact (summary_round_trip sample "  Staff engineer " eq_refl eq_refl).
Defined.

(** X20: for a list section, [get_section] and the section's own getter
    ([get_experiences], [get_skills], [get_projects], [get_education])
    return the same text when the file has the key; when the key is
    missing, [get_section] renders [None] where the getter renders the
    empty list. *)
Theorem get_section_and_list_getters (json_dumps : json -> string)
    (d : fields) (key : string) :
  In key ["experiences"; "skills"; "projects"; "education"] ->
  (forall v, dict_get d key = Some v ->
     get_section json_dumps key (Some (JObj d)) = (Ok (json_dumps v), Some (JObj d))
     /\ get_list json_dumps key (Some (JObj d)) = (Ok (json_dumps v), Some (JObj d)))
  /\ (dict_get d key = None ->
     get_section json_dumps key (Some (JObj d))
     = (Ok (json_dumps JNull), Some (JObj d))
     /\ get_list json_dumps key (Some (JObj d))
        = (Ok (json_dumps (JArr [])), Some (JObj d))).
Proof.
  intro Hkey.
  assert (Hvalid : negb (existsb (String.eqb key) valid_sections) = false).
  { simpl in Hkey.
    destruct Hkey as [<-|[<-|[<-|[<-|[]]]]]; reflexivity. }
  split; [intros v Hd|intro Hd];
    unfold get_section, get_list, bind, lift, _load_resume;
    rewrite Hvalid; cbn [get]; rewrite Hd; split; reflexivity.
Qed.

Lemma get_section_and_list_getters_witness :
  get_section render "skills" (Some (JObj [("summary", JStr "Engineer")]))
  = (Ok (render JNull), Some (JObj [("summary", JStr "Engineer")]))
  /\ get_skills render (Some (JObj [("summary", JStr "Engineer")]))
     = (Ok (render (JArr [])), Some (JObj [("summary", JStr "Engineer")])).
Proof.
  refine (proj2 (get_section_and_list_getters render
                   [("summary", JStr "Engineer")] "skills" _) eq_refl).
  simpl. auto.
Defined.

End SummaryTrip.

(** ** Editing one entry *)

Section EntryEdits.
Import Py schema tools Spec Cover.

Lemma find_by_id_some (items : list json) (id : string) (n : nat) :
  forallb has_id items = true ->
  In id (ids_of items) ->
  exists i e, find_by_id items id n = Ok (Some (i, e)).
Proof.
  revert n. induction items as [|x rest IH]; intros n Hid Hin; [destruct Hin|].
  simpl in Hid. apply andb_true_iff in Hid. destruct Hid as [Hx Hrest].
  unfold has_id in Hx. unfold ids_of in Hin. cbn [flat_map] in Hin.
  destruct (id_of x) as [s|] eqn:Hs; [|discriminate Hx].
  unfold id_of in Hs. destruct x as [| | | | | |d]; try discriminate Hs.
  destruct (dict_get d "id") as [[| | | |s'| |]|] eqn:Hd; try discriminate Hs.
  inversion Hs; subst s'; clear Hs.
  cbn [find_by_id getitem]. rewrite Hd. cbn [rbind eq_str].
  destruct (String.eqb s id) eqn:He.
  - eexists _, _. reflexivity.
  - apply in_app_or in Hin. destruct Hin as [[Heq|[]]|Hin].
    + subst s. rewrite String.eqb_refl in He. discriminate He.
    + exact (IH (S n) Hrest Hin).
Qed.

Lemma find_by_id_list_set (items : list json) (id : string) (n i : nat)
    (e e' : json) :
  find_by_id items id n = Ok (Some (i, e)) ->
  getitem e' "id" = getitem e "id" ->
  find_by_id (list_set items (i - n) e') id n = Ok (Some (i, e')).
Proof.
  revert n. induction items as [|x rest IH]; intros n Hf He; simpl in Hf.
  - discriminate Hf.
  - destruct (getitem x "id") as [v|] eqn:Hx; [|discriminate Hf]. simpl in Hf.
    destruct (eq_str v id) eqn:Hv.
    + inversion Hf; subst. rewrite Nat.sub_diag. cbn [list_set find_by_id].
      rewrite He, Hx. cbn [rbind]. rewrite Hv. reflexivity.
    + destruct (find_by_id_sound _ _ _ _ _ Hf) as (Hle & _).
      replace (i - n)%nat with (S (i - S n)) by lia.
      cbn [list_set find_by_id]. rewrite Hx. cbn [rbind]. rewrite Hv.
      exact (IH (S n) Hf He).
Qed.

Lemma find_by_id_replaced (items : list json) (id : string) (i : nat)
    (e e' : json) :
  find_by_id items id 0 = Ok (Some (i, e)) ->
  getitem e' "id" = getitem e "id" ->
  find_by_id (list_set items i e') id 0 = Ok (Some (i, e')).
Proof.
  intros Hf He. pose proof (find_by_id_list_set _ _ _ _ _ e' Hf He) as H.
  rewrite Nat.sub_0_r in H. exact H.
Qed.

Lemma found_id (items : list json) (id : string) (n i : nat) (p : fields) :
  find_by_id items id n = Ok (Some (i, JObj p)) ->
  In (JObj p) items /\ id_of (JObj p) = Some id.
Proof.
  intro Hf. destruct (find_by_id_sound _ _ _ _ _ Hf) as (_ & Hnth & v & Hv & He).
  split; [exact (nth_error_In _ _ Hnth)|].
  cbn [getitem] in Hv. unfold id_of.
  destruct (dict_get p "id") as [x|]; [|discriminate Hv].
  inversion Hv; subst x. destruct v; try discriminate He.
  simpl in He. apply String.eqb_eq in He. subst. reflexivity.
Qed.

(** X21: on a valid document, an update tool given an id that some entry
    of its section carries saves, and the lookup by that id on the saved
    file returns the first entry of that id with the given fields
    assigned: the update is what the next lookup shows. *)
Theorem update_then_get_shows_the_update (json_dumps : json -> string)
    (data : json) (id : string) :
  Resume data = true ->
  (In id (ids_of (items_of data "experiences")) ->
     forall company role dates,
     exists p data',
       In (JObj p) (items_of data "experiences") /\ id_of (JObj p) = Some id
       /\ update_experience id company role dates (Some data)
          = (Ok "Resume saved successfully.", Some data')
       /\ get_experience_by_id json_dumps id (Some data')
          = (Ok (json_dumps
                   (JObj (assigned (assigned (assigned p "company" company
                                                (fun s => s))
                                      "role" role (fun s => s))
                            "dates" dates (fun s => s)))),
             Some data'))
  /\ (In id (ids_of (items_of data "projects")) ->
     forall name description,
     exists p data',
       In (JObj p) (items_of data "projects") /\ id_of (JObj p) = Some id
       /\ update_project id name description (Some data)
          = (Ok "Resume saved successfully.", Some data')
       /\ get_project_by_id json_dumps id (Some data')
          = (Ok (json_dumps
                   (JObj (assigned (assigned p "name" name strip)
                            "description" description strip))),
             Some data'))
  /\ (In id (ids_of (items_of data "education")) ->
     forall degree institution year,
     exists p data',
       In (JObj p) (items_of data "education") /\ id_of (JObj p) = Some id
       /\ update_education id degree institution year (Some data)
          = (Ok "Resume saved successfully.", Some data')
       /\ get_education_by_id json_dumps id (Some data')
          = (Ok (json_dumps
                   (JObj (assigned (assigned (assigned p "degree" degree strip)
                                      "institution" institution strip)
                            "year" year strip))),
             Some data')).
Proof.
  intro Hv. destruct (Resume_is_obj data Hv) as [d ->].
  destruct (Resume_parts d Hv) as (_ & He & _ & Hp & Hd).
  split; [|split]; intro Hin; intros.
  - destruct (section_get _ _ _ He) as [_ Hitems].
    destruct (find_by_id_some _ id 0
                (forallb_impl _ _ _ Experience_has_id Hitems) Hin)
      as (i & old & Hf).
    destruct (update_experience_run id company role dates d i old Hv Hf)
      as (p & -> & Hrun).
    destruct (found_id _ _ _ _ _ Hf) as [Hmem Hid].
    exists p. eexists. split; [exact Hmem|]. split; [exact Hid|].
    split; [exact Hrun|].
    apply (get_by_id_stored _ _ _ _ _ _ i).
    apply (find_by_id_replaced _ _ _ _ _ Hf).
    cbn [getitem]. rewrite !field_assigned_other by reflexivity. reflexivity.
  - destruct (section_get _ _ _ Hp) as [_ Hitems].
    destruct (find_by_id_some _ id 0
                (forallb_impl _ _ _ Project_has_id Hitems) Hin)
      as (i & old & Hf).
    destruct (update_project_run id name description d i old Hv Hf)
      as (p & -> & Hrun).
    destruct (found_id _ _ _ _ _ Hf) as [Hmem Hid].
    exists p. eexists. split; [exact Hmem|]. split; [exact Hid|].
    split; [exact Hrun|].
    apply (get_by_id_stored _ _ _ _ _ _ i).
    apply (find_by_id_replaced _ _ _ _ _ Hf).
    cbn [getitem]. rewrite !field_assigned_other by reflexivity. reflexivity.
  - destruct (section_get _ _ _ Hd) as [_ Hitems].
    destruct (find_by_id_some _ id 0
                (forallb_impl _ _ _ Education_has_id Hitems) Hin)
      as (i & old & Hf).
    destruct (update_education_run id degree institution year d i old Hv Hf)
      as (p & -> & Hrun).
    destruct (found_id _ _ _ _ _ Hf) as [Hmem Hid].
    exists p. eexists. split; [exact Hmem|]. split; [exact Hid|].
    split; [exact Hrun|].
    apply (get_by_id_stored _ _ _ _ _ _ i).
    apply (find_by_id_replaced _ _ _ _ _ Hf).
    cbn [getitem]. rewrite !field_assigned_other by reflexivity. reflexivity.
Qed.

Lemma update_then_get_shows_the_update_witness :
  exists p data',
    In (JObj p) (items_of sample "education") /\ id_of (JObj p) = Some "edu_1"
    /\ update_education "edu_1" (Some " MSc ") None (Some "2021") (Some sample)
       = (Ok "Resume saved successfully.", Some data')
    /\ get_education_by_id render "edu_1" (Some data')
       = (Ok (render
                (JObj (assigned (assigned (assigned p "degree" (Some " MSc ") strip)
                                   "institution" None strip)
                         "year" (Some "2021") strip))),
          Some data').
Proof.
  refine (proj2 (proj2 (update_then_get_shows_the_update render sample "edu_1"
                          eq_refl)) _ (Some " MSc ") None (Some "2021")).
  simpl. left. reflexivity.
Defined.

End EntryEdits.

(** ** Ids under the tools *)

Section KeptIds.
Import Py schema tools Spec Cover.

Lemma map_list_set {A B} (g : A -> B) (l : list A) (i : nat) (e e' : A) :
  nth_error l i = Some e -> g e' = g e -> map g (list_set l i e') = map g l.
Proof.
  revert i. induction l as [|x l IH]; intros i Hn He; [reflexivity|].
  destruct i as [|i]; simpl in *.
  - inversion Hn; subst. rewrite He. reflexivity.
  - rewrite (IH i Hn He). reflexivity.
Qed.

Lemma assign_if_id (e e' : json) (k : string) (arg : option string)
    (value : string -> string) :
  assign_if e k arg value = Ok e' -> String.eqb k "id" = false ->
  id_of e' = id_of e.
Proof.
  unfold assign_if. intros H Hk.
  destruct arg as [s|]; [|inversion H; reflexivity].
  destruct (truthy s); [|inversion H; reflexivity].
  destruct e as [| | | | | |d]; try discriminate H.
  inversion H; subst. unfold id_of.
  rewrite dict_get_set_other by exact Hk. reflexivity.
Qed.

Lemma with_bullets_id (e bullets : json) : id_of (with_bullets e bullets) = id_of e.
Proof.
  destruct e as [| | | | | |d]; try reflexivity.
  unfold with_bullets, id_of. rewrite dict_get_set_other by reflexivity.
  reflexivity.
Qed.

(** Writing an entry back over the one a loop found keeps the ids of the
    section when the entry has kept its id. *)
Lemma put_back_ids (data section : json) (key id : string)
    (items : list json) (i : nat) (e e' : json) :
  get data key (JArr []) = Ok section ->
  iter section = Ok items ->
  find_by_id items id 0 = Ok (Some (i, e)) ->
  id_of e' = id_of e ->
  map id_of (items_of (put_back data key i e') key)
  = map id_of (items_of data key).
Proof.
  intros Hget Hiter Hf He.
  destruct data as [| | | | | |d]; try discriminate Hget.
  unfold get in Hget. unfold put_back.
  destruct (dict_get d key) as [v|] eqn:Hd; [|reflexivity].
  inversion Hget; subst section.
  destruct v as [| | | | |l|]; try reflexivity.
  cbn [iter] in Hiter. inversion Hiter; subst items.
  rewrite items_of_set. unfold items_of. rewrite Hd.
  destruct (find_by_id_sound _ _ _ _ _ Hf) as (_ & Hnth & _).
  rewrite Nat.sub_0_r in Hnth.
  exact (map_list_set id_of l i e e' Hnth He).
Qed.

Lemma keeps_ret {A} (key : string) (data : json) (a : A) :
  keeps_ids key data (ret a).
Proof. intros r st' H. inversion H; subst. exists data. auto. Qed.

Lemma keeps_load {A} (key : string) (data : json) (k : json -> M A) :
  keeps_ids key data (k data) -> keeps_ids key data (bind _load_resume k).
Proof. intros Hk r st' H. apply (Hk r st'). exact H. Qed.

Lemma keeps_lift {A B} (key : string) (data : json) (x : result A)
    (k : A -> M B) :
  (forall a, x = Ok a -> keeps_ids key data (k a)) ->
  keeps_ids key data (bind (lift x) k).
Proof.
  intros Hk r st' H. unfold bind, lift in H. destruct x as [a|e].
  - exact (Hk a eq_refl r st' H).
  - inversion H; subst. exists data. auto.
Qed.

Lemma keeps_save (key : string) (data data' : json) :
  map id_of (items_of data' key) = map id_of (items_of data key) ->
  keeps_ids key data (_save_resume data').
Proof.
  intros Ha r st' H. unfold _save_resume in H.
  destruct (validate data'); inversion H; subst.
  - exists data'. auto.
  - exists data. auto.
Qed.

Lemma keeps_save_then {A} (key : string) (data data' : json)
    (k : string -> M A) :
  map id_of (items_of data' key) = map id_of (items_of data key) ->
  (forall s, quiet (k s)) ->
  keeps_ids key data (bind (_save_resume data') k).
Proof.
  intros Ha Hq r st' H. unfold bind in H.
  destruct (_save_resume data' (Some data)) as [[s|e] st1] eqn:Hs.
  - destruct (keeps_save key data data' Ha _ _ Hs) as (d1 & -> & Hd1).
    specialize (Hq s (Some d1)). rewrite H in Hq. simpl in Hq. subst st'.
    exists d1. auto.
  - inversion H; subst. exact (keeps_save key data data' Ha _ _ Hs).
Qed.

Ltac kept_id :=
  repeat rewrite with_bullets_id;
  repeat match goal with
         | H : assign_if ?e _ _ _ = Ok ?e' |- context [id_of ?e'] =>
             rewrite (assign_if_id _ _ _ _ _ H eq_refl)
         end;
  reflexivity.

Ltac keep_step :=
  cbv zeta;
  match goal with
  | |- keeps_ids _ _ (ret _) => apply keeps_ret
  | |- keeps_ids _ _ (bind _load_resume _) => apply keeps_load
  | |- keeps_ids _ _ (bind (_save_resume _) _) =>
      apply keeps_save_then;
      [ eapply put_back_ids; [eassumption|eassumption|eassumption|kept_id]
      | intro; first [ apply quiet_ret | apply quiet_lift ] ]
  | |- keeps_ids _ _ (_save_resume _) =>
      apply keeps_save;
      eapply put_back_ids; [eassumption|eassumption|eassumption|kept_id]
  | |- keeps_ids _ _ (bind (lift _) _) => apply keeps_lift; intros ? ?
  | |- keeps_ids _ _ (if ?b then _ else _) => destruct b
  | |- keeps_ids _ _ (match ?x with Some _ => _ | None => _ end) =>
      destruct x as [[? ?]|]
  end.

Lemma keeps_run (f : json -> string) (m : mutation) (data : json) :
  is_entry_edit m = true -> keeps_ids (section_key m) data (run f m).
Proof.
  destruct m; simpl; intro Hm; try discriminate Hm;
    unfold update_experience, add_bullet, update_bullet, remove_bullet,
      update_project, update_education;
    repeat keep_step.
Qed.

(** X22: on any readable resume file, the tools that edit one entry
    ([update_experience], [update_project], [update_education],
    [add_bullet], [update_bullet], [remove_bullet]) leave a readable file
    whose section has as many entries as before, each with the id it had
    at its position: they add, drop, reorder and re-identify nothing,
    whether they succeed, report an error or raise. *)
Theorem entry_edits_keep_the_ids (f : json -> string) (m : mutation)
    (data : json) :
  is_entry_edit m = true ->
  exists data',
    snd (run f m (Some data)) = Some data'
    /\ map id_of (items_of data' (section_key m))
       = map id_of (items_of data (section_key m)).
Proof.
  intro Hm. destruct (run f m (Some data)) as [r st'] eqn:Hrun.
  destruct (keeps_run f m data Hm r st' Hrun) as (data' & -> & Hids).
  exists data'. split; [reflexivity|exact Hids].
Qed.

Lemma entry_edits_keep_the_ids_witness :
  exists data',
    snd (run render (RemoveBullet "exp_3" 1) (Some sample)) = Some data'
    /\ map id_of (items_of data' "experiences")
       = map id_of (items_of sample "experiences").
Proof.
  exact (entry_edits_keep_the_ids render (RemoveBullet "exp_3" 1) sample eq_refl).
Defined.

End KeptIds.

(** ** The id invariant *)

Section Invariant.
Import Py schema tools Spec Cover.

Lemma items_of_field (data data' : json) (k : string) :
  field data' k = field data k -> items_of data' k = items_of data k.
Proof.
  unfold items_of, field.
  destruct data, data'; intro H;
    try rewrite H; try rewrite <- H; reflexivity.
Qed.

Lemma ids_of_map (l l' : list json) :
  map id_of l = map id_of l' -> ids_of l = ids_of l'.
Proof.
  revert l'. induction l as [|x l IH]; intros [|x' l'] H;
    try discriminate H; [reflexivity|].
  simpl in H. inversion H as [[Hx Hl]].
  unfold ids_of. cbn [flat_map]. rewrite Hx. f_equal. exact (IH l' Hl).
Qed.

Lemma canonical_ids_filter (p : string) (g : string -> bool) (ids : list string) :
  canonical_ids p ids = true -> canonical_ids p (filter g ids) = true.
Proof.
  unfold canonical_ids. induction ids as [|x ids IH]; [reflexivity|].
  cbn [forallb filter]. intro H. apply andb_true_iff in H.
  destruct H as [Hx Hids]. destruct (g x); [cbn [forallb]; rewrite Hx|];
    exact (IH Hids).
Qed.

Lemma ids_ok_same (p key : string) (data data' : json) :
  ids_of (items_of data' key) = ids_of (items_of data key) ->
  ids_ok p key data -> ids_ok p key data'.
Proof. unfold ids_ok. intros ->. auto. Qed.

Lemma ids_ok_agrees (p key k : string) (data data' : json) :
  agrees_outside key data data' -> String.eqb key k = false ->
  ids_ok p k data -> ids_ok p k data'.
Proof.
  intros Ha Hk. apply ids_ok_same. f_equal.
  apply items_of_field. exact (Ha k Hk).
Qed.

Lemma ids_ok_front (p key : string) (data data' new : json) :
  items_of data' key = new :: items_of data key ->
  id_of new = Some (expected_id p (ids_of (items_of data key))) ->
  ids_ok p key data -> ids_ok p key data'.
Proof.
  unfold ids_ok. intros -> Hnew [Hc Hn].
  change (new :: items_of data key) with ([new] ++ items_of data key)%list.
  rewrite ids_of_app.
  assert (Hone : ids_of [new] = [expected_id p (ids_of (items_of data key))])
    by (unfold ids_of; cbn [flat_map]; rewrite Hnew; reflexivity).
  rewrite Hone. split.
  - rewrite canonical_ids_app, canonical_ids_new, Hc. reflexivity.
  - cbn [app]. constructor; [apply expected_id_fresh|exact Hn].
Qed.

Lemma ids_ok_back (p key : string) (data data' new : json) :
  items_of data' key = (items_of data key ++ [new])%list ->
  id_of new = Some (expected_id p (ids_of (items_of data key))) ->
  ids_ok p key data -> ids_ok p key data'.
Proof.
  unfold ids_ok. intros -> Hnew [Hc Hn]. rewrite ids_of_app.
  assert (Hone : ids_of [new] = [expected_id p (ids_of (items_of data key))])
    by (unfold ids_of; cbn [flat_map]; rewrite Hnew; reflexivity).
  rewrite Hone. split.
  - rewrite canonical_ids_app, canonical_ids_new, Hc. reflexivity.
  - apply NoDup_app; [exact Hn|repeat constructor; intros []|].
    intros a Ha [<-|[]]. exact (expected_id_fresh p _ Ha).
Qed.

Lemma ids_ok_others (p key id : string) (data data' : json) :
  items_of data' key = others id (items_of data key) ->
  ids_ok p key data -> ids_ok p key data'.
Proof.
  unfold ids_ok. intros -> [Hc Hn]. rewrite others_ids. split.
  - apply canonical_ids_filter. exact Hc.
  - apply NoDup_filter. exact Hn.
Qed.

Lemma id_section_prefix (p key : string) :
  In (p, key) id_sections ->
  (p = "exp_" /\ key = "experiences") \/ (p = "proj_" /\ key = "projects")
  \/ (p = "edu_" /\ key = "education").
Proof.
  simpl. intros [H|[H|[H|[]]]]; inversion H; auto.
Qed.

(** What a tool leaves under its own section on a well-formed document. *)
Lemma own_ids_ok (f : json -> string) (m : mutation) (data data' : json)
    (r : result string) (p : string) :
  well_formed data ->
  run f m (Some data) = (r, Some data') ->
  In (p, section_key m) id_sections ->
  ids_ok p (section_key m) data'.
Proof.
  intros (Hv & He & Hp & Hd) Hrun Hin.
  assert (Hown : ids_ok p (section_key m) data).
  { destruct (id_section_prefix _ _ Hin) as [[-> ->]|[[-> ->]|[-> ->]]];
      assumption. }
  destruct (is_entry_edit m) eqn:Hedit.
  { destruct (keeps_run f m data Hedit _ _ Hrun) as (d1 & Hd1 & Hids).
    inversion Hd1; subst d1.
    exact (ids_ok_same _ _ _ _ (ids_of_map _ _ Hids) Hown). }
  destruct (Resume_is_obj data Hv) as [d ->].
  destruct (Resume_parts d Hv) as (_ & Hle & _ & Hlp & Hld).
  destruct m; try discriminate Hedit;
    cbn [section_key run] in Hin, Hrun, Hown |- *;
    destruct (id_section_prefix _ _ Hin) as [[Hq Hk]|[[Hq Hk]|[Hq Hk]]];
    try discriminate Hk; subst p.
  - (* add_experience *)
    destruct He as [Hc _].
    destruct (forallb is_str (or_empty bullets)) eqn:Hb.
    + pose proof (add_experience_run company role dates bullets d Hv Hc Hb) as H.
      cbv zeta in H. rewrite H in Hrun. inversion Hrun; subst.
      eapply (ids_ok_front _ _ (JObj d)); [apply items_of_set|reflexivity|exact Hown].
    + rewrite (add_experience_bad_bullets company role dates bullets d Hv Hc Hb)
        in Hrun.
      inversion Hrun; subst. exact Hown.
  - (* remove_experience *)
    pose proof (remove_by_id_spec Experience "experiences" "Experience" d
                  Experience_has_id Hle
                  (fun l => Resume_set_experiences d l Hv) experience_id) as [Hyes Hno].
    unfold remove_experience in Hrun.
    destruct (in_dec string_dec experience_id
                (ids_of (items_of (JObj d) "experiences"))) as [Hi|Hi].
    + destruct (Hyes Hi) as (d1 & Hr & Hitems & _). rewrite Hr in Hrun.
      inversion Hrun; subst. exact (ids_ok_others _ _ _ _ _ Hitems Hown).
    + rewrite (Hno Hi) in Hrun. inversion Hrun; subst. exact Hown.
  - (* add_project *)
    destruct Hp as [Hc _].
    destruct (blank name || blank description) eqn:Hb.
    + destruct (add_project_blank name description (Some (JObj d)) Hb)
        as (msg & H & _).
      rewrite H in Hrun. inversion Hrun; subst. exact Hown.
    + apply orb_false_iff in Hb. destruct Hb as [Hn Hds].
      pose proof (add_project_run name description d Hv Hc Hn Hds) as H.
      cbv zeta in H. rewrite H in Hrun. inversion Hrun; subst.
      eapply (ids_ok_back _ _ (JObj d)); [apply items_of_set|reflexivity|exact Hown].
  - (* remove_project *)
    pose proof (remove_by_id_spec Project "projects" "Project" d
                  Project_has_id Hlp
                  (fun l => Resume_set_projects d l Hv) project_id) as [Hyes Hno].
    unfold remove_project in Hrun.
    destruct (in_dec string_dec project_id
                (ids_of (items_of (JObj d) "projects"))) as [Hi|Hi].
    + destruct (Hyes Hi) as (d1 & Hr & Hitems & _). rewrite Hr in Hrun.
      inversion Hrun; subst. exact (ids_ok_others _ _ _ _ _ Hitems Hown).
    + rewrite (Hno Hi) in Hrun. inversion Hrun; subst. exact Hown.
  - (* add_education *)
    destruct Hd as [Hc _].
    destruct (blank degree || blank institution || blank year) eqn:Hb.
    + destruct (add_education_blank degree institution year (Some (JObj d)) Hb)
        as (msg & H & _).
      rewrite H in Hrun. inversion Hrun; subst. exact Hown.
    + apply orb_false_iff in Hb. destruct Hb as [Hb Hy].
      apply orb_false_iff in Hb. destruct Hb as [Hg Hi].
      pose proof (add_education_run degree institution year d Hv Hc Hg Hi Hy) as H.
      cbv zeta in H. rewrite H in Hrun. inversion Hrun; subst.
      eapply (ids_ok_back _ _ (JObj d)); [apply items_of_set|reflexivity|exact Hown].
  - (* remove_education *)
    pose proof (remove_by_id_spec Education "education" "Education" d
                  Education_has_id Hld
                  (fun l => Resume_set_education d l Hv) education_id) as [Hyes Hno].
    unfold remove_education in Hrun.
    destruct (in_dec string_dec education_id
                (ids_of (items_of (JObj d) "education"))) as [Hi|Hi].
    + destruct (Hyes Hi) as (d1 & Hr & Hitems & _). rewrite Hr in Hrun.
      inversion Hrun; subst. exact (ids_ok_others _ _ _ _ _ Hitems Hown).
    + rewrite (Hno Hi) in Hrun. inversion Hrun; subst. exact Hown.
Qed.

(** A mutating tool keeps the id invariant. *)
Lemma well_formed_run (f : json -> string) (m : mutation) (data : json) :
  well_formed data ->
  exists data', snd (run f m (Some data)) = Some data' /\ well_formed data'.
Proof.
  intro Hw. destruct (run f m (Some data)) as [r st'] eqn:Hrun.
  destruct (frames_run f m data r st' Hrun) as (data' & -> & Ha).
  exists data'. split; [reflexivity|].
  assert (Hv' : Resume data' = true).
  { destruct (writes_valid_run f m _ _ _ Hrun) as [Heq|(d0 & Heq & Hv0)];
      inversion Heq; subst; [exact (proj1 Hw)|exact Hv0]. }
  assert (Hsec : forall p k, In (p, k) id_sections ->
                   ids_ok p k data -> ids_ok p k data').
  { intros p k Hin Hok. destruct (String.eqb (section_key m) k) eqn:Hk.
    - apply String.eqb_eq in Hk. subst k.
      exact (own_ids_ok f m data data' r p Hw Hrun Hin).
    - exact (ids_ok_agrees p _ k data data' Ha Hk Hok). }
  destruct Hw as (_ & He & Hp & Hd).
  split; [exact Hv'|]. unfold id_sections in Hsec.
  split; [|split]; (apply Hsec; [simpl; tauto|assumption]).
Qed.

(** X23: the id invariant of the file is kept along every sequence of
    calls.  On a document that passes the schema and in which, for
    experiences, projects and education, no id occurs twice and every id
    with the section's prefix continues with decimal digits, each of the
    15 mutating tools and each read tool leaves a readable document with
    the same three properties, whether it succeeds, reports an error or
    raises; so does any sequence of them. *)
Theorem calls_keep_ids_unique (json_dumps f : json -> string)
    (calls : list call) (data : json) :
  well_formed data ->
  exists data',
    session json_dumps f calls (Some data) = Some data' /\ well_formed data'.
Proof.
  revert data. induction calls as [|c rest IH]; intros data Hw.
  - exists data. split; [reflexivity|exact Hw].
  - cbn [session]. destruct c as [q|m]; cbn [exec].
    + rewrite quiet_ask. exact (IH data Hw).
    + rewrite snd_bind_ret.
      destruct (well_formed_run f m data Hw) as (d1 & -> & Hw1).
      exact (IH d1 Hw1).
Qed.

Lemma calls_keep_ids_unique_witness :
  exists data',
    session render render
      [Mutate (AddExperience "Globex" "Lead" "2023" None);
       Mutate (RemoveProject "proj_1"); Query GetResume;
       Mutate (AddProject "Anvil" "A forge")] (Some sample)
    = Some data'
    /\ well_formed data'.
Proof.
  apply (calls_keep_ids_unique render render
           [Mutate (AddExperience "Globex" "Lead" "2023" None);
            Mutate (RemoveProject "proj_1"); Query GetResume;
            Mutate (AddProject "Anvil" "A forge")] sample).
  unfold well_formed, ids_ok.
  repeat split; try reflexivity;
    repeat constructor; simpl; intuition discriminate.
Defined.

End Invariant.

(** ** Returning rather than raising *)

Section Returning.
Import Py schema tools Spec Cover.

Lemma find_by_id_total (items : list json) (id : string) (n : nat) :
  forallb has_id items = true -> exists o, find_by_id items id n = Ok o.
Proof.
  intro Hid. destruct (in_dec string_dec id (ids_of items)) as [Hin|Hnot].
  - destruct (find_by_id_some items id n Hid Hin) as (i & e & H). eauto.
  - exists None. exact (find_by_id_none items id n Hid Hnot).
Qed.

Lemma returns_text (m : M string) (data : json) :
  returns m data -> returns (s <- m ;; ret (Text s)) data.
Proof.
  intros (a & data' & H). exists (Text a), data'. unfold bind. rewrite H.
  reflexivity.
Qed.

Lemma get_by_id_returns (json_dumps : json -> string) (P : json -> bool)
    (key what id : string) (d : fields) :
  (forall e, P e = true -> has_id e = true) ->
  list_of P d key = true ->
  returns (get_by_id json_dumps key what id) (JObj d).
Proof.
  intros HP Hl. destruct (section_get _ _ _ Hl) as [Hget Hitems].
  destruct (find_by_id_total _ id 0 (forallb_impl _ _ _ HP Hitems)) as [o Ho].
  unfold returns, get_by_id, bind, lift, _load_resume.
  rewrite Hget. cbn [iter]. rewrite Ho.
  destruct o as [[i e]|]; eexists _, _; reflexivity.
Qed.

Lemma remove_by_id_returns (P : json -> bool) (key what id : string) (d : fields) :
  (forall e, P e = true -> has_id e = true) ->
  list_of P d key = true ->
  (forall l, forallb P l = true ->
             Resume (JObj (dict_set d key (JArr l))) = true) ->
  returns (remove_by_id key what id) (JObj d).
Proof.
  intros HP Hl Hset.
  destruct (remove_by_id_spec P key what d HP Hl Hset id) as [Hyes Hno].
  destruct (in_dec string_dec id (ids_of (items_of (JObj d) key))) as [Hi|Hi].
  - destruct (Hyes Hi) as (d1 & Hr & _). eexists _, _. exact Hr.
  - eexists _, _. exact (Hno Hi).
Qed.

(** The experience a bullet tool finds when every experience has the
    [bullets] key. *)
Lemma found_bullets (d : fields) (id : string) (pos : nat) (exp : json) :
  Resume (JObj d) = true ->
  with_all_bullets (JObj d) = true ->
  find_by_id (items_of (JObj d) "experiences") id 0 = Ok (Some (pos, exp)) ->
  exists p l,
    exp = JObj p /\ dict_get p "bullets" = Some (JArr l)
    /\ forallb is_str l = true.
Proof.
  intros Hv Hb Hf.
  destruct (found_experience d id pos exp Hv Hf)
    as (_ & _ & Hnth & p & -> & _ & [Hnone|(l & Hl & Hstr)]).
  - pose proof (forallb_nth _ _ _ _ Hb Hnth) as H. simpl in H.
    rewrite Hnone in H. discriminate H.
  - exists p, l. auto.
Qed.

Lemma in_range_nth {A} (l : list A) (i : Z) :
  (0 <=? i) && (i <? Z.of_nat (List.length l)) = true ->
  exists x, nth_error l (Z.to_nat i) = Some x.
Proof.
  intro H. apply andb_true_iff in H. destruct H as [H0 H1].
  apply Z.leb_le in H0. apply Z.ltb_lt in H1.
  destruct (nth_error l (Z.to_nat i)) as [x|] eqn:Hx; [eauto|].
  apply nth_error_None in Hx. lia.
Qed.

Lemma bullet_tools_return (f : json -> string) (d : fields) (id : string) :
  Resume (JObj d) = true ->
  with_all_bullets (JObj d) = true ->
  (forall text, returns (add_bullet id text) (JObj d))
  /\ (forall i text, returns (update_bullet id i text) (JObj d))
  /\ (forall i, returns (remove_bullet f id i) (JObj d)).
Proof.
  intros Hv Hb.
  destruct (Resume_parts d Hv) as (_ & He & _).
  destruct (section_get _ _ _ He) as [Hget Hitems].
  destruct (find_by_id_total _ id 0
              (forallb_impl _ _ _ Experience_has_id Hitems)) as [o Ho].
  destruct o as [[pos exp]|].
  - destruct (found_bullets d id pos exp Hv Hb Ho) as (p & l & -> & Hl & Hstr).
    split; [|split].
    + intro text. unfold returns, add_bullet.
      destruct (blank text); [eexists _, _; reflexivity|].
      unfold bind, lift, _load_resume.
      rewrite Hget. cbn [iter]. rewrite Ho. cbn [getitem]. rewrite Hl.
      cbn [append].
      rewrite (save_bullets d p id pos _ Hv Ho)
        by (apply forallb_snoc; [exact Hstr|reflexivity]).
      eexists _, _; reflexivity.
    + intros i text. unfold returns, update_bullet.
      destruct (blank text); [eexists _, _; reflexivity|].
      unfold bind, lift, _load_resume.
      rewrite Hget. cbn [iter]. rewrite Ho. cbn [getitem]. rewrite Hl.
      cbn [len].
      destruct ((0 <=? i) && (i <? Z.of_nat (List.length l)));
        [|eexists _, _; reflexivity].
      cbn [setindex].
      rewrite (save_bullets d p id pos _ Hv Ho)
        by (apply list_set_forallb; [exact Hstr|reflexivity]).
      eexists _, _; reflexivity.
    + intro i. unfold returns, remove_bullet, bind, lift, _load_resume.
      rewrite Hget. cbn [iter]. rewrite Ho. cbn [getitem]. rewrite Hl.
      cbn [len].
      destruct ((0 <=? i) && (i <? Z.of_nat (List.length l))) eqn:Hi;
        [|eexists _, _; reflexivity].
      destruct (in_range_nth l i Hi) as [x Hx].
      pose proof (forallb_nth _ _ _ _ Hstr Hx) as Hs.
      destruct x as [| | | |removed| |]; try discriminate Hs.
      cbn [pop]. rewrite Hx. cbn [fst snd].
      rewrite (save_bullets d p id pos _ Hv Ho)
        by (apply list_del_forallb; exact Hstr).
      rewrite removed_message_text. eexists _, _; reflexivity.
  - split; [|split]; intros; unfold returns, add_bullet, update_bullet, remove_bullet;
      try match goal with
          | |- context [if blank ?s then _ else _] =>
              destruct (blank s); [eexists _, _; reflexivity|]
          end;
      unfold bind, lift, _load_resume; rewrite Hget; cbn [iter]; rewrite Ho;
      eexists _, _; reflexivity.
Qed.

Lemma update_tools_return (d : fields) (id : string) :
  Resume (JObj d) = true ->
  (forall company role dates,
     returns (update_experience id company role dates) (JObj d))
  /\ (forall name description,
     returns (update_project id name description) (JObj d))
  /\ (forall degree institution year,
     returns (update_education id degree institution year) (JObj d)).
Proof.
  intro Hv. destruct (Resume_parts d Hv) as (_ & He & _ & Hp & Hd).
  split; [|split]; intros.
  - destruct (section_get _ _ _ He) as [Hget Hitems].
    destruct (find_by_id_total _ id 0
                (forallb_impl _ _ _ Experience_has_id Hitems)) as [[[i old]|] Ho].
    + destruct (update_experience_run id company role dates d i old Hv Ho)
        as (p & _ & H).
      eexists _, _. exact H.
    + unfold returns, update_experience, bind, lift, _load_resume.
      rewrite Hget. cbn [iter]. rewrite Ho. eexists _, _; reflexivity.
  - destruct (section_get _ _ _ Hp) as [Hget Hitems].
    destruct (find_by_id_total _ id 0
                (forallb_impl _ _ _ Project_has_id Hitems)) as [[[i old]|] Ho].
    + destruct (update_project_run id name description d i old Hv Ho)
        as (p & _ & H).
      eexists _, _. exact H.
    + unfold returns, update_project, bind, lift, _load_resume.
      rewrite Hget. cbn [iter]. rewrite Ho. eexists _, _; reflexivity.
  - destruct (section_get _ _ _ Hd) as [Hget Hitems].
    destruct (find_by_id_total _ id 0
                (forallb_impl _ _ _ Education_has_id Hitems)) as [[[i old]|] Ho].
    + destruct (update_education_run id degree institution year d i old Hv Ho)
        as (p & _ & H).
      eexists _, _. exact H.
    + unfold returns, update_education, bind, lift, _load_resume.
      rewrite Hget. cbn [iter]. rewrite Ho. eexists _, _; reflexivity.
Qed.

Lemma skill_tools_return (d : fields) (skill : string) :
  Resume (JObj d) = true ->
  returns (add_skill skill) (JObj d) /\ returns (remove_skill skill) (JObj d).
Proof.
  intro Hv. destruct (Resume_parts d Hv) as (_ & _ & Hs & _).
  destruct (section_get _ _ _ Hs) as [_ Hstr].
  destruct (existsb (fun v => eq_str v (strip skill)) (items_of (JObj d) "skills"))
    eqn:Hin; split.
  - destruct (blank skill) eqn:Hb.
    + unfold returns, add_skill. rewrite Hb. eexists _, _; reflexivity.
    + eexists _, _. exact (add_skill_present skill d Hv Hb Hin).
  - destruct (remove_first_split _ _ Hin) as (before & after & Hl & _ & Hrm).
    eexists _, _. apply (remove_skill_present skill d _ Hv Hin Hrm).
    rewrite Hl in Hstr. rewrite forallb_app in Hstr |- *.
    apply andb_true_iff in Hstr. destruct Hstr as [H1 H2].
    simpl in H2. rewrite H1, H2. reflexivity.
  - destruct (blank skill) eqn:Hb.
    + unfold returns, add_skill. rewrite Hb. eexists _, _; reflexivity.
    + eexists _, _. exact (add_skill_absent skill d Hv Hb Hin).
  - eexists _, _. exact (remove_skill_absent skill d Hv Hin).
Qed.

(** X24: expected failures are returned, not raised.  On a document that
    passes the schema, whose ids have their section's format and whose
    experiences all have the [bullets] key, every call of every tool
    returns a value and leaves a readable file; the one exception by
    argument is [add_experience] with a bullet that is not a string, which
    the schema refuses. *)
Theorem calls_return_rather_than_raise (json_dumps f : json -> string)
    (c : call) (data : json) :
  Resume data = true ->
  ids_formatted data = true ->
  with_all_bullets data = true ->
  acceptable c = true ->
  exists v data', exec json_dumps f c (Some data) = (Ok v, Some data').
Proof.
  intros Hv Hfmt Hb Hc. destruct (Resume_is_obj data Hv) as [d ->].
  destruct (Resume_parts d Hv) as (_ & Hle & Hls & Hlp & Hld).
  unfold ids_formatted, id_sections in Hfmt. cbn [forallb fst snd] in Hfmt.
  apply andb_true_iff in Hfmt. destruct Hfmt as [Hce Hfmt].
  apply andb_true_iff in Hfmt. destruct Hfmt as [Hcp Hfmt].
  apply andb_true_iff in Hfmt. destruct Hfmt as [Hcd _].
  change (returns (exec json_dumps f c) (JObj d)).
  destruct c as [q|m].
  - destruct q; cbn [exec ask];
      try (apply returns_text;
           first [ exact (get_by_id_returns json_dumps Experience _ _ _ d
                            Experience_has_id Hle)
                 | exact (get_by_id_returns json_dumps Project _ _ _ d
                            Project_has_id Hlp)
                 | exact (get_by_id_returns json_dumps Education _ _ _ d
                            Education_has_id Hld) ]);
      unfold returns, get_resume, get_section, get_summary, get_experiences,
        get_skills, get_projects, get_education, get_list, bind, lift,
        _load_resume, ret; cbn [get];
      repeat match goal with
             | |- context [if ?b then _ else _] => destruct b
             | |- context [dict_get d ?k] => destruct (dict_get d k)
             end;
      eexists _, _; reflexivity.
  - cbn [exec]. apply returns_text.
    destruct m; cbn [run].
    + (* update_summary *)
      unfold returns, update_summary.
      destruct (blank new_summary); [eexists _, _; reflexivity|].
      unfold bind, lift, _load_resume. cbn [setitem]. unfold _save_resume.
      rewrite validate_ok by (apply Resume_set_summary; exact Hv).
      eexists _, _; reflexivity.
    + exact (proj1 (update_tools_return d experience_id Hv) company role dates).
    + eexists _, _.
      exact (add_experience_run company role dates bullets d Hv Hce Hc).
    + exact (remove_by_id_returns Experience _ _ _ d Experience_has_id Hle
               (fun l => Resume_set_experiences d l Hv)).
    + exact (proj1 (bullet_tools_return f d experience_id Hv Hb) bullet).
    + exact (proj1 (proj2 (bullet_tools_return f d experience_id Hv Hb))
               bullet_index new_bullet).
    + exact (proj2 (proj2 (bullet_tools_return f d experience_id Hv Hb))
               bullet_index).
    + exact (proj1 (skill_tools_return d skill Hv)).
    + exact (proj2 (skill_tools_return d skill Hv)).
    + destruct (blank name || blank description) eqn:Hbl.
      * destruct (add_project_blank name description (Some (JObj d)) Hbl)
          as (msg & H & _).
        eexists _, _. exact H.
      * apply orb_false_iff in Hbl. destruct Hbl as [Hn Hds].
        eexists _, _. exact (add_project_run name description d Hv Hcp Hn Hds).
    + exact (proj1 (proj2 (update_tools_return d project_id Hv)) name description).
    + exact (remove_by_id_returns Project _ _ _ d Project_has_id Hlp
               (fun l => Resume_set_projects d l Hv)).
    + exact (proj2 (proj2 (update_tools_return d education_id Hv))
               degree institution year).
    + destruct (blank degree || blank institution || blank year) eqn:Hbl.
      * destruct (add_education_blank degree institution year (Some (JObj d)) Hbl)
          as (msg & H & _).
        eexists _, _. exact H.
      * apply orb_false_iff in Hbl. destruct Hbl as [Hbl Hy].
        apply orb_false_iff in Hbl. destruct Hbl as [Hg Hi].
        eexists _, _.
        exact (add_education_run degree institution year d Hv Hcd Hg Hi Hy).
    + exact (remove_by_id_returns Education _ _ _ d Education_has_id Hld
               (fun l => Resume_set_education d l Hv)).
Qed.

Lemma calls_return_rather_than_raise_witness :
  exists v data',
    exec render render (Mutate (RemoveBullet "exp_3" 7)) (Some sample)
    = (Ok v, Some data').
Proof.
  exact (calls_return_rather_than_raise render render
           (Mutate (RemoveBullet "exp_3" 7)) sample
           eq_refl eq_refl eq_refl eq_refl).
Defined.

End Returning.

(** ** Skills stay distinct *)

Section DistinctSkills.
Import Py schema tools Spec Cover.

Lemma remove_skill_run (skill : string) (d : fields) :
  Resume (JObj d) = true ->
  existsb (fun v => eq_str v (strip skill)) (items_of (JObj d) "skills") = true ->
  exists before after,
    items_of (JObj d) "skills" = (before ++ JStr (strip skill) :: after)%list
    /\ remove_skill skill (Some (JObj d))
       = (Ok "Resume saved successfully.",
          Some (JObj (dict_set d "skills" (JArr (before ++ after)%list)))).
Proof.
  intros Hv Hin. destruct (Resume_parts d Hv) as (_ & _ & Hs & _).
  destruct (section_get _ _ _ Hs) as [_ Hstr].
  destruct (remove_first_split _ _ Hin) as (before & after & Hl & _ & Hrm).
  exists before, after. split; [exact Hl|].
  apply (remove_skill_present skill d _ Hv Hin Hrm).
  rewrite Hl in Hstr. rewrite forallb_app in Hstr |- *.
  apply andb_true_iff in Hstr. destruct Hstr as [H1 H2].
  simpl in H2. rewrite H1, H2. reflexivity.
Qed.

(** A mutating tool keeps a valid document valid and its skills distinct. *)
Lemma distinct_skills_run (f : json -> string) (m : mutation) (data : json) :
  Resume data = true -> NoDup (items_of data "skills") ->
  exists data',
    snd (run f m (Some data)) = Some data'
    /\ Resume data' = true /\ NoDup (items_of data' "skills").
Proof.
  intros Hv Hn. destruct (run f m (Some data)) as [r st'] eqn:Hrun.
  destruct (frames_run f m data r st' Hrun) as (data' & -> & Ha).
  exists data'. split; [reflexivity|]. split.
  { destruct (writes_valid_run f m _ _ _ Hrun) as [Heq|(d0 & Heq & Hv0)];
      inversion Heq; subst; assumption. }
  destruct (String.eqb (section_key m) "skills") eqn:Hk.
  2:{ rewrite (items_of_field data data' "skills" (Ha _ Hk)). exact Hn. }
  destruct (Resume_is_obj data Hv) as [d ->].
  destruct m; try discriminate Hk; cbn [run] in Hrun.
  - (* add_skill *)
    destruct (blank skill) eqn:Hb.
    { unfold add_skill in Hrun. rewrite Hb in Hrun.
      inversion Hrun; subst. exact Hn. }
    destruct (existsb (fun v => eq_str v (strip skill))
                (items_of (JObj d) "skills")) eqn:Hin.
    + rewrite (add_skill_present skill d Hv Hb Hin) in Hrun.
      inversion Hrun; subst. exact Hn.
    + rewrite (add_skill_absent skill d Hv Hb Hin) in Hrun.
      inversion Hrun; subst. rewrite items_of_set.
      apply NoDup_app; [exact Hn|repeat constructor; intros []|].
      intros a Hin' [<-|[]].
      pose proof (proj2 (existsb_eq_str _ _) Hin') as Hyes.
      unfold items_of in Hin. congruence.
  - (* remove_skill *)
    destruct (existsb (fun v => eq_str v (strip skill))
                (items_of (JObj d) "skills")) eqn:Hin.
    + destruct (remove_skill_run skill d Hv Hin) as (before & after & Hl & H).
      rewrite H in Hrun. inversion Hrun; subst. rewrite items_of_set.
      rewrite Hl in Hn. exact (NoDup_remove_1 _ _ _ Hn).
    + rewrite (remove_skill_absent skill d Hv Hin) in Hrun.
      inversion Hrun; subst. exact Hn.
Qed.

(** X25: on a document that passes the schema and whose skills are
    pairwise different, every sequence of calls leaves a document that
    passes the schema and whose skills are pairwise different: [add_skill]
    adds only a skill the list does not hold, and no other tool writes the
    skills. *)
Theorem calls_keep_skills_distinct (json_dumps f : json -> string)
    (calls : list call) (data : json) :
  Resume data = true -> NoDup (items_of data "skills") ->
  exists data',
    session json_dumps f calls (Some data) = Some data'
    /\ Resume data' = true /\ NoDup (items_of data' "skills").
Proof.
  revert data. induction calls as [|c rest IH]; intros data Hv Hn.
  - exists data. auto.
  - cbn [session]. destruct c as [q|m]; cbn [exec].
    + rewrite quiet_ask. exact (IH data Hv Hn).
    + rewrite snd_bind_ret.
      destruct (distinct_skills_run f m data Hv Hn) as (d1 & -> & Hv1 & Hn1).
      exact (IH d1 Hv1 Hn1).
Qed.

Lemma calls_keep_skills_distinct_witness :
  exists data',
    session render render
      [Mutate (AddSkill " Rocq "); Mutate (AddSkill "Rocq");
       Mutate (RemoveSkill "Python"); Query GetSkills] (Some sample)
    = Some data'
    /\ Resume data' = true /\ NoDup (items_of data' "skills").
Proof.
  apply (calls_keep_skills_distinct render render
           [Mutate (AddSkill " Rocq "); Mutate (AddSkill "Rocq");
            Mutate (RemoveSkill "Python"); Query GetSkills] sample).
  - reflexivity.
  - simpl. repeat constructor. intros [].
Defined.

End DistinctSkills.
